(** * Chain maintenance (libraries/chain/db_maint.cpp): a shallow embedding

    The maintenance pass of the chain database is embedded as pure functions
    over an explicit [database] record.  Fixed-width C++ integers are [Z]
    with the wrap-around written out, [fc::safe<int64_t>] ([share_type])
    arithmetic returns [None] where the C++ throws, [std::vector] buffers are
    lists read and written by index, and [std::map] / [flat_map] are [gmap]s. *)

From stdpp Require Import base numbers option list gmap sorting.

Local Open Scope Z_scope.

(** ** Fixed-width integers *)

Module Int.

Definition u16 (x : Z) : Z := x mod 2 ^ 16.
Definition u32 (x : Z) : Z := x mod 2 ^ 32.
Definition u64 (x : Z) : Z := x mod 2 ^ 64.
Definition u128 (x : Z) : Z := x mod 2 ^ 128.

  (** Conversion of a [uint64_t] to [int64_t] (two's complement). *)
Definition i64 (x : Z) : Z :=
    let r := u64 x in if r <? 2 ^ 63 then r else r - 2 ^ 64.

Definition in_i64 (x : Z) : bool := (- 2 ^ 63 <=? x) && (x <? 2 ^ 63).

  (** [fc::safe<int64_t>]: every operation checks for overflow and throws. *)
Definition safe_add (a b : Z) : option Z :=
    if in_i64 (a + b) then Some (a + b) else None.
Definition safe_sub (a b : Z) : option Z :=
    if in_i64 (a - b) then Some (a - b) else None.

  (** [assert] and [FC_ASSERT]: the run is abandoned when the condition fails. *)
Definition assert (b : bool) : option unit := if b then Some tt else None.

End Int.

Import Int.

(** ** Vectors read and written by index

    [_vote_tally_buffer] and the two histograms are [vector<uint64_t>].
    [vget] is [v[i]]; the callers of this file size the buffers before any
    access, and outside the vector (undefined in C++) [vget] reads [0]. *)

Definition vget (v : list Z) (i : Z) : Z :=
  if i <? 0 then 0 else default 0 (v !! Z.to_nat i).

(** [v[i] += x] on a [vector<uint64_t>]. *)
Definition vadd (v : list Z) (i : Z) (x : Z) : list Z :=
  <[Z.to_nat i := u64 (vget v i + x)]> v.

(** [v.resize(n)]: keeps the first [n] cells and pads with zeros. *)
Definition resize (n : Z) (v : list Z) : list Z :=
  take (Z.to_nat n) v ++ replicate (Z.to_nat n - length v)%nat 0.

Definition vsize {A} (v : list A) : Z := Z.of_nat (length v).

(** ** Vote ids

    [vote_id_type] (protocol/vote.hpp) packs a vote type in the low 8 bits
    of a 32-bit [content] and the instance above them; it converts to the
    instance when used as an index and is compared by [content]. *)

Record vote_id_type := mk_vote_id { content : Z }.

Definition instance (v : vote_id_type) : Z := Z.shiftr (content v) 8.

Definition vote_id_lt (a b : vote_id_type) : bool := content a <? content b.

(** ** sort_votable_objects *)

(** The two indices the template is instantiated at share this interface. *)
Class Votable (T : Type) := {
  vote_id : T -> vote_id_type;
  object_id : T -> Z
}.

Section Sorting.
Context {T : Type} (comp : T -> T -> bool).

Fixpoint insert_by (x : T) (l : list T) : list T :=
    match l with
    | [] => [x]
    | y :: l' => if comp x y then x :: y :: l' else y :: insert_by x l'
    end.

Fixpoint sort_by (l : list T) : list T :=
    match l with
    | [] => []
    | x :: l' => insert_by x (sort_by l')
    end.

  (** [std::partial_sort(first, first + count, last, comp)] followed by
      [resize(count)]: the [count] first elements of the sorted range.  The
      comparisons of this file order objects with distinct keys totally, and
      the sorted range is then the same for every sorting algorithm
      ([sort_by_unique] below). *)
Definition partial_sort_take (count : nat) (l : list T) : list T :=
    take count (sort_by l).

  (** [not_after a b]: [b] does not come strictly before [a]. *)
Definition not_after (a b : T) : Prop := comp b a = false.
End Sorting.

Section SortVotable.
Context {T : Type} `{Votable T}.

  (** The comparison lambda of [sort_votable_objects]; the tallies are read
      as [share_type]. *)
Definition votable_before (tally : list Z) (a b : T) : bool :=
    let oa_vote := i64 (vget tally (instance (vote_id a))) in
    let ob_vote := i64 (vget tally (instance (vote_id b))) in
    if negb (oa_vote =? ob_vote) then ob_vote <? oa_vote
    else vote_id_lt (vote_id a) (vote_id b).

  (** The tally of a candidate as the comparison reads it. *)
Definition tallied_votes (tally : list Z) (a : T) : Z :=
    i64 (vget tally (instance (vote_id a))).

  (** [a] may stand before [b]: more votes, or as many and a vote id that
      is not greater. *)
Definition ranks_before (tally : list Z) (a b : T) : Prop :=
    tallied_votes tally b < tallied_votes tally a
    \/ (tallied_votes tally a = tallied_votes tally b
        /\ content (vote_id a) <= content (vote_id b)).

Definition sort_votable_objects (tally : list Z) (all_objects : list T)
      (count : Z) : list T :=
    let count := Z.min count (vsize all_objects) in
    partial_sort_take (votable_before tally) (Z.to_nat count) all_objects.
End SortVotable.

(** ** Objects of the store *)

Record witness_object := {
  wit_id : Z;
  witness_account : Z;
  wit_vote_id : vote_id_type;
  wit_total_votes : Z
}.

Record committee_member_object := {
  cm_id : Z;
  committee_member_account : Z;
  cm_vote_id : vote_id_type;
  cm_total_votes : Z
}.

#[export] Instance witness_votable : Votable witness_object :=
  {| vote_id := wit_vote_id; object_id := wit_id |}.

#[export] Instance committee_member_votable : Votable committee_member_object :=
  {| vote_id := cm_vote_id; object_id := cm_id |}.

Record worker_object := {
  worker_id : Z;
  worker_account : Z;
  work_begin_date : Z;
  work_end_date : Z;
  daily_pay : Z;
  total_votes_for : Z;
  total_votes_against : Z
}.

Record chain_parameters := {
  block_interval : Z;
  maintenance_interval : Z;
  maximum_witness_count : Z;
  maximum_committee_count : Z;
  witness_pay_per_block : Z;
  worker_budget_per_day : Z;
  count_non_member_votes : bool
}.

Record global_property_object := {
  parameters : chain_parameters;
  next_available_vote_id : Z;
  active_witnesses : gset Z;
  active_committee_members : list Z
}.

Record dynamic_global_property_object := {
  time : Z;
  next_maintenance_time : Z;
  last_budget_time : Z;
  witness_budget : Z
}.

Record immutable_chain_parameters := {
  min_committee_member_count : Z;
  min_witness_count : Z
}.

Record asset_dynamic_data_object := {
  current_supply : Z;
  accumulated_fees : Z
}.

Record asset_object := {
  asset_id : Z;
  issuer : Z;
  buyback_account : option Z
}.

(** The threshold and the account weights of an [authority]; its key and
    address weights are emptied by [clear()] and not written by this file. *)
Record authority := {
  weight_threshold : Z;
  account_auths : gmap Z Z
}.

Record account_options := {
  voting_account : Z;
  num_witness : Z;
  num_committee : Z;
  votes : list vote_id_type
}.

(** [total_core_in_orders] is the field of the account's statistics object
    and [cashback_vb] the amount held by its cashback vesting balance, when
    the account has one. *)
Record account_object := {
  account_id : Z;
  options : account_options;
  total_core_in_orders : Z;
  cashback_vb : option Z;
  active : authority
}.

Record fba_accumulator_object := {
  fba_object_id : Z;
  accumulated_fba_fees : Z;
  designated_asset : option Z
}.

Record fba_distribute_operation := {
  op_account_id : Z;
  op_fba_id : Z;
  op_amount : Z
}.

Record budget_record := {
  time_since_last_budget : Z;
  from_initial_reserve : Z;
  from_accumulated_fees : Z;
  from_unused_witness_budget : Z;
  requested_witness_budget : Z;
  total_budget : Z;
  rec_witness_budget : Z;
  worker_budget : Z;
  leftover_worker_funds : Z;
  supply_delta : Z
}.

(** A default-constructed [budget_record]. *)
Definition budget_record_init : budget_record :=
  {| time_since_last_budget := 0; from_initial_reserve := 0;
     from_accumulated_fees := 0; from_unused_witness_budget := 0;
     requested_witness_budget := 0; total_budget := 0;
     rec_witness_budget := 0; worker_budget := 0;
     leftover_worker_funds := 0; supply_delta := 0 |}.

Record budget_record_object := {
  bro_time : Z;
  bro_record : budget_record
}.

(** The part of the object store the maintenance pass reads and writes.
    Indices keyed by id are maps; the witness, committee member and worker
    indices are kept in index order. *)
Record database := {
  gpo : global_property_object;
  dpo : dynamic_global_property_object;
  cpo : immutable_chain_parameters;
  core_dd : asset_dynamic_data_object;
  witness_index : list witness_object;
  committee_member_index : list committee_member_object;
  worker_index : list worker_object;
  account_index : gmap Z account_object;
  asset_index : gmap Z asset_object;
  fba_index : gmap Z fba_accumulator_object;
  core_balances : gmap Z Z;
  budget_records : list budget_record_object;
  applied_operations : list fba_distribute_operation;
  _vote_tally_buffer : list Z;
  _witness_count_histogram_buffer : list Z;
  _committee_count_histogram_buffer : list Z;
  _total_voting_stake : Z
}.

Definition head_block_time (db : database) : Z := time (dpo db).

(** [modify] on the database: one field replaced, the others kept. *)

Definition set_gpo (v : global_property_object) (db : database) : database :=
  {| gpo := v; dpo := dpo db; cpo := cpo db; core_dd := core_dd db;
     witness_index := witness_index db;
     committee_member_index := committee_member_index db;
     worker_index := worker_index db; account_index := account_index db;
     asset_index := asset_index db; fba_index := fba_index db;
     core_balances := core_balances db; budget_records := budget_records db;
     applied_operations := applied_operations db;
     _vote_tally_buffer := _vote_tally_buffer db;
     _witness_count_histogram_buffer := _witness_count_histogram_buffer db;
     _committee_count_histogram_buffer := _committee_count_histogram_buffer db;
     _total_voting_stake := _total_voting_stake db |}.

Definition set_dpo (v : dynamic_global_property_object) (db : database) : database :=
  {| gpo := gpo db; dpo := v; cpo := cpo db; core_dd := core_dd db;
     witness_index := witness_index db;
     committee_member_index := committee_member_index db;
     worker_index := worker_index db; account_index := account_index db;
     asset_index := asset_index db; fba_index := fba_index db;
     core_balances := core_balances db; budget_records := budget_records db;
     applied_operations := applied_operations db;
     _vote_tally_buffer := _vote_tally_buffer db;
     _witness_count_histogram_buffer := _witness_count_histogram_buffer db;
     _committee_count_histogram_buffer := _committee_count_histogram_buffer db;
     _total_voting_stake := _total_voting_stake db |}.

Definition set_core_dd (v : asset_dynamic_data_object) (db : database) : database :=
  {| gpo := gpo db; dpo := dpo db; cpo := cpo db; core_dd := v;
     witness_index := witness_index db;
     committee_member_index := committee_member_index db;
     worker_index := worker_index db; account_index := account_index db;
     asset_index := asset_index db; fba_index := fba_index db;
     core_balances := core_balances db; budget_records := budget_records db;
     applied_operations := applied_operations db;
     _vote_tally_buffer := _vote_tally_buffer db;
     _witness_count_histogram_buffer := _witness_count_histogram_buffer db;
     _committee_count_histogram_buffer := _committee_count_histogram_buffer db;
     _total_voting_stake := _total_voting_stake db |}.

Definition set_witness_index (v : list witness_object) (db : database) : database :=
  {| gpo := gpo db; dpo := dpo db; cpo := cpo db; core_dd := core_dd db;
     witness_index := v; committee_member_index := committee_member_index db;
     worker_index := worker_index db; account_index := account_index db;
     asset_index := asset_index db; fba_index := fba_index db;
     core_balances := core_balances db; budget_records := budget_records db;
     applied_operations := applied_operations db;
     _vote_tally_buffer := _vote_tally_buffer db;
     _witness_count_histogram_buffer := _witness_count_histogram_buffer db;
     _committee_count_histogram_buffer := _committee_count_histogram_buffer db;
     _total_voting_stake := _total_voting_stake db |}.

Definition set_committee_member_index (v : list committee_member_object) (db : database)
    : database :=
  {| gpo := gpo db; dpo := dpo db; cpo := cpo db; core_dd := core_dd db;
     witness_index := witness_index db; committee_member_index := v;
     worker_index := worker_index db; account_index := account_index db;
     asset_index := asset_index db; fba_index := fba_index db;
     core_balances := core_balances db; budget_records := budget_records db;
     applied_operations := applied_operations db;
     _vote_tally_buffer := _vote_tally_buffer db;
     _witness_count_histogram_buffer := _witness_count_histogram_buffer db;
     _committee_count_histogram_buffer := _committee_count_histogram_buffer db;
     _total_voting_stake := _total_voting_stake db |}.

Definition set_account_index (v : gmap Z account_object) (db : database) : database :=
  {| gpo := gpo db; dpo := dpo db; cpo := cpo db; core_dd := core_dd db;
     witness_index := witness_index db;
     committee_member_index := committee_member_index db;
     worker_index := worker_index db; account_index := v; asset_index := asset_index db;
     fba_index := fba_index db; core_balances := core_balances db;
     budget_records := budget_records db; applied_operations := applied_operations db;
     _vote_tally_buffer := _vote_tally_buffer db;
     _witness_count_histogram_buffer := _witness_count_histogram_buffer db;
     _committee_count_histogram_buffer := _committee_count_histogram_buffer db;
     _total_voting_stake := _total_voting_stake db |}.

Definition set_asset_index (v : gmap Z asset_object) (db : database) : database :=
  {| gpo := gpo db; dpo := dpo db; cpo := cpo db; core_dd := core_dd db;
     witness_index := witness_index db;
     committee_member_index := committee_member_index db;
     worker_index := worker_index db; account_index := account_index db;
     asset_index := v; fba_index := fba_index db; core_balances := core_balances db;
     budget_records := budget_records db; applied_operations := applied_operations db;
     _vote_tally_buffer := _vote_tally_buffer db;
     _witness_count_histogram_buffer := _witness_count_histogram_buffer db;
     _committee_count_histogram_buffer := _committee_count_histogram_buffer db;
     _total_voting_stake := _total_voting_stake db |}.

Definition set_fba_index (v : gmap Z fba_accumulator_object) (db : database) : database :=
  {| gpo := gpo db; dpo := dpo db; cpo := cpo db; core_dd := core_dd db;
     witness_index := witness_index db;
     committee_member_index := committee_member_index db;
     worker_index := worker_index db; account_index := account_index db;
     asset_index := asset_index db; fba_index := v; core_balances := core_balances db;
     budget_records := budget_records db; applied_operations := applied_operations db;
     _vote_tally_buffer := _vote_tally_buffer db;
     _witness_count_histogram_buffer := _witness_count_histogram_buffer db;
     _committee_count_histogram_buffer := _committee_count_histogram_buffer db;
     _total_voting_stake := _total_voting_stake db |}.

Definition set_core_balances (v : gmap Z Z) (db : database) : database :=
  {| gpo := gpo db; dpo := dpo db; cpo := cpo db; core_dd := core_dd db;
     witness_index := witness_index db;
     committee_member_index := committee_member_index db;
     worker_index := worker_index db; account_index := account_index db;
     asset_index := asset_index db; fba_index := fba_index db; core_balances := v;
     budget_records := budget_records db; applied_operations := applied_operations db;
     _vote_tally_buffer := _vote_tally_buffer db;
     _witness_count_histogram_buffer := _witness_count_histogram_buffer db;
     _committee_count_histogram_buffer := _committee_count_histogram_buffer db;
     _total_voting_stake := _total_voting_stake db |}.

Definition set_budget_records (v : list budget_record_object) (db : database)
    : database :=
  {| gpo := gpo db; dpo := dpo db; cpo := cpo db; core_dd := core_dd db;
     witness_index := witness_index db;
     committee_member_index := committee_member_index db;
     worker_index := worker_index db; account_index := account_index db;
     asset_index := asset_index db; fba_index := fba_index db;
     core_balances := core_balances db; budget_records := v;
     applied_operations := applied_operations db;
     _vote_tally_buffer := _vote_tally_buffer db;
     _witness_count_histogram_buffer := _witness_count_histogram_buffer db;
     _committee_count_histogram_buffer := _committee_count_histogram_buffer db;
     _total_voting_stake := _total_voting_stake db |}.

Definition set_applied_operations (v : list fba_distribute_operation) (db : database)
    : database :=
  {| gpo := gpo db; dpo := dpo db; cpo := cpo db; core_dd := core_dd db;
     witness_index := witness_index db;
     committee_member_index := committee_member_index db;
     worker_index := worker_index db; account_index := account_index db;
     asset_index := asset_index db; fba_index := fba_index db;
     core_balances := core_balances db; budget_records := budget_records db;
     applied_operations := v; _vote_tally_buffer := _vote_tally_buffer db;
     _witness_count_histogram_buffer := _witness_count_histogram_buffer db;
     _committee_count_histogram_buffer := _committee_count_histogram_buffer db;
     _total_voting_stake := _total_voting_stake db |}.

Definition set_vote_tally_buffer (v : list Z) (db : database) : database :=
  {| gpo := gpo db; dpo := dpo db; cpo := cpo db; core_dd := core_dd db;
     witness_index := witness_index db;
     committee_member_index := committee_member_index db;
     worker_index := worker_index db; account_index := account_index db;
     asset_index := asset_index db; fba_index := fba_index db;
     core_balances := core_balances db; budget_records := budget_records db;
     applied_operations := applied_operations db; _vote_tally_buffer := v;
     _witness_count_histogram_buffer := _witness_count_histogram_buffer db;
     _committee_count_histogram_buffer := _committee_count_histogram_buffer db;
     _total_voting_stake := _total_voting_stake db |}.

Definition set_witness_count_histogram_buffer (v : list Z) (db : database) : database :=
  {| gpo := gpo db; dpo := dpo db; cpo := cpo db; core_dd := core_dd db;
     witness_index := witness_index db;
     committee_member_index := committee_member_index db;
     worker_index := worker_index db; account_index := account_index db;
     asset_index := asset_index db; fba_index := fba_index db;
     core_balances := core_balances db; budget_records := budget_records db;
     applied_operations := applied_operations db;
     _vote_tally_buffer := _vote_tally_buffer db; _witness_count_histogram_buffer := v;
     _committee_count_histogram_buffer := _committee_count_histogram_buffer db;
     _total_voting_stake := _total_voting_stake db |}.

Definition set_committee_count_histogram_buffer (v : list Z) (db : database) : database :=
  {| gpo := gpo db; dpo := dpo db; cpo := cpo db; core_dd := core_dd db;
     witness_index := witness_index db;
     committee_member_index := committee_member_index db;
     worker_index := worker_index db; account_index := account_index db;
     asset_index := asset_index db; fba_index := fba_index db;
     core_balances := core_balances db; budget_records := budget_records db;
     applied_operations := applied_operations db;
     _vote_tally_buffer := _vote_tally_buffer db;
     _witness_count_histogram_buffer := _witness_count_histogram_buffer db;
     _committee_count_histogram_buffer := v;
     _total_voting_stake := _total_voting_stake db |}.

Definition set_total_voting_stake (v : Z) (db : database) : database :=
  {| gpo := gpo db; dpo := dpo db; cpo := cpo db; core_dd := core_dd db;
     witness_index := witness_index db;
     committee_member_index := committee_member_index db;
     worker_index := worker_index db; account_index := account_index db;
     asset_index := asset_index db; fba_index := fba_index db;
     core_balances := core_balances db; budget_records := budget_records db;
     applied_operations := applied_operations db;
     _vote_tally_buffer := _vote_tally_buffer db;
     _witness_count_histogram_buffer := _witness_count_histogram_buffer db;
     _committee_count_histogram_buffer := _committee_count_histogram_buffer db;
     _total_voting_stake := v |}.

Definition set_core_supply (v : Z) (dd : asset_dynamic_data_object) : asset_dynamic_data_object :=
  {| current_supply := v; accumulated_fees := accumulated_fees dd |}.

Definition set_active (a : authority) (acct : account_object) : account_object :=
  {| account_id := account_id acct; options := options acct;
     total_core_in_orders := total_core_in_orders acct;
     cashback_vb := cashback_vb acct; active := a |}.

Definition set_accumulated_fba_fees (v : Z) (fba : fba_accumulator_object) : fba_accumulator_object :=
  {| fba_object_id := fba_object_id fba; accumulated_fba_fees := v;
     designated_asset := designated_asset fba |}.

(** ** Constants and collaborators declared outside this file *)

(** Constants of protocol/config.hpp and hardfork.hpp. *)
Class Config := {
  GRAPHENE_CORE_ASSET_CYCLE_RATE : Z;
  GRAPHENE_CORE_ASSET_CYCLE_RATE_BITS : Z;
  GRAPHENE_100_PERCENT : Z;
  GRAPHENE_1_PERCENT : Z;
  GRAPHENE_PROXY_TO_SELF_ACCOUNT : Z;
  GRAPHENE_WITNESS_ACCOUNT : Z;
  GRAPHENE_COMMITTEE_ACCOUNT : Z;
  GRAPHENE_RELAXED_COMMITTEE_ACCOUNT : Z;
  HARDFORK_533_TIME : Z;
  fba_accumulator_id_transfer_to_blind : Z;
  fba_accumulator_id_blind_transfer : Z;
  fba_accumulator_id_transfer_from_blind : Z
}.

(** Member functions of objects and evaluators that db_maint.cpp calls and
    that are defined in other translation units. *)
Class Collaborators := {
  (** [asset_object::reserved] of the core asset *)
  reserved : database -> Z;
  (** [account_object::is_member] *)
  is_member : account_object -> Z -> bool;
  (** [worker_object::is_active] and [worker_object::approving_stake] *)
  is_active : worker_object -> Z -> bool;
  approving_stake : worker_object -> Z;
  (** the effect of [w.worker.visit(worker_pay_visitor(pay, db))] *)
  pay_worker : worker_object -> Z -> database -> database;
  (** [fba_accumulator_object::is_configured] *)
  is_configured : fba_accumulator_object -> database -> bool;
  (** [vote_counter]: [add] called on each pair in turn, then [finish] *)
  vote_counter_finish : list (Z * Z) -> authority -> authority
}.

(** Modelled from the spec: [database::adjust_balance] (db_balance.cpp) is
    defined outside this file; the FBA split "credits" the amount to the
    account, here its balance in the core asset. *)
Definition adjust_balance (account : Z) (delta : Z) (db : database) : option database :=
  b ← safe_add (default 0 (core_balances db !! account)) delta;
  Some (set_core_balances (<[account := b]> (core_balances db)) db).

(** Modelled from the spec: [database::get_balance] (db_balance.cpp) is
    defined outside this file; the balance of the account in the core
    asset, zero when it holds none. *)
Definition get_balance (account : Z) (db : database) : Z :=
  default 0 (core_balances db !! account).

Definition push_applied_operation (op : fba_distribute_operation) (db : database) : database :=
  set_applied_operations (applied_operations db ++ [op]) db.

(** Assignments to the fields of a [budget_record]. *)

Definition set_time_since_last_budget (v : Z) (rec : budget_record) : budget_record :=
  {| time_since_last_budget := v; from_initial_reserve := from_initial_reserve rec;
     from_accumulated_fees := from_accumulated_fees rec;
     from_unused_witness_budget := from_unused_witness_budget rec;
     requested_witness_budget := requested_witness_budget rec;
     total_budget := total_budget rec; rec_witness_budget := rec_witness_budget rec;
     worker_budget := worker_budget rec;
     leftover_worker_funds := leftover_worker_funds rec;
     supply_delta := supply_delta rec |}.

Definition set_from_initial_reserve (v : Z) (rec : budget_record) : budget_record :=
  {| time_since_last_budget := time_since_last_budget rec; from_initial_reserve := v;
     from_accumulated_fees := from_accumulated_fees rec;
     from_unused_witness_budget := from_unused_witness_budget rec;
     requested_witness_budget := requested_witness_budget rec;
     total_budget := total_budget rec; rec_witness_budget := rec_witness_budget rec;
     worker_budget := worker_budget rec;
     leftover_worker_funds := leftover_worker_funds rec;
     supply_delta := supply_delta rec |}.

Definition set_from_accumulated_fees (v : Z) (rec : budget_record) : budget_record :=
  {| time_since_last_budget := time_since_last_budget rec;
     from_initial_reserve := from_initial_reserve rec; from_accumulated_fees := v;
     from_unused_witness_budget := from_unused_witness_budget rec;
     requested_witness_budget := requested_witness_budget rec;
     total_budget := total_budget rec; rec_witness_budget := rec_witness_budget rec;
     worker_budget := worker_budget rec;
     leftover_worker_funds := leftover_worker_funds rec;
     supply_delta := supply_delta rec |}.

Definition set_from_unused_witness_budget (v : Z) (rec : budget_record) : budget_record :=
  {| time_since_last_budget := time_since_last_budget rec;
     from_initial_reserve := from_initial_reserve rec;
     from_accumulated_fees := from_accumulated_fees rec;
     from_unused_witness_budget := v;
     requested_witness_budget := requested_witness_budget rec;
     total_budget := total_budget rec; rec_witness_budget := rec_witness_budget rec;
     worker_budget := worker_budget rec;
     leftover_worker_funds := leftover_worker_funds rec;
     supply_delta := supply_delta rec |}.

Definition set_requested_witness_budget (v : Z) (rec : budget_record) : budget_record :=
  {| time_since_last_budget := time_since_last_budget rec;
     from_initial_reserve := from_initial_reserve rec;
     from_accumulated_fees := from_accumulated_fees rec;
     from_unused_witness_budget := from_unused_witness_budget rec;
     requested_witness_budget := v; total_budget := total_budget rec;
     rec_witness_budget := rec_witness_budget rec; worker_budget := worker_budget rec;
     leftover_worker_funds := leftover_worker_funds rec;
     supply_delta := supply_delta rec |}.

Definition set_total_budget (v : Z) (rec : budget_record) : budget_record :=
  {| time_since_last_budget := time_since_last_budget rec;
     from_initial_reserve := from_initial_reserve rec;
     from_accumulated_fees := from_accumulated_fees rec;
     from_unused_witness_budget := from_unused_witness_budget rec;
     requested_witness_budget := requested_witness_budget rec; total_budget := v;
     rec_witness_budget := rec_witness_budget rec; worker_budget := worker_budget rec;
     leftover_worker_funds := leftover_worker_funds rec;
     supply_delta := supply_delta rec |}.

Definition set_rec_witness_budget (v : Z) (rec : budget_record) : budget_record :=
  {| time_since_last_budget := time_since_last_budget rec;
     from_initial_reserve := from_initial_reserve rec;
     from_accumulated_fees := from_accumulated_fees rec;
     from_unused_witness_budget := from_unused_witness_budget rec;
     requested_witness_budget := requested_witness_budget rec;
     total_budget := total_budget rec; rec_witness_budget := v;
     worker_budget := worker_budget rec;
     leftover_worker_funds := leftover_worker_funds rec;
     supply_delta := supply_delta rec |}.

Definition set_worker_budget (v : Z) (rec : budget_record) : budget_record :=
  {| time_since_last_budget := time_since_last_budget rec;
     from_initial_reserve := from_initial_reserve rec;
     from_accumulated_fees := from_accumulated_fees rec;
     from_unused_witness_budget := from_unused_witness_budget rec;
     requested_witness_budget := requested_witness_budget rec;
     total_budget := total_budget rec; rec_witness_budget := rec_witness_budget rec;
     worker_budget := v; leftover_worker_funds := leftover_worker_funds rec;
     supply_delta := supply_delta rec |}.

Definition set_leftover_worker_funds (v : Z) (rec : budget_record) : budget_record :=
  {| time_since_last_budget := time_since_last_budget rec;
     from_initial_reserve := from_initial_reserve rec;
     from_accumulated_fees := from_accumulated_fees rec;
     from_unused_witness_budget := from_unused_witness_budget rec;
     requested_witness_budget := requested_witness_budget rec;
     total_budget := total_budget rec; rec_witness_budget := rec_witness_budget rec;
     worker_budget := worker_budget rec; leftover_worker_funds := v;
     supply_delta := supply_delta rec |}.

Definition set_supply_delta (v : Z) (rec : budget_record) : budget_record :=
  {| time_since_last_budget := time_since_last_budget rec;
     from_initial_reserve := from_initial_reserve rec;
     from_accumulated_fees := from_accumulated_fees rec;
     from_unused_witness_budget := from_unused_witness_budget rec;
     requested_witness_budget := requested_witness_budget rec;
     total_budget := total_budget rec; rec_witness_budget := rec_witness_budget rec;
     worker_budget := worker_budget rec;
     leftover_worker_funds := leftover_worker_funds rec; supply_delta := v |}.

(** [boost::multiprecision::detail::find_msb]: the index of the highest set
    bit (read as [0] for a zero argument, where boost leaves it undefined). *)
Definition find_msb (x : Z) : Z := Z.log2 x.

(** [std::map::emplace]: inserts only when the key is absent. *)
Definition map_emplace (k v : Z) (m : gmap Z Z) : gmap Z Z :=
  match m !! k with
  | Some _ => m
  | None => <[k := v]> m
  end.

(** The least integer not below [a / b]. *)
Definition ceil_div (a b : Z) : Z := - ((- a) / b).

(** The sum of the weights an authority gives to its accounts. *)
Definition sum_map (m : gmap Z Z) : Z := map_fold (fun _ v s => v + s) 0 m.



(** The exact sum of the tallies of a list of candidates. *)
Definition tally_sum {T} `{Votable T} (tally : list Z) (l : list T) : Z :=
  foldr (fun o s => vget tally (instance (vote_id o)) + s) 0 l.

Definition sum_tallies (members : list (Z * Z)) : Z :=
  foldr (fun m s => m.2 + s) 0 members.

(** The total of the payments in a log of calls [(worker id, actual_pay)]. *)
Definition total_paid (paid : list (Z * Z)) : Z :=
  foldr (fun p s => p.2 + s) 0 paid.

Section Maintenance.
Context `{Config} `{Collaborators}.

  (** *** pay_workers *)

Definition worker_before (wa wb : worker_object) : bool :=
    let wa_vote := approving_stake wa in
    let wb_vote := approving_stake wb in
    if negb (wa_vote =? wb_vote) then wb_vote <? wa_vote
    else worker_id wa <? worker_id wb.

  (** [active_workers] holds references into the worker index: the object
      behind a reference is read from the database as it is when the loop
      reaches it. *)
Definition find_worker (db : database) (id : Z) : option worker_object :=
    find (fun w => worker_id w =? id) (worker_index db).

  (** One day and the elapsed time, in [fc::microseconds]. *)
Definition fc_days_1 : Z := 86400 * 1000000.

Definition since_last_budget (db : database) : Z :=
    (head_block_time db - last_budget_time (dpo db)) * 1000000.

  (** The pay a worker asks for: its daily pay, prorated in a [fc::uint128]
      unless exactly one day has passed since the last budget. *)
Definition requested_pay (db : database) (active_worker : worker_object) : Z :=
    let requested_pay := daily_pay active_worker in
    if negb (since_last_budget db =? fc_days_1) then
      let pay := u128 requested_pay in
      let pay := u128 (pay * u128 (since_last_budget db)) in
      let pay := pay / fc_days_1 in
      i64 pay
    else requested_pay.

  (** The payment loop.  Besides the remaining budget and the database it
      returns, in order, the calls [(worker id, actual_pay)] it made to
      [pay_worker]. *)
Fixpoint pay_loop (active_workers : list Z) (budget : Z) (db : database)
      : option (Z * database * list (Z * Z)) :=
    match active_workers with
    | [] => Some (budget, db, [])
    | r :: rest =>
        if 0 <? budget then
          active_worker ← find_worker db r;
          let actual_pay := Z.min budget (requested_pay db active_worker) in
          let db := pay_worker active_worker actual_pay db in
          budget ← safe_sub budget actual_pay;
          '(budget, db, paid) ← pay_loop rest budget db;
          Some (budget, db, (r, actual_pay) :: paid)
        else Some (budget, db, [])
    end.

  (** The database after the payments of a log, in order. *)
Definition replay_payments (db : database) (paid : list (Z * Z)) : database :=
    foldl (fun db p => match find_worker db p.1 with
                       | Some active_worker => pay_worker active_worker p.2 db
                       | None => db
                       end) db paid.

Definition active_workers (db : database) : list worker_object :=
    sort_by worker_before
      (List.filter (fun w => is_active w (head_block_time db)
                             && (0 <? approving_stake w)) (worker_index db)).

Definition pay_workers (budget : Z) (db : database)
      : option (Z * database * list (Z * Z)) :=
    pay_loop (map worker_id (active_workers db)) budget db.

  (** *** Authorities of the witness and committee accounts *)

  (** The construction used before [HARDFORK_533_TIME], over the pairs
      (account, tally) of the selected objects. *)
Definition legacy_weights (members : list (Z * Z)) : gmap Z Z :=
    foldl (fun ws m => map_emplace m.1 m.2 ws) ∅ members.

Definition legacy_total_votes (members : list (Z * Z)) : Z :=
    foldl (fun t m => u64 (t + m.2)) 0 members.

Definition legacy_votes (bits_to_drop : Z) (weight : Z) : Z :=
    u16 (Z.max (Z.shiftr weight bits_to_drop) 1).

Definition legacy_add (bits_to_drop : Z) (account weight : Z) (a : authority)
      : authority :=
    let votes := legacy_votes bits_to_drop weight in
    {| account_auths :=
         <[account := u16 (default 0 (account_auths a !! account) + votes)]>
           (account_auths a);
       weight_threshold := u32 (weight_threshold a + votes) |}.

  (** [weights] is a [std::map]: its keys are distinct, and the order in
      which the second loop walks them does not show in the authority. *)
Definition legacy_authority (members : list (Z * Z)) : authority :=
    let total_votes := legacy_total_votes members in
    let weights := legacy_weights members in
    let bits_to_drop := Z.max (find_msb total_votes - 15) 0 in
    let a := map_fold (legacy_add bits_to_drop)
               {| weight_threshold := 0; account_auths := ∅ |} weights in
    {| account_auths := account_auths a;
       weight_threshold := u32 (weight_threshold a / 2 + 1) |}.

Definition build_authority (db : database) (members : list (Z * Z))
      (a : authority) : authority :=
    if head_block_time db <? HARDFORK_533_TIME then legacy_authority members
    else vote_counter_finish members a.

  (** *** update_active_witnesses *)

  (** [while (count < size - 1 && tally <= target) tally += hist[++count];]
      over the cells above cell 0; [stake_tally] is a [share_type]. *)
Fixpoint witness_count_loop (cells : list Z) (witness_count stake_tally stake_target : Z)
      : option Z :=
    match cells with
    | [] => Some witness_count
    | c :: cells' =>
        if stake_tally <=? stake_target then
          stake_tally ← safe_add stake_tally (i64 c);
          witness_count_loop cells' (witness_count + 1) stake_tally stake_target
        else Some witness_count
    end.

Definition set_wit_total_votes (tally : list Z) (wit : witness_object) : witness_object :=
    {| wit_id := wit_id wit; witness_account := witness_account wit;
       wit_vote_id := wit_vote_id wit;
       wit_total_votes := vget tally (instance (wit_vote_id wit)) |}.

Definition witness_count (db : database) : option Z :=
    let hist := _witness_count_histogram_buffer db in
    let stake_target := i64 (u64 (_total_voting_stake db - vget hist 0) / 2) in
    if 0 <? stake_target then witness_count_loop (drop 1 hist) 0 0 stake_target
    else Some 0.

Definition update_active_witnesses (db : database) : option database :=
    let tally := _vote_tally_buffer db in
    _ ← assert (0 <? vsize (_witness_count_histogram_buffer db));
    witness_count ← witness_count db;
    let wits := sort_votable_objects tally (witness_index db)
                  (Z.max (witness_count * 2 + 1) (min_witness_count (cpo db))) in
    let db := set_witness_index (map (set_wit_total_votes tally) (witness_index db)) db in
    a ← account_index db !! GRAPHENE_WITNESS_ACCOUNT;
    let members := map (fun wit => (witness_account wit,
                                    vget tally (instance (wit_vote_id wit)))) wits in
    let a := set_active (build_authority db members (active a)) a in
    let db := set_account_index (<[GRAPHENE_WITNESS_ACCOUNT := a]> (account_index db)) db in
    Some (set_gpo {| parameters := parameters (gpo db);
                     next_available_vote_id := next_available_vote_id (gpo db);
                     active_witnesses := list_to_set (map wit_id wits);
                     active_committee_members := active_committee_members (gpo db) |} db).

  (** *** update_active_committee_members *)

  (** The same loop with a [uint64_t stake_tally], which wraps and is
      converted to [share_type] for the comparison with [stake_target]. *)
Fixpoint committee_count_loop (cells : list Z)
      (committee_member_count stake_tally stake_target : Z) : Z :=
    match cells with
    | [] => committee_member_count
    | c :: cells' =>
        if i64 stake_tally <=? stake_target then
          committee_count_loop cells' (committee_member_count + 1)
            (u64 (stake_tally + c)) stake_target
        else committee_member_count
    end.

Definition committee_member_count (db : database) : Z :=
    let stake_target :=
      i64 (u64 (_total_voting_stake db - vget (_witness_count_histogram_buffer db) 0) / 2) in
    if 0 <? stake_target then
      committee_count_loop (drop 1 (_committee_count_histogram_buffer db)) 0 0 stake_target
    else 0.

Definition set_cm_total_votes (tally : list Z) (del : committee_member_object)
      : committee_member_object :=
    {| cm_id := cm_id del; committee_member_account := committee_member_account del;
       cm_vote_id := cm_vote_id del;
       cm_total_votes := vget tally (instance (cm_vote_id del)) |}.

  (** [modify(del, ...)] for each selected member, found by its id. *)
Definition modify_selected (tally : list Z) (selected : list committee_member_object)
      (idx : list committee_member_object) : list committee_member_object :=
    map (fun o => if bool_decide (cm_id o ∈ map cm_id selected)
                  then set_cm_total_votes tally o else o) idx.

Definition update_committee_authorities (db : database) (members : list (Z * Z))
      : option database :=
    a ← account_index db !! GRAPHENE_COMMITTEE_ACCOUNT;
    let a := set_active (build_authority db members (active a)) a in
    let db := set_account_index (<[GRAPHENE_COMMITTEE_ACCOUNT := a]> (account_index db)) db in
    r ← account_index db !! GRAPHENE_RELAXED_COMMITTEE_ACCOUNT;
    c ← account_index db !! GRAPHENE_COMMITTEE_ACCOUNT;
    let r := set_active (active c) r in
    Some (set_account_index (<[GRAPHENE_RELAXED_COMMITTEE_ACCOUNT := r]> (account_index db)) db).

Definition update_active_committee_members (db : database) : option database :=
    let tally := _vote_tally_buffer db in
    _ ← assert (0 <? vsize (_committee_count_histogram_buffer db));
    let committee_member_count := committee_member_count db in
    let committee_members :=
      sort_votable_objects tally (committee_member_index db)
        (Z.max (committee_member_count * 2 + 1) (min_committee_member_count (cpo db))) in
    let db := set_committee_member_index
                (modify_selected tally committee_members (committee_member_index db)) db in
    let members := map (fun del => (committee_member_account del,
                                    vget tally (instance (cm_vote_id del))))
                     committee_members in
    db ← (if bool_decide (committee_members = []) then Some db
          else update_committee_authorities db members);
    Some (set_gpo {| parameters := parameters (gpo db);
                     next_available_vote_id := next_available_vote_id (gpo db);
                     active_witnesses := active_witnesses (gpo db);
                     active_committee_members := map cm_id committee_members |} db).

  (** *** initialize_budget_record *)

Definition initialize_budget_record (now : Z) (db : database) (rec : budget_record)
      : option budget_record :=
    let rec := set_from_initial_reserve (reserved db) rec in
    let rec := set_from_accumulated_fees (accumulated_fees (core_dd db)) rec in
    let rec := set_from_unused_witness_budget (witness_budget (dpo db)) rec in
    if (last_budget_time (dpo db) =? 0) || (now <=? last_budget_time (dpo db)) then
      Some (set_time_since_last_budget 0 rec)
    else
      let dt := now - last_budget_time (dpo db) in
      let rec := set_time_since_last_budget (u64 dt) rec in
      reserve ← safe_add (from_initial_reserve rec) (accumulated_fees (core_dd db));
      reserve ← safe_add reserve (witness_budget (dpo db));
      let budget_u128 := u128 reserve in
      let budget_u128 := u128 (budget_u128 * u64 dt) in
      let budget_u128 := u128 (budget_u128 * u128 GRAPHENE_CORE_ASSET_CYCLE_RATE) in
      let budget_u128 :=
        u128 (budget_u128
              + u64 (u64 (Z.shiftl 1 GRAPHENE_CORE_ASSET_CYCLE_RATE_BITS) - 1)) in
      let budget_u128 := Z.shiftr budget_u128 GRAPHENE_CORE_ASSET_CYCLE_RATE_BITS in
      if budget_u128 <? u128 reserve then
        Some (set_total_budget (i64 budget_u128) rec)
      else
        Some (set_total_budget reserve rec).

  (** *** process_budget *)

Definition process_budget (db : database) : option database :=
    let now := head_block_time db in
    let time_to_maint := next_maintenance_time (dpo db) - now in
    _ ← assert (0 <? time_to_maint);
    let interval := block_interval (parameters (gpo db)) in
    _ ← assert (0 <? interval);
    let blocks_to_maint := u64 (u64 time_to_maint + interval - 1) / interval in
    rec ← initialize_budget_record now db budget_record_init;
    let available_funds := total_budget rec in
    let witness_budget' :=
      i64 (u64 (witness_pay_per_block (parameters (gpo db))) * blocks_to_maint) in
    let rec := set_requested_witness_budget witness_budget' rec in
    let witness_budget' := Z.min witness_budget' available_funds in
    let rec := set_rec_witness_budget witness_budget' rec in
    available_funds ← safe_sub available_funds witness_budget';
    let worker_budget_u128 := u128 (worker_budget_per_day (parameters (gpo db))) in
    let worker_budget_u128 := u128 (worker_budget_u128 * u64 time_to_maint) in
    let worker_budget_u128 := worker_budget_u128 / (60 * 60 * 24) in
    let worker_budget' :=
      if u128 available_funds <=? worker_budget_u128 then available_funds
      else i64 worker_budget_u128 in
    let rec := set_worker_budget worker_budget' rec in
    available_funds ← safe_sub available_funds worker_budget';
    '(leftover_worker_funds', db, _) ← pay_workers worker_budget' db;
    let rec := set_leftover_worker_funds leftover_worker_funds' rec in
    available_funds ← safe_add available_funds leftover_worker_funds';
    d ← safe_add (rec_witness_budget rec) (worker_budget rec);
    d ← safe_sub d (leftover_worker_funds rec);
    d ← safe_sub d (from_accumulated_fees rec);
    d ← safe_sub d (from_unused_witness_budget rec);
    let rec := set_supply_delta d rec in
    supply ← safe_add (current_supply (core_dd db)) (supply_delta rec);
    e ← safe_add witness_budget' worker_budget';
    e ← safe_sub e leftover_worker_funds';
    e ← safe_sub e (accumulated_fees (core_dd db));
    e ← safe_sub e (witness_budget (dpo db));
    _ ← assert (supply_delta rec =? e);
    let db := set_core_dd {| current_supply := supply; accumulated_fees := 0 |} db in
    let db := set_dpo {| time := time (dpo db);
                         next_maintenance_time := next_maintenance_time (dpo db);
                         last_budget_time := now;
                         witness_budget := witness_budget' |} db in
    Some (set_budget_records
            (budget_records db ++ [{| bro_time := head_block_time db; bro_record := rec |}])
            db).

  (** *** split_fba_balance and distribute_fba_balances *)

Definition zero_fba (id : Z) (db : database) : option database :=
    fba ← fba_index db !! id;
    Some (set_fba_index (<[id := set_accumulated_fba_fees 0 fba]> (fba_index db)) db).

Definition burn_core (amount : Z) (db : database) : option database :=
    supply ← safe_sub (current_supply (core_dd db)) amount;
    Some (set_core_dd (set_core_supply supply (core_dd db)) db).

Definition fba_share (accumulated pct : Z) : Z :=
    let amount_128 := u128 accumulated in
    let amount_128 := u128 (amount_128 * pct) in
    let amount_128 := amount_128 / GRAPHENE_100_PERCENT in
    i64 amount_128.

Definition fba_credit (id account amount : Z) (db : database) : option database :=
    if negb (amount =? 0) then
      db ← adjust_balance account amount db;
      Some (push_applied_operation
              {| op_account_id := account; op_fba_id := id; op_amount := amount |} db)
    else Some db.

Definition split_fba_balance (db : database) (fba_id : Z)
      (network_pct designated_asset_buyback_pct designated_asset_issuer_pct : Z)
      : option database :=
    _ ← assert (u32 (u32 (u32 network_pct + u32 designated_asset_buyback_pct)
                     + u32 designated_asset_issuer_pct) =? GRAPHENE_100_PERCENT);
    fba ← fba_index db !! fba_id;
    if accumulated_fba_fees fba =? 0 then Some db
    else if negb (is_configured fba db) then
      db ← burn_core (accumulated_fba_fees fba) db;
      zero_fba fba_id db
    else
      let buyback_amount := fba_share (accumulated_fba_fees fba) designated_asset_buyback_pct in
      let issuer_amount := fba_share (accumulated_fba_fees fba) designated_asset_issuer_pct in
      both ← safe_add buyback_amount issuer_amount;
      _ ← assert (both <=? accumulated_fba_fees fba);
      network_amount ← safe_sub (accumulated_fba_fees fba) both;
      asset ← designated_asset fba;
      designated_asset ← asset_index db !! asset;
      db ← (if negb (network_amount =? 0) then burn_core network_amount db else Some db);
      buyback ← buyback_account designated_asset;
      db ← fba_credit (fba_object_id fba) buyback buyback_amount db;
      db ← fba_credit (fba_object_id fba) (issuer designated_asset) issuer_amount db;
      zero_fba fba_id db.

Definition distribute_fba_balances (db : database) : option database :=
    db ← split_fba_balance db fba_accumulator_id_transfer_to_blind
           (20 * GRAPHENE_1_PERCENT) (60 * GRAPHENE_1_PERCENT) (20 * GRAPHENE_1_PERCENT);
    db ← split_fba_balance db fba_accumulator_id_blind_transfer
           (20 * GRAPHENE_1_PERCENT) (60 * GRAPHENE_1_PERCENT) (20 * GRAPHENE_1_PERCENT);
    split_fba_balance db fba_accumulator_id_transfer_from_blind
      (20 * GRAPHENE_1_PERCENT) (60 * GRAPHENE_1_PERCENT) (20 * GRAPHENE_1_PERCENT).

  (** *** vote_tally_helper *)

  (** The constructor sizes the scratch buffers. *)
Definition vote_tally_helper_init (db : database) : database :=
    let props := gpo db in
    let db := set_vote_tally_buffer
                (resize (next_available_vote_id props) (_vote_tally_buffer db)) db in
    let db := set_witness_count_histogram_buffer
                (resize (maximum_witness_count (parameters props) / 2 + 1)
                   (_witness_count_histogram_buffer db)) db in
    let db := set_committee_count_histogram_buffer
                (resize (maximum_committee_count (parameters props) / 2 + 1)
                   (_committee_count_histogram_buffer db)) db in
    set_total_voting_stake 0 db.

Definition tally_vote (voting_stake : Z) (buf : list Z) (id : vote_id_type) : list Z :=
    let offset := u32 (instance id) in
    if offset <? vsize buf then vadd buf offset voting_stake else buf.

Definition voting_stake (db : database) (stake_account : account_object) : Z :=
    u64 (total_core_in_orders stake_account
         + default 0 (cashback_vb stake_account)
         + get_balance (account_id stake_account) db).

  (** [operator()] of the helper, applied to one account. *)
Definition vote_tally_helper (db : database) (stake_account : account_object)
      : option database :=
    let props := gpo db in
    if count_non_member_votes (parameters props)
       || is_member stake_account (head_block_time db) then
      opinion_account ←
        (if voting_account (options stake_account) =? GRAPHENE_PROXY_TO_SELF_ACCOUNT
         then Some stake_account
         else account_index db !! voting_account (options stake_account));
      let voting_stake := voting_stake db stake_account in
      let db := set_vote_tally_buffer
                  (foldl (tally_vote voting_stake) (_vote_tally_buffer db)
                     (votes (options opinion_account))) db in
      let db :=
        if num_witness (options opinion_account)
             <=? maximum_witness_count (parameters props) then
          let offset := u16 (Z.min (num_witness (options opinion_account) / 2)
                               (u64 (vsize (_witness_count_histogram_buffer db) - 1))) in
          set_witness_count_histogram_buffer
            (vadd (_witness_count_histogram_buffer db) offset voting_stake) db
        else db in
      let db :=
        if num_committee (options opinion_account)
             <=? maximum_committee_count (parameters props) then
          let offset := u16 (Z.min (num_committee (options opinion_account) / 2)
                               (u64 (vsize (_committee_count_histogram_buffer db) - 1))) in
          set_committee_count_histogram_buffer
            (vadd (_committee_count_histogram_buffer db) offset voting_stake) db
        else db in
      Some (set_total_voting_stake (u64 (_total_voting_stake db + voting_stake)) db)
    else Some db.
End Maintenance.


(** * Measures used to state further properties *)

(** The stake, read as [share_type], that the histogram holds in its
    buckets [1 .. j]. *)
Definition stake_through (hist : list Z) (j : nat) : Z :=
  foldr Z.add 0 (map i64 (take j (drop 1 hist))).

(** What all fee pools hold together, and what all accounts hold together
    in the core asset. *)
Definition fba_total (db : database) : Z :=
  map_fold (fun _ fba s => accumulated_fba_fees fba + s) 0 (fba_index db).

Definition balance_total (db : database) : Z := sum_map (core_balances db).

(** The sum of the cells of a buffer. *)
Definition buffer_total (v : list Z) : Z := foldr Z.add 0 v.

(** A worker that may stand before another in the payroll: more approving
    stake, or as much and an id that is not greater. *)
Definition worker_ranks_before `{Collaborators} (wa wb : worker_object) : Prop :=
  approving_stake wb < approving_stake wa
  \/ (approving_stake wa = approving_stake wb /\ worker_id wa <= worker_id wb).

(** What the active workers ask for together. *)
Definition total_requested `{Collaborators} (db : database) : Z :=
  foldr (fun w s => requested_pay db w + s) 0 (active_workers db).

(** The histograms hold no more stake than was counted: every cell is
    non-negative and each histogram adds up to at most the total voting
    stake. *)
Definition histograms_within_stake (db : database) : Prop :=
  Forall (fun c => 0 <= c) (_witness_count_histogram_buffer db)
  /\ Forall (fun c => 0 <= c) (_committee_count_histogram_buffer db)
  /\ buffer_total (_witness_count_histogram_buffer db) <= _total_voting_stake db
  /\ buffer_total (_committee_count_histogram_buffer db) <= _total_voting_stake db.

(** The account whose opinions the stake of [stake_account] votes with: the
    account itself, or the account it has named as its proxy. *)
Definition opinion_account `{Config} (db : database) (stake_account : account_object)
    : option account_object :=
  if voting_account (options stake_account) =? GRAPHENE_PROXY_TO_SELF_ACCOUNT
  then Some stake_account
  else account_index db !! voting_account (options stake_account).

(** How many of the vote ids have [j] as their instance. *)
Definition votes_on_cell (ids : list vote_id_type) (j : Z) : Z :=
  Z.of_nat (length (filter (fun id => u32 (instance id) = j) ids)).


(** * The next maintenance time *)

(** The hardfork time of hardfork.hpp at which the maintenance time is
    shifted. *)
Class Hardfork616 := { HARDFORK_616_MAINTENANCE_CHANGE_TIME : Z }.

(** Modelled from the spec: a [time_point_sec] is a number of seconds since
    the epoch held in 32 bits; the difference of two of them is a signed
    number of seconds, and seconds added to one wrap at [2^32]. *)

(** The part of [perform_chain_maintenance] that computes the time written
    to [next_maintenance_time], for the block with the given timestamp and
    number.  A maintenance interval of zero makes the division fail.

    [(y + coef) * maintenance_interval] is a [double] and is converted to
    [uint32_t] when it is added to the time.  [coef] is 1 or 0.375, that
    is 8/8 or 3/8, and [y * maintenance_interval] lies between the two
    times, so that the product is a multiple of 1/8 below [2^34] in
    absolute value: the [double] holds it exactly, here as [eighths / 8].
    The conversion drops the fraction; it is undefined for a value that is
    [-1] or less or [2^32] or more. *)
Definition advance_next_maintenance_time `{Hardfork616}
    (db : database) (timestamp block_num : Z) : option Z :=
  let next_maintenance_time := next_maintenance_time (dpo db) in
  let maintenance_interval := maintenance_interval (parameters (gpo db)) in
  if next_maintenance_time <=? timestamp then
    if maintenance_interval =? 0 then None
    else if block_num =? 1 then
      Some (u32 (0 + u32 (u32 (timestamp / maintenance_interval + 1)
                          * maintenance_interval)))
    else
      let y := Z.quot (head_block_time db - next_maintenance_time)
                 maintenance_interval in
      let coef8 :=
        if head_block_time db =? HARDFORK_616_MAINTENANCE_CHANGE_TIME
        then 3 else 8 in
      let eighths := (8 * y + coef8) * maintenance_interval in
      if (-8 <? eighths) && (eighths <? 8 * 2 ^ 32) then
        Some (u32 (next_maintenance_time + Z.quot eighths 8))
      else None
  else Some next_maintenance_time.

(** * The specification's wording of claims the code departs from *)

(** The claim as the specification words it: among equal tallies the
    candidate with the lower object id is preferred. *)
Definition ties_resolved_by_object_id (tally : list Z) (all_objects : list witness_object)
    (count : Z) : Prop :=
  forall X Y, X ∈ all_objects ->
    X ∉ sort_votable_objects tally all_objects count ->
    Y ∈ sort_votable_objects tally all_objects count ->
    tallied_votes tally X = tallied_votes tally Y ->
    object_id Y <= object_id X.


(** * Concrete states used by the examples *)

Module Example.

Definition config : Config :=
    {| GRAPHENE_CORE_ASSET_CYCLE_RATE := 17;
       GRAPHENE_CORE_ASSET_CYCLE_RATE_BITS := 32;
       GRAPHENE_100_PERCENT := 10000;
       GRAPHENE_1_PERCENT := 100;
       GRAPHENE_PROXY_TO_SELF_ACCOUNT := 5;
       GRAPHENE_WITNESS_ACCOUNT := 1;
       GRAPHENE_COMMITTEE_ACCOUNT := 0;
       GRAPHENE_RELAXED_COMMITTEE_ACCOUNT := 2;
       HARDFORK_533_TIME := 1456250400;
       fba_accumulator_id_transfer_to_blind := 0;
       fba_accumulator_id_blind_transfer := 1;
       fba_accumulator_id_transfer_from_blind := 2 |}.

  (** Two witnesses whose vote ids were handed out against the order of
      their object ids, with the same tally. *)
Definition witness_7 : witness_object :=
    {| wit_id := 7; witness_account := 107;
       wit_vote_id := mk_vote_id (9 * 256 + 1); wit_total_votes := 0 |}.

Definition witness_9 : witness_object :=
    {| wit_id := 9; witness_account := 109;
       wit_vote_id := mk_vote_id (7 * 256 + 1); wit_total_votes := 0 |}.

Definition tied_tally : list Z := replicate 10 100.

  (** The same two witnesses with vote ids in the order of their ids. *)
Definition witness_7' : witness_object :=
    {| wit_id := 7; witness_account := 107;
       wit_vote_id := mk_vote_id (7 * 256 + 1); wit_total_votes := 0 |}.

Definition witness_9' : witness_object :=
    {| wit_id := 9; witness_account := 109;
       wit_vote_id := mk_vote_id (9 * 256 + 1); wit_total_votes := 0 |}.

Definition collaborators : Collaborators :=
    {| reserved := fun db => 1000000000000000 - current_supply (core_dd db);
       is_member := fun _ _ => true;
       is_active := fun w now => (work_begin_date w <=? now) && (now <=? work_end_date w);
       approving_stake := fun w => total_votes_for w - total_votes_against w;
       pay_worker := fun _ _ db => db;
       is_configured := fun fba db =>
         match designated_asset fba with
         | Some a => match asset_index db !! a with
                     | Some o => bool_decide (is_Some (buyback_account o))
                     | None => false
                     end
         | None => false
         end;
       vote_counter_finish := fun _ a => a |}.

Definition empty_authority : authority :=
    {| weight_threshold := 0; account_auths := ∅ |}.

Definition system_account (id : Z) : account_object :=
    {| account_id := id;
       options := {| voting_account := 5; num_witness := 0; num_committee := 0; votes := [] |};
       total_core_in_orders := 0; cashback_vb := None; active := empty_authority |}.

Definition params : chain_parameters :=
    {| block_interval := 5; maintenance_interval := 86400;
       maximum_witness_count := 5; maximum_committee_count := 5;
       witness_pay_per_block := 10; worker_budget_per_day := 8640;
       count_non_member_votes := true |}.

  (** A state before [HARDFORK_533_TIME] with two witnesses, two committee
      members, the floor [min] on both elected sets and the given scratch
      buffers. *)
Definition mk_db (min total : Z) (witness_hist committee_hist : list Z) : database :=
    {| gpo := {| parameters := params; next_available_vote_id := 10;
                 active_witnesses := ∅; active_committee_members := [] |};
       dpo := {| time := 1000000000; next_maintenance_time := 1000003600;
                 last_budget_time := 999913600; witness_budget := 40 |};
       cpo := {| min_committee_member_count := min; min_witness_count := min |};
       core_dd := {| current_supply := 999990000000000; accumulated_fees := 60 |};
       witness_index := [witness_7'; witness_9'];
       committee_member_index :=
         [ {| cm_id := 3; committee_member_account := 203;
              cm_vote_id := mk_vote_id (3 * 256); cm_total_votes := 0 |};
           {| cm_id := 4; committee_member_account := 204;
              cm_vote_id := mk_vote_id (4 * 256); cm_total_votes := 0 |} ];
       worker_index :=
         [ {| worker_id := 1; worker_account := 301; work_begin_date := 0;
              work_end_date := 2000000000; daily_pay := 100;
              total_votes_for := 50; total_votes_against := 0 |};
           {| worker_id := 2; worker_account := 302; work_begin_date := 0;
              work_end_date := 2000000000; daily_pay := 200;
              total_votes_for := 80; total_votes_against := 0 |} ];
       account_index :=
         <[0 := system_account 0]> (<[1 := system_account 1]> (<[2 := system_account 2]> ∅));
       asset_index := ∅;
       fba_index := ∅;
       core_balances := ∅;
       budget_records := [];
       applied_operations := [];
       _vote_tally_buffer := [0; 0; 0; 300; 200; 0; 0; 100; 0; 100];
       _witness_count_histogram_buffer := witness_hist;
       _committee_count_histogram_buffer := committee_hist;
       _total_voting_stake := total |}.

Definition db_with_min (min : Z) : database := mk_db min 0 [0; 0; 0] [0; 0; 0].

  (** All of the voting stake, 1000, asks for four or five committee
      members; [w0] of it abstains on the number of witnesses. *)
Definition db_abstaining (w0 : Z) : database :=
    mk_db 1 1000 [w0; 0; 1000 - w0] [0; 0; 1000].

  (** The pool of [transfer_to_blind] holds 1000 for asset 7, issued by
      account 70 and bought back by account 77. *)
Definition db_fba : database :=
    set_fba_index
      {[ 0 := {| fba_object_id := 0; accumulated_fba_fees := 1000;
                 designated_asset := Some 7 |} ]}
      (set_asset_index
         {[ 7 := {| asset_id := 7; issuer := 70; buyback_account := Some 77 |} ]}
         (db_with_min 1)).

  (** An account with a stake of 100 that asks for [n] witnesses and three
      committee members; the maximum of both counts is 5. *)
Definition voter (n : Z) : account_object :=
    {| account_id := 900;
       options := {| voting_account := 5; num_witness := n; num_committee := 3;
                     votes := [mk_vote_id (7 * 256 + 1)] |};
       total_core_in_orders := 0; cashback_vb := None; active := empty_authority |}.

Definition db_tally : database :=
    set_core_balances {[ 900 := 100 ]} (mk_db 1 0 [] []).

  (** The maintenance runs twelve hours after the last budget. *)
Definition db_half_day : database :=
    set_dpo {| time := 1000000000; next_maintenance_time := 1000003600;
               last_budget_time := 1000000000 - 43200; witness_budget := 40 |}
      (db_with_min 1).

End Example.

(** * Further concrete states *)

Module Scenario.

Definition member_3 : committee_member_object :=
  {| cm_id := 3; committee_member_account := 203;
     cm_vote_id := mk_vote_id (3 * 256); cm_total_votes := 0 |}.

Definition member_4 : committee_member_object :=
  {| cm_id := 4; committee_member_account := 204;
     cm_vote_id := mk_vote_id (4 * 256); cm_total_votes := 0 |}.

(** Member 3 holds 300 votes and member 4 holds 200. *)
Definition tally : list Z := [0; 0; 0; 300; 200; 0; 0; 100; 0; 100].

(** The three pools of blinded transfers: the first holds 1000 for asset
    7, the second holds 50 and has no asset, the third is empty. *)
Definition db_three_pools : database :=
  set_fba_index
    {[ 0 := {| fba_object_id := 0; accumulated_fba_fees := 1000;
               designated_asset := Some 7 |};
       1 := {| fba_object_id := 1; accumulated_fba_fees := 50;
               designated_asset := None |};
       2 := {| fba_object_id := 2; accumulated_fba_fees := 0;
               designated_asset := None |} ]}
Example.db_fba.

(** Account 901 holds a stake of 40 and votes through account 900, which
    asks for four witnesses and three committee members and names the vote
    ids with instances 7 and 3. *)
Definition proxy : account_object :=
  {| account_id := 900;
     options := {| voting_account := 5; num_witness := 4; num_committee := 3;
                   votes := [mk_vote_id (7 * 256 + 1); mk_vote_id (3 * 256)] |};
     total_core_in_orders := 0; cashback_vb := None;
     active := Example.empty_authority |}.

Definition delegator : account_object :=
  {| account_id := 901;
     options := {| voting_account := 900; num_witness := 0; num_committee := 0;
                   votes := [] |};
     total_core_in_orders := 15; cashback_vb := Some 5;
     active := Example.empty_authority |}.

Definition db_proxy : database :=
  set_account_index
    (<[900 := proxy]> (<[901 := delegator]> (account_index Example.db_tally)))
    (set_core_balances {[ 900 := 100; 901 := 20 ]} Example.db_tally).

Definition hardfork_616 : Hardfork616 :=
  {| HARDFORK_616_MAINTENANCE_CHANGE_TIME := 1000100000 |}.

(** The maintenance was due at 1000003600 and the interval is a day; the
    head block comes [late] seconds after the time it was due. *)
Definition db_late (late : Z) : database :=
  set_dpo {| time := 1000003600 + late; next_maintenance_time := 1000003600;
             last_budget_time := 999913600; witness_budget := 40 |}
    (Example.db_with_min 1).

(** Modelled from the spec: the worker variants and their [pay_worker] are
    defined in worker_evaluator.cpp, which is absent.  A refund worker gives
    its pay back to the reserve: the payment lowers the current supply of
    the core asset by the pay.  Here every worker is a refund worker. *)
Definition refund_collaborators : Collaborators :=
  {| reserved := fun db => 1000000000000000 - current_supply (core_dd db);
     is_member := fun _ _ => true;
     is_active := fun w now => (work_begin_date w <=? now) && (now <=? work_end_date w);
     approving_stake := fun w => total_votes_for w - total_votes_against w;
     pay_worker := fun _ pay db =>
       set_core_dd {| current_supply := current_supply (core_dd db) - pay;
                      accumulated_fees := accumulated_fees (core_dd db) |} db;
     is_configured := fun _ _ => false;
     vote_counter_finish := fun _ a => a |}.



(** Histograms of two buckets only, the last of the witness histogram
    holding 7; account 900 holds a stake of 100. *)
Definition db_short : database :=
  set_core_balances {[ 900 := 100 ]} (Example.mk_db 1 0 [0; 7] [0; 0]).

End Scenario.
(** * Facts *)

(** ** Fixed-width arithmetic *)

Section IntFacts.
Lemma u64_small x : 0 <= x < 2 ^ 64 -> u64 x = x.
Proof. intros H. unfold u64. by apply Z.mod_small. Qed.

Lemma u32_small x : 0 <= x < 2 ^ 32 -> u32 x = x.
Proof. intros H. unfold u32. by apply Z.mod_small. Qed.

Lemma u16_small x : 0 <= x < 2 ^ 16 -> u16 x = x.
Proof. intros H. unfold u16. by apply Z.mod_small. Qed.

Lemma u128_small x : 0 <= x < 2 ^ 128 -> u128 x = x.
Proof. intros H. unfold u128. by apply Z.mod_small. Qed.

Lemma i64_small x : 0 <= x < 2 ^ 63 -> i64 x = x.
Proof.
  intros H. unfold i64. rewrite u64_small by lia.
  destruct (Z.ltb_spec x (2 ^ 63)); lia.
Qed.

Lemma i64_inj_u64 x y :
  0 <= x < 2 ^ 64 -> 0 <= y < 2 ^ 64 -> i64 x = i64 y -> x = y.
Proof.
  intros Hx Hy. unfold i64. rewrite !u64_small by lia.
  destruct (Z.ltb_spec x (2 ^ 63)), (Z.ltb_spec y (2 ^ 63)); lia.
Qed.

Lemma safe_add_Some a b c : safe_add a b = Some c -> c = a + b /\ - 2 ^ 63 <= c < 2 ^ 63.
Proof.
  unfold safe_add, in_i64. intros H.
  destruct (Z.leb_spec (- 2 ^ 63) (a + b)), (Z.ltb_spec (a + b) (2 ^ 63));
    simpl in H; inversion H; lia.
Qed.

Lemma safe_sub_Some a b c : safe_sub a b = Some c -> c = a - b /\ - 2 ^ 63 <= c < 2 ^ 63.
Proof.
  unfold safe_sub, in_i64. intros H.
  destruct (Z.leb_spec (- 2 ^ 63) (a - b)), (Z.ltb_spec (a - b) (2 ^ 63));
    simpl in H; inversion H; lia.
Qed.

Lemma safe_add_in a b : - 2 ^ 63 <= a + b < 2 ^ 63 -> safe_add a b = Some (a + b).
Proof.
  intros H. unfold safe_add, in_i64.
  destruct (Z.leb_spec (- 2 ^ 63) (a + b)), (Z.ltb_spec (a + b) (2 ^ 63)); simpl; auto; lia.
Qed.

Lemma safe_sub_in a b : - 2 ^ 63 <= a - b < 2 ^ 63 -> safe_sub a b = Some (a - b).
Proof.
  intros H. unfold safe_sub, in_i64.
  destruct (Z.leb_spec (- 2 ^ 63) (a - b)), (Z.ltb_spec (a - b) (2 ^ 63)); simpl; auto; lia.
Qed.

Lemma assert_Some b u : assert b = Some u -> b = true.
Proof. by destruct b. Qed.

End IntFacts.

(** ** Sorting with a strict order *)

Lemma insert_by_Permutation {T} (comp : T -> T -> bool) x l :
  insert_by comp x l ≡ₚ x :: l.
Proof.
  induction l as [|y l IH]; simpl; [done|].
  destruct (comp x y); [done|]. rewrite IH. apply Permutation_swap.
Qed.

Lemma sort_by_Permutation {T} (comp : T -> T -> bool) l : sort_by comp l ≡ₚ l.
Proof.
  induction l as [|y l IH]; simpl; [done|].
  by rewrite insert_by_Permutation, IH.
Qed.

Lemma StronglySorted_weaken {A} (R S : A -> A -> Prop) (l : list A) :
  (forall a b, R a b -> S a b) -> StronglySorted R l -> StronglySorted S l.
Proof.
  intros HRS. induction 1 as [|a l Hl IH Ha]; constructor; [done|].
  eapply Forall_impl; [exact Ha|]. intros b. apply HRS.
Qed.

Section SortingFacts.
Context {T : Type} (comp : T -> T -> bool).
Hypothesis comp_trans : forall a b c, comp a b = true -> comp b c = true -> comp a c = true.
Hypothesis comp_asym : forall a b, comp a b = true -> comp b a = false.

Lemma elem_of_insert_by x y l : y ∈ insert_by comp x l <-> y = x \/ y ∈ l.
  Proof.
    induction l as [|z l IH]; simpl.
    - rewrite list_elem_of_singleton. split; [by left|].
      intros [?|Hn]; [done|]. by apply elem_of_nil in Hn.
    - destruct (comp x z); rewrite !elem_of_cons; [tauto|].
      rewrite IH. tauto.
  Qed.

Lemma elem_of_sort_by y l : y ∈ sort_by comp l <-> y ∈ l.
  Proof.
    induction l as [|z l IH]; simpl; [done|].
    rewrite elem_of_insert_by, IH, elem_of_cons. tauto.
  Qed.

Lemma length_insert_by x l : length (insert_by comp x l) = S (length l).
  Proof.
    induction l as [|z l IH]; simpl; [done|].
    destruct (comp x z); simpl; congruence.
  Qed.

Lemma length_sort_by l : length (sort_by comp l) = length l.
  Proof.
    induction l as [|z l IH]; simpl; [done|].
    rewrite length_insert_by. congruence.
  Qed.

Lemma insert_by_sorted x l :
    StronglySorted (not_after comp) l -> StronglySorted (not_after comp) (insert_by comp x l).
  Proof.
    induction l as [|y l IH]; simpl; intros Hs.
    - repeat constructor.
    - apply StronglySorted_inv in Hs as [Hl Hy].
      destruct (comp x y) eqn:Hxy.
      + constructor; [by constructor|].
        constructor; [by apply comp_asym|].
        eapply Forall_impl; [exact Hy|]. intros z Hz. unfold not_after in *.
        destruct (comp z x) eqn:Hzx; [|done].
        by rewrite (comp_trans _ _ _ Hzx Hxy) in Hz.
      + constructor; [by apply IH|].
        apply Forall_forall. intros z Hz.
        apply elem_of_insert_by in Hz as [->|Hz]; [done|].
        rewrite Forall_forall in Hy. by apply Hy.
  Qed.

Lemma sort_by_sorted l : StronglySorted (not_after comp) (sort_by comp l).
  Proof.
    induction l as [|y l IH]; simpl; [constructor|]. by apply insert_by_sorted.
  Qed.

Lemma partial_sort_take_sorted n l :
    StronglySorted (not_after comp) (partial_sort_take comp n l).
  Proof.
    unfold partial_sort_take.
    pose proof (sort_by_sorted l) as Hs.
    rewrite <- (take_drop n (sort_by comp l)) in Hs.
    by apply StronglySorted_app_1_l in Hs.
  Qed.

  (** Nothing left out of the selection comes strictly before a selected
      element. *)
Lemma partial_sort_take_best n l x y :
    x ∈ l -> x ∉ partial_sort_take comp n l -> y ∈ partial_sort_take comp n l ->
    comp x y = false.
  Proof.
    unfold partial_sort_take. intros Hx Hnx Hy.
    pose proof (sort_by_sorted l) as Hs.
    rewrite <- (take_drop n (sort_by comp l)) in Hs.
    apply (StronglySorted_app_1_elem_of _ _ _ y x) in Hs; [done|done|].
    apply elem_of_sort_by in Hx.
    rewrite <- (take_drop n (sort_by comp l)) in Hx.
    apply elem_of_app in Hx as [Hx|Hx]; [done|done].
  Qed.

  (** A strict order that decides between any two distinct elements of
      the range leaves one way to sort it. *)
Lemma sort_by_unique l l' :
    (forall x y, x ∈ l -> y ∈ l -> comp x y = false -> comp y x = false -> x = y) ->
    l' ≡ₚ l -> StronglySorted (not_after comp) l' -> l' = sort_by comp l.
  Proof.
    intros Htot Hperm Hs.
    apply (StronglySorted_unique_strong (not_after comp)); [|done|apply sort_by_sorted|].
    - intros x y Hx Hy Hxy Hyx. unfold not_after in *.
      apply Htot.
      + by apply (elem_of_Permutation_proper x _ _ Hperm).
      + by apply elem_of_sort_by.
      + exact Hyx.
      + exact Hxy.
    - by rewrite Hperm, sort_by_Permutation.
  Qed.

Lemma length_partial_sort_take n l :
    length (partial_sort_take comp n l) = Nat.min n (length l).
  Proof. unfold partial_sort_take. by rewrite length_take, length_sort_by. Qed.
End SortingFacts.

(** ** sort_votable_objects *)

Section SortVotableFacts.
Context {T : Type} `{Votable T}.

Lemma votable_before_trans tally (a b c : T) :
    votable_before tally a b = true -> votable_before tally b c = true ->
    votable_before tally a c = true.
  Proof.
    unfold votable_before, vote_id_lt.
    repeat match goal with
           | |- context [?x =? ?y] => destruct (Z.eqb_spec x y); simpl
           end; rewrite ?Z.ltb_lt; lia.
  Qed.

Lemma votable_before_asym tally (a b : T) :
    votable_before tally a b = true -> votable_before tally b a = false.
  Proof.
    unfold votable_before, vote_id_lt.
    repeat match goal with
           | |- context [?x =? ?y] => destruct (Z.eqb_spec x y); simpl
           end; rewrite ?Z.ltb_lt, ?Z.ltb_ge; lia.
  Qed.

Lemma not_after_ranks_before tally (a b : T) :
    not_after (votable_before tally) a b -> ranks_before tally a b.
  Proof.
    unfold not_after, ranks_before, votable_before, vote_id_lt, tallied_votes.
    destruct (Z.eqb_spec (i64 (vget tally (instance (vote_id b))))
                (i64 (vget tally (instance (vote_id a))))); simpl;
      rewrite Z.ltb_ge; lia.
  Qed.

Lemma length_sort_votable_objects tally (all_objects : list T) count :
    0 <= count ->
    vsize (sort_votable_objects tally all_objects count) = Z.min count (vsize all_objects).
  Proof.
    intros Hc. unfold sort_votable_objects, vsize.
    rewrite length_partial_sort_take. lia.
  Qed.

Lemma elem_of_sort_votable_objects tally (all_objects : list T) count x :
    x ∈ sort_votable_objects tally all_objects count -> x ∈ all_objects.
  Proof.
    unfold sort_votable_objects, partial_sort_take. intros Hx.
    apply elem_of_take in Hx as (i & Hx & _).
    eapply elem_of_sort_by, list_elem_of_lookup_2, Hx.
  Qed.

  (** C2 (as amended).  [sort_votable_objects] returns its selection
      ordered by tally descending and, among equal tallies, by vote id
      ascending; a candidate X left out and a retained candidate Y with the
      same tally never have [X.vote_id < Y.vote_id]; and where vote ids grow
      with object ids over the index, Y's object id is then not greater than
      X's. *)
Theorem sort_votable_objects_ties_by_vote_id
      tally (all_objects : list T) count (X Y : T) :
    X ∈ all_objects ->
    X ∉ sort_votable_objects tally all_objects count ->
    Y ∈ sort_votable_objects tally all_objects count ->
    tallied_votes tally X = tallied_votes tally Y ->
    StronglySorted (ranks_before tally) (sort_votable_objects tally all_objects count)
    /\ content (vote_id Y) <= content (vote_id X)
    /\ ((forall a b, a ∈ all_objects -> b ∈ all_objects ->
           (object_id a < object_id b <-> content (vote_id a) < content (vote_id b))) ->
        object_id Y <= object_id X).
  Proof.
    intros HX HnX HY Heq.
    assert (Hle : content (vote_id Y) <= content (vote_id X)).
    { pose proof (partial_sort_take_best (votable_before tally)
        (votable_before_trans tally) (votable_before_asym tally) _ _ _ _ HX HnX HY) as Hb.
      apply (not_after_ranks_before tally Y X) in Hb. unfold ranks_before in Hb. lia. }
    split; [|split; [done|]].
    - eapply StronglySorted_weaken; [|apply (partial_sort_take_sorted (votable_before tally)
        (votable_before_trans tally) (votable_before_asym tally))].
      intros a b. apply not_after_ranks_before.
    - intros Hmono. apply elem_of_sort_votable_objects in HY.
      destruct (Z.le_gt_cases (object_id Y) (object_id X)) as [|Hlt]; [done|].
      apply Hmono in Hlt; [lia|done|done].
  Qed.
End SortVotableFacts.

(** C2, counterexample.  Witness 7 holds the greater vote id and witness 9
    the smaller one, both with 100 votes: one seat goes to witness 9. *)
Lemma sort_votable_objects_prefers_lower_vote_id :
  sort_votable_objects Example.tied_tally [Example.witness_7; Example.witness_9] 1
    = [Example.witness_9]
  /\ ~ ties_resolved_by_object_id Example.tied_tally
         [Example.witness_7; Example.witness_9] 1.
Proof.
  split; [reflexivity|].
  intros Hc. specialize (Hc Example.witness_7 Example.witness_9).
  assert (Hs : sort_votable_objects Example.tied_tally
                 [Example.witness_7; Example.witness_9] 1 = [Example.witness_9])
    by reflexivity.
  rewrite Hs in Hc.
  assert (object_id Example.witness_9 <= object_id Example.witness_7); [|simpl in *; lia].
  apply Hc.
  - apply elem_of_cons. by left.
  - rewrite list_elem_of_singleton. discriminate.
  - by apply list_elem_of_singleton.
  - reflexivity.
Qed.

(** With vote ids in the order of the object ids the tie goes to id 7. *)
Lemma sort_votable_objects_ties_by_vote_id_witness :
  sort_votable_objects Example.tied_tally [Example.witness_9'; Example.witness_7'] 1
    = [Example.witness_7']
  /\ content (vote_id Example.witness_7') <= content (vote_id Example.witness_9')
  /\ object_id Example.witness_7' <= object_id Example.witness_9'.
Proof.
  split; [reflexivity|].
  pose proof (sort_votable_objects_ties_by_vote_id Example.tied_tally
    [Example.witness_9'; Example.witness_7'] 1 Example.witness_9' Example.witness_7') as Ht.
  assert (Hs : sort_votable_objects Example.tied_tally
                 [Example.witness_9'; Example.witness_7'] 1 = [Example.witness_7'])
    by reflexivity.
  rewrite Hs in Ht.
  destruct Ht as (_ & Hv & Ho).
  - apply elem_of_cons. by left.
  - rewrite list_elem_of_singleton. discriminate.
  - by apply list_elem_of_singleton.
  - reflexivity.
  - split; [exact Hv|]. apply Ho.
    intros a b Ha Hb.
    apply elem_of_cons in Ha as [->|Ha]; [|apply list_elem_of_singleton in Ha as ->];
    (apply elem_of_cons in Hb as [->|Hb]; [|apply list_elem_of_singleton in Hb as ->]);
    simpl; lia.
Defined.

(** ** update_active_witnesses: the size of the elected set *)

Lemma NoDup_take {A} (l : list A) n : NoDup l -> NoDup (take n l).
Proof.
  intros Hl. rewrite <- (take_drop n l) in Hl. by apply NoDup_app in Hl as (? & _ & _).
Qed.

Lemma sort_votable_objects_NoDup {T} `{Votable T} {B} (f : T -> B) tally
    (all_objects : list T) count :
  NoDup (map f all_objects) -> NoDup (map f (sort_votable_objects tally all_objects count)).
Proof.
  intros Hl. unfold sort_votable_objects, partial_sort_take.
  change (map f) with (fmap (M := list) f). rewrite fmap_take. apply NoDup_take.
  by rewrite (sort_by_Permutation _ all_objects).
Qed.

Section WitnessCount.
Context `{Config} `{Collaborators}.

Lemma witness_count_loop_bounds cells c t target r :
    witness_count_loop cells c t target = Some r -> c <= r <= c + vsize cells.
  Proof.
    unfold vsize. revert c t. induction cells as [|x cells IH]; simpl; intros c t Hr.
    - inversion Hr. lia.
    - destruct (t <=? target); [|inversion Hr; lia].
      apply bind_Some in Hr as (t' & _ & Hr). apply IH in Hr. lia.
  Qed.

Lemma witness_count_bounds db wc :
    witness_count db = Some wc ->
    0 <= wc <= Z.max 0 (vsize (_witness_count_histogram_buffer db) - 1).
  Proof.
    unfold witness_count. destruct (0 <? _); intros Hwc.
    - apply witness_count_loop_bounds in Hwc. unfold vsize in *.
      rewrite length_drop in Hwc. lia.
    - inversion Hwc. lia.
  Qed.

  (** What [update_active_witnesses] leaves in the global properties. *)
Lemma update_active_witnesses_elected db db' :
    update_active_witnesses db = Some db' ->
    exists wc, witness_count db = Some wc
      /\ active_witnesses (gpo db') =
           list_to_set (map wit_id
             (sort_votable_objects (_vote_tally_buffer db) (witness_index db)
                (Z.max (wc * 2 + 1) (min_witness_count (cpo db))))).
  Proof.
    unfold update_active_witnesses. intros Hu.
    apply bind_Some in Hu as (_ & _ & Hu).
    apply bind_Some in Hu as (wc & Hwc & Hu).
    apply bind_Some in Hu as (a & _ & Hu).
    inversion Hu. exists wc. by split.
  Qed.

Lemma update_active_witnesses_runs db wc :
    0 < vsize (_witness_count_histogram_buffer db) ->
    is_Some (account_index db !! GRAPHENE_WITNESS_ACCOUNT) ->
    witness_count db = Some wc ->
    is_Some (update_active_witnesses db).
  Proof.
    intros Hh [a Ha] Hwc. unfold update_active_witnesses.
    destruct (Z.ltb_spec 0 (vsize (_witness_count_histogram_buffer db))); [|lia].
    simpl. rewrite Hwc. simpl. rewrite Ha. simpl. eauto.
  Qed.

  (** C3 (as amended).  [update_active_witnesses] elects
      [min (max (2*witness_count+1) min_witness_count) n] witnesses, [n]
      being the number of witness objects: with at least
      [max (2*witness_count+1) min_witness_count] candidates the size is
      that maximum, at least [min_witness_count], and odd when
      [min_witness_count] is odd. *)
Theorem update_active_witnesses_size db wc :
    0 < vsize (_witness_count_histogram_buffer db) ->
    is_Some (account_index db !! GRAPHENE_WITNESS_ACCOUNT) ->
    witness_count db = Some wc ->
    NoDup (map wit_id (witness_index db)) ->
    exists db', update_active_witnesses db = Some db' /\
      let elected := Z.of_nat (size (active_witnesses (gpo db'))) in
      let wanted := Z.max (wc * 2 + 1) (min_witness_count (cpo db)) in
      elected = Z.min wanted (vsize (witness_index db))
      /\ (wanted <= vsize (witness_index db) ->
          elected = wanted
          /\ min_witness_count (cpo db) <= elected
          /\ (Z.odd (min_witness_count (cpo db)) = true -> Z.odd elected = true)).
  Proof.
    intros Hh Ha Hwc Hnd.
    destruct (update_active_witnesses_runs db wc Hh Ha Hwc) as [db' Hu].
    exists db'. split; [done|].
    destruct (update_active_witnesses_elected db db' Hu) as (wc' & Hwc' & Hel).
    rewrite Hwc in Hwc'. inversion Hwc'; subst wc'. clear Hwc'.
    pose proof (witness_count_bounds db wc Hwc) as Hb.
    cbv zeta. rewrite Hel.
    rewrite size_list_to_set by by apply sort_votable_objects_NoDup.
    rewrite length_map.
    pose proof (length_sort_votable_objects (_vote_tally_buffer db) (witness_index db)
      (Z.max (wc * 2 + 1) (min_witness_count (cpo db)))) as Hlen.
    unfold vsize in *. rewrite Hlen by lia.
    split; [done|]. intros Hw. split; [lia|]. split; [lia|].
    intros Hodd. rewrite Z.min_l by lia.
    destruct (Z.max_spec (wc * 2 + 1) (min_witness_count (cpo db))) as [[_ ->]|[_ ->]];
      [done|].
    rewrite Z.add_comm, Z.mul_comm. by rewrite Z.odd_add_mul_2.
  Qed.
End WitnessCount.

(** C3, counterexample.  Two witness objects and [min_witness_count = 11]:
    two witnesses are elected, an even number below the floor. *)
Lemma update_active_witnesses_few_candidates :
  exists db',
    @update_active_witnesses Example.config Example.collaborators (Example.db_with_min 11)
      = Some db'
    /\ @witness_count (Example.db_with_min 11) = Some 0
    /\ min_witness_count (cpo (Example.db_with_min 11)) = 11
    /\ size (active_witnesses (gpo db')) = 2%nat
    /\ Z.of_nat (size (active_witnesses (gpo db'))) <> Z.max (0 * 2 + 1) 11
    /\ Z.odd (Z.of_nat (size (active_witnesses (gpo db')))) = false.
Proof.
  eexists. split; [vm_compute; reflexivity|]. vm_compute. repeat split; congruence.
Qed.

Lemma update_active_witnesses_size_witness :
  exists db',
    @update_active_witnesses Example.config Example.collaborators (Example.db_with_min 1)
      = Some db'
    /\ Z.of_nat (size (active_witnesses (gpo db'))) = 1
    /\ Z.odd (Z.of_nat (size (active_witnesses (gpo db')))) = true.
Proof.
  destruct (@update_active_witnesses_size Example.config Example.collaborators
              (Example.db_with_min 1) 0) as (db' & Hu & Hsz & Hw).
  - vm_compute. reflexivity.
  - eexists. vm_compute. reflexivity.
  - vm_compute. reflexivity.
  - vm_compute. apply NoDup_cons. split; [|apply NoDup_singleton].
    rewrite list_elem_of_singleton. discriminate.
  - exists db'. split; [exact Hu|].
    destruct Hw as (He & _ & Ho); [vm_compute; discriminate|].
    split; [exact He|]. apply Ho. reflexivity.
Defined.

(** ** update_active_committee_members: the stake target *)

Section CommitteeCount.
Context `{Config} `{Collaborators}.

Lemma i64_half_u64 x : i64 (u64 x / 2) = u64 x / 2.
  Proof.
    apply i64_small. unfold u64.
    pose proof (Z.mod_pos_bound x (2 ^ 64) ltac:(lia)) as Hb.
    split; [apply Z.div_pos; lia|].
    apply Z.div_lt_upper_bound; lia.
  Qed.

Lemma update_active_committee_members_elected db db' :
    update_active_committee_members db = Some db' ->
    active_committee_members (gpo db') =
      map cm_id
        (sort_votable_objects (_vote_tally_buffer db) (committee_member_index db)
           (Z.max (committee_member_count db * 2 + 1) (min_committee_member_count (cpo db)))).
  Proof.
    unfold update_active_committee_members. intros Hu.
    apply bind_Some in Hu as (_ & _ & Hu).
    apply bind_Some in Hu as (db1 & _ & Hu).
    by inversion Hu.
  Qed.

  (** C9.  The number of committee members to elect is derived from
      [stake_target = (_total_voting_stake - _witness_count_histogram_buffer[0]) / 2]
      in 64-bit unsigned arithmetic: bucket 0 of the witness histogram is
      subtracted, and bucket 0 of the committee histogram plays no part. *)
Theorem committee_stake_target_subtracts_witness_bucket db db' :
    update_active_committee_members db = Some db' ->
    let stake_target :=
      u64 (_total_voting_stake db - vget (_witness_count_histogram_buffer db) 0) / 2 in
    let count :=
      if 0 <? stake_target
      then committee_count_loop (drop 1 (_committee_count_histogram_buffer db))
             0 0 stake_target
      else 0 in
    active_committee_members (gpo db') =
      map cm_id
        (sort_votable_objects (_vote_tally_buffer db) (committee_member_index db)
           (Z.max (count * 2 + 1) (min_committee_member_count (cpo db))))
    /\ forall v,
         committee_member_count
           (set_committee_count_histogram_buffer
              (<[0%nat := v]> (_committee_count_histogram_buffer db)) db)
         = count.
  Proof.
    intros Hu. cbv zeta. split.
    - rewrite (update_active_committee_members_elected db db' Hu).
      unfold committee_member_count. by rewrite i64_half_u64.
    - intros v. unfold committee_member_count. simpl. rewrite i64_half_u64.
      destruct (_committee_count_histogram_buffer db); done.
  Qed.
End CommitteeCount.

(** With the whole stake in bucket 0 of the witness histogram the target
    is 0 and one member is elected, whatever the committee histogram says;
    with that bucket empty both candidates are. *)
Lemma committee_stake_target_subtracts_witness_bucket_witness :
  exists db1 db2,
    @update_active_committee_members Example.config Example.collaborators
      (Example.db_abstaining 1000) = Some db1
    /\ @update_active_committee_members Example.config Example.collaborators
         (Example.db_abstaining 0) = Some db2
    /\ active_committee_members (gpo db1) = [3]
    /\ active_committee_members (gpo db2) = [3; 4].
Proof.
  destruct (@update_active_committee_members Example.config Example.collaborators
              (Example.db_abstaining 1000)) as [db1|] eqn:H1; [|vm_compute in H1; discriminate].
  destruct (@update_active_committee_members Example.config Example.collaborators
              (Example.db_abstaining 0)) as [db2|] eqn:H2; [|vm_compute in H2; discriminate].
  exists db1, db2. split; [done|]. split; [done|].
  destruct (@committee_stake_target_subtracts_witness_bucket Example.config
Example.collaborators _ _ H1) as [E1 _].
  destruct (@committee_stake_target_subtracts_witness_bucket Example.config
Example.collaborators _ _ H2) as [E2 _].
  rewrite E1, E2. split; vm_compute; reflexivity.
Defined.

(** ** The authority built before HARDFORK_533 *)

Section LegacyAuthority.

Lemma sum_map_empty : sum_map ∅ = 0.
  Proof. unfold sum_map. by rewrite map_fold_empty. Qed.

Lemma sum_map_insert (m : gmap Z Z) i x :
    m !! i = None -> sum_map (<[i := x]> m) = x + sum_map m.
  Proof.
    intros Hi. unfold sum_map. rewrite map_fold_insert_L; [done| |done].
    intros. lia.
  Qed.


Lemma legacy_votes_u16 bits w : 0 <= legacy_votes bits w < 2 ^ 16.
  Proof. unfold legacy_votes, u16. apply Z.mod_pos_bound. lia. Qed.

  (** No weight is zero and none exceeds 16 bits, as long as the weight
      is at most the total the shift was computed from. *)
Lemma legacy_votes_range total w :
    0 <= w <= total ->
    1 <= legacy_votes (Z.max (find_msb total - 15) 0) w <= 2 ^ 16 - 1.
  Proof.
    intros Hw. unfold legacy_votes, find_msb.
    set (b := Z.max (Z.log2 total - 15) 0).
    assert (Hb : 0 <= b) by lia.
    rewrite Z.shiftr_div_pow2 by done.
    assert (Hp : 0 < 2 ^ b) by (apply Z.pow_pos_nonneg; lia).
    assert (Hq : 0 <= w / 2 ^ b < 2 ^ 16).
    { split; [apply Z.div_pos; lia|].
      apply Z.div_lt_upper_bound; [done|].
      rewrite <- Z.pow_add_r by lia.
      destruct (Z.eq_dec total 0) as [->|Hne].
      - assert (w = 0) by lia. subst w. apply Z.pow_pos_nonneg; lia.
      - destruct (Z.log2_spec total) as [_ Hlt]; [lia|].
        eapply Z.le_lt_trans; [apply Hw|].
        eapply Z.lt_le_trans; [exact Hlt|].
        apply Z.pow_le_mono_r; lia. }
    rewrite u16_small; lia.
  Qed.

Lemma legacy_votes_exact total w :
    0 <= w <= total ->
    legacy_votes (Z.max (find_msb total - 15) 0) w
    = Z.max (w / 2 ^ Z.max (find_msb total - 15) 0) 1.
  Proof.
    intros Hw. pose proof (legacy_votes_range total w Hw) as Hr.
    unfold legacy_votes in *.
    rewrite Z.shiftr_div_pow2 in * by lia.
    set (q := Z.max (w / 2 ^ Z.max (find_msb total - 15) 0) 1) in *.
    assert (0 <= q) by (unfold q; lia).
    destruct (Z.lt_ge_cases q (2 ^ 16)) as [Hlt|Hge]; [by apply u16_small|].
    exfalso. unfold u16 in Hr.
    (* a value of at least 2^16 would have to wrap to a 16-bit one that is
       still in range; the bound on [w] rules that out *)
    assert (Hq : w / 2 ^ Z.max (find_msb total - 15) 0 < 2 ^ 16).
    { unfold find_msb.
      set (b := Z.max (Z.log2 total - 15) 0).
      assert (0 < 2 ^ b) by (apply Z.pow_pos_nonneg; lia).
      apply Z.div_lt_upper_bound; [done|].
      rewrite <- Z.pow_add_r by lia.
      destruct (Z.eq_dec total 0) as [->|Hne].
      - assert (w = 0) by lia. subst w. apply Z.pow_pos_nonneg; lia.
      - destruct (Z.log2_spec total) as [_ Hlt]; [lia|].
        eapply Z.le_lt_trans; [apply Hw|].
        eapply Z.lt_le_trans; [exact Hlt|].
        apply Z.pow_le_mono_r; lia. }
    unfold q in Hge. lia.
  Qed.

Lemma legacy_fold bits (weights : gmap Z Z) :
    let a := map_fold (legacy_add bits)
               {| weight_threshold := 0; account_auths := ∅ |} weights in
    account_auths a = legacy_votes bits <$> weights
    /\ weight_threshold a = u32 (sum_map (legacy_votes bits <$> weights)).
  Proof.
    cbv zeta.
    apply (map_fold_weak_ind
      (fun a (m : gmap Z Z) => account_auths a = legacy_votes bits <$> m
         /\ weight_threshold a = u32 (sum_map (legacy_votes bits <$> m)))).
    - simpl. rewrite fmap_empty, sum_map_empty. done.
    - intros i x m r Hi [Ha Ht]. simpl. rewrite Ha, Ht, fmap_insert.
      rewrite lookup_fmap, Hi. simpl. rewrite Z.add_0_l.
      rewrite (u16_small (legacy_votes bits x)) by apply legacy_votes_u16.
      split; [done|].
      rewrite sum_map_insert by (by rewrite lookup_fmap, Hi).
      unfold u32. rewrite Zplus_mod_idemp_l. f_equal. lia.
  Qed.






Lemma sum_tallies_nonneg members :
    Forall (fun m => 0 <= m.2) members -> 0 <= sum_tallies members.
  Proof. induction 1; simpl; lia. Qed.

Lemma sum_tallies_elem members k w :
    Forall (fun m => 0 <= m.2) members -> (k, w) ∈ members -> 0 <= w <= sum_tallies members.
  Proof.
    induction 1 as [|[k' w'] l Hw Hl IH]; intros Hin.
    - by apply elem_of_nil in Hin.
    - pose proof (sum_tallies_nonneg l Hl). simpl in *.
      apply elem_of_cons in Hin as [Hin|Hin]; [inversion Hin; subst; lia|].
      apply IH in Hin. lia.
  Qed.

Lemma legacy_total_votes_acc members acc :
    Forall (fun m => 0 <= m.2) members -> 0 <= acc ->
    acc + sum_tallies members < 2 ^ 64 ->
    foldl (fun t m => u64 (t + m.2)) acc members = acc + sum_tallies members.
  Proof.
    intros Hl. revert acc. induction Hl as [|[k w] l Hw Hl IH]; simpl; intros acc Ha Hs; [lia|].
    pose proof (sum_tallies_nonneg l Hl). simpl in *.
    rewrite u64_small by lia. rewrite IH by lia. lia.
  Qed.

Lemma legacy_total_votes_exact members :
    Forall (fun m => 0 <= m.2) members -> sum_tallies members < 2 ^ 64 ->
    legacy_total_votes members = sum_tallies members.
  Proof.
    intros Hl Hs. unfold legacy_total_votes. by rewrite legacy_total_votes_acc.
  Qed.


End LegacyAuthority.

Section LegacyAuthorityOfElected.
Context {T : Type} `{Votable T}.

Lemma vget_nonneg tally i : Forall (fun t => 0 <= t) tally -> 0 <= vget tally i.
  Proof.
    intros Ht. unfold vget. destruct (i <? 0); [done|].
    destruct (tally !! Z.to_nat i) as [t|] eqn:Hi; simpl; [|done].
    rewrite Forall_forall in Ht. apply Ht. by eapply list_elem_of_lookup_2.
  Qed.

Lemma tally_sum_nonneg tally (l : list T) :
    Forall (fun t => 0 <= t) tally -> 0 <= tally_sum tally l.
  Proof.
    intros Ht. induction l as [|o l IH]; simpl; [done|].
    pose proof (vget_nonneg tally (instance (vote_id o)) Ht). lia.
  Qed.

Lemma tally_sum_app tally (l1 l2 : list T) :
    tally_sum tally (l1 ++ l2) = tally_sum tally l1 + tally_sum tally l2.
  Proof. induction l1 as [|o l IH]; simpl; lia. Qed.

Lemma tally_sum_Permutation tally (l1 l2 : list T) :
    l1 ≡ₚ l2 -> tally_sum tally l1 = tally_sum tally l2.
  Proof. induction 1; simpl; lia. Qed.

Lemma tally_sum_selected tally (all_objects : list T) count :
    Forall (fun t => 0 <= t) tally ->
    tally_sum tally (sort_votable_objects tally all_objects count)
      <= tally_sum tally all_objects.
  Proof.
    intros Ht. unfold sort_votable_objects, partial_sort_take.
    set (n := Z.to_nat _). set (s := sort_by _ _).
    rewrite <- (tally_sum_Permutation tally s all_objects) by apply sort_by_Permutation.
    rewrite <- (take_drop n s) at 2. rewrite tally_sum_app.
    pose proof (tally_sum_nonneg tally (drop n s) Ht). lia.
  Qed.

Lemma sum_tallies_members tally (account : T -> Z) (l : list T) :
    sum_tallies (map (fun o => (account o, vget tally (instance (vote_id o)))) l)
    = tally_sum tally l.
  Proof. induction l as [|o l IH]; simpl; lia. Qed.

End LegacyAuthorityOfElected.

Section LegacyAuthorityOfAccounts.
Context `{Config} `{Collaborators}.







End LegacyAuthorityOfAccounts.



(** ** initialize_budget_record *)

Lemma ceil_div_add (a b : Z) : 0 < b -> (a + (b - 1)) / b = ceil_div a b.
Proof.
  intros Hb. unfold ceil_div.
  pose proof (Z.div_mod (a + (b - 1)) b ltac:(lia)) as Hdm.
  pose proof (Z.mod_pos_bound (a + (b - 1)) b Hb) as Hm.
  symmetry. apply Z.opp_inj. rewrite Z.opp_involutive. symmetry.
  apply (Z.div_unique (- a) b _ (b - 1 - (a + (b - 1)) mod b)); lia.
Qed.

Lemma ceil_div_spec (a b : Z) :
  0 < b -> (ceil_div a b - 1) * b < a <= ceil_div a b * b.
Proof.
  intros Hb. rewrite <- ceil_div_add by done.
  pose proof (Z.div_mod (a + (b - 1)) b ltac:(lia)) as Hdm.
  pose proof (Z.mod_pos_bound (a + (b - 1)) b Hb) as Hm.
  nia.
Qed.

Section BudgetRecord.
Context `{Config} `{Collaborators}.

  (** C4.  On the first pass ([last_budget_time] unset, or
      [now <= last_budget_time]) [initialize_budget_record] records
      [time_since_last_budget = 0] and leaves [total_budget = 0]; otherwise,
      with [reserve = reserved + accumulated_fees + witness_budget] and [dt]
      the seconds since the last budget, it records
      [total_budget = min (ceil (reserve * dt * RATE / 2^BITS)) reserve]. *)
Theorem initialize_budget_record_total_budget db now :
    0 <= GRAPHENE_CORE_ASSET_CYCLE_RATE < 2 ^ 32 ->
    0 <= GRAPHENE_CORE_ASSET_CYCLE_RATE_BITS < 64 ->
    0 <= last_budget_time (dpo db) -> now < 2 ^ 32 ->
    0 <= reserved db -> 0 <= accumulated_fees (core_dd db) ->
    0 <= witness_budget (dpo db) ->
    reserved db + accumulated_fees (core_dd db) + witness_budget (dpo db) < 2 ^ 63 ->
    exists rec,
      initialize_budget_record now db budget_record_init = Some rec
      /\ (last_budget_time (dpo db) = 0 \/ now <= last_budget_time (dpo db) ->
          time_since_last_budget rec = 0 /\ total_budget rec = 0)
      /\ (last_budget_time (dpo db) <> 0 -> last_budget_time (dpo db) < now ->
          let reserve :=
            reserved db + accumulated_fees (core_dd db) + witness_budget (dpo db) in
          let dt := now - last_budget_time (dpo db) in
          time_since_last_budget rec = dt
          /\ total_budget rec =
               Z.min (ceil_div (reserve * dt * GRAPHENE_CORE_ASSET_CYCLE_RATE)
                        (2 ^ GRAPHENE_CORE_ASSET_CYCLE_RATE_BITS))
                     reserve).
  Proof.
    intros Hrate Hbits Hlast Hnow Hres Hfees Hwb Hsum.
    unfold initialize_budget_record.
    destruct (Z.eqb_spec (last_budget_time (dpo db)) 0) as [Hz|Hnz]; simpl.
    { eexists. split; [reflexivity|]. split; [done|]. intros; lia. }
    destruct (Z.leb_spec now (last_budget_time (dpo db))) as [Hle|Hlt]; simpl.
    { eexists. split; [reflexivity|]. split; [done|]. intros; lia. }
    set (reserve := reserved db + accumulated_fees (core_dd db) + witness_budget (dpo db)).
    set (dt := now - last_budget_time (dpo db)).
    assert (Hdt : 0 < dt < 2 ^ 32) by (unfold dt; lia).
    rewrite (safe_add_in (reserved db)) by lia. simpl.
    rewrite safe_add_in by lia. simpl. fold reserve.
    set (rate := GRAPHENE_CORE_ASSET_CYCLE_RATE) in *.
    set (bits := GRAPHENE_CORE_ASSET_CYCLE_RATE_BITS) in *.
    assert (Hr : 0 <= reserve < 2 ^ 63) by (unfold reserve; lia).
    assert (Hpb : 0 < 2 ^ bits <= 2 ^ 63).
    { split; [apply Z.pow_pos_nonneg; lia|]. apply Z.pow_le_mono_r; lia. }
    assert (Hrd : 0 <= reserve * dt < 2 ^ 95).
    { change (2 ^ 95) with (2 ^ 63 * 2 ^ 32). nia. }
    assert (Hrdr : 0 <= reserve * dt * rate < 2 ^ 127).
    { change (2 ^ 127) with (2 ^ 95 * 2 ^ 32). nia. }
    rewrite (u128_small reserve) by lia.
    rewrite (u64_small dt) by lia.
    rewrite (u128_small (reserve * dt)) by lia.
    rewrite (u128_small rate) by lia.
    rewrite (u128_small (reserve * dt * rate)) by lia.
    rewrite Z.shiftl_1_l.
    rewrite (u64_small (2 ^ bits)) by lia.
    rewrite (u64_small (2 ^ bits - 1)) by lia.
    rewrite (u128_small (reserve * dt * rate + (2 ^ bits - 1))) by lia.
    rewrite Z.shiftr_div_pow2 by lia.
    rewrite ceil_div_add by lia.
    set (b := ceil_div (reserve * dt * rate) (2 ^ bits)).
    assert (Hb : 0 <= b).
    { pose proof (ceil_div_spec (reserve * dt * rate) (2 ^ bits) ltac:(lia)) as Hs.
      fold b in Hs. nia. }
    destruct (Z.ltb_spec b reserve) as [Hbr|Hbr].
    - eexists. split; [reflexivity|]. split; [intros; lia|]. intros _ _. simpl.
      rewrite i64_small by lia. split; [done|lia].
    - eexists. split; [reflexivity|]. split; [intros; lia|]. intros _ _. simpl.
      split; [done|lia].
  Qed.
End BudgetRecord.

(** One day after the last budget, with a reserve of 10000000100. *)
Lemma initialize_budget_record_total_budget_witness :
  exists rec,
    @initialize_budget_record Example.config Example.collaborators 1000000000
      (Example.db_with_min 1) budget_record_init = Some rec
    /\ time_since_last_budget rec = 86400
    /\ total_budget rec = 3419817.
Proof.
  destruct (@initialize_budget_record_total_budget Example.config Example.collaborators
              (Example.db_with_min 1) 1000000000) as (rec & Hrec & _ & Hnext);
    try (vm_compute; first [reflexivity | discriminate | split; first [reflexivity | discriminate]]).
  exists rec. split; [exact Hrec|].
  destruct Hnext as [Ht Hb]; [vm_compute; discriminate | vm_compute; reflexivity |].
  split; [exact Ht | exact Hb].
Defined.

(** ** pay_workers *)

Section PayWorkers.
Context `{Config} `{Collaborators}.

Lemma pay_loop_spec refs : forall budget db budget' db' paid,
    0 <= budget ->
    pay_loop refs budget db = Some (budget', db', paid) ->
    paid.*1 = take (length paid) refs
    /\ budget' = budget - total_paid paid
    /\ 0 <= budget'
    /\ ((length paid < length refs)%nat -> budget' = 0)
    /\ db' = replay_payments db paid
    /\ forall i id pay, paid !! i = Some (id, pay) ->
         let remaining := budget - total_paid (take i paid) in
         0 < remaining
         /\ 0 <= remaining - pay
         /\ exists active_worker,
              find_worker (replay_payments db (take i paid)) id = Some active_worker
              /\ pay = Z.min remaining
                         (requested_pay (replay_payments db (take i paid)) active_worker).
  Proof.
    induction refs as [|r rest IH]; simpl; intros budget db budget' db' paid Hb Hp.
    - inversion Hp; subst. simpl.
      split; [done|]. split; [lia|]. split; [done|]. split; [lia|]. split; [done|].
      intros i id pay Hi. by rewrite lookup_nil in Hi.
    - destruct (Z.ltb_spec 0 budget) as [Hpos|Hle]; cycle 1.
      { inversion Hp; subst. simpl.
        split; [done|]. split; [lia|]. split; [done|]. split; [lia|]. split; [done|].
        intros i id pay Hi. by rewrite lookup_nil in Hi. }
      apply bind_Some in Hp as (w & Hw & Hp).
      apply bind_Some in Hp as (b1 & Hb1 & Hp).
      apply bind_Some in Hp as ([[b2 db2] paid2] & Hrec & Hp).
      inversion Hp; subst. clear Hp.
      apply safe_sub_Some in Hb1 as [-> _].
      set (actual := Z.min budget (requested_pay db w)) in *.
      assert (Hb1 : 0 <= budget - actual) by (unfold actual; lia).
      destruct (IH _ _ _ _ _ Hb1 Hrec) as (Hids & Hbud & Hnn & Hstop & Hdb & Hsteps).
      assert (Hstep : forall l, replay_payments db ((r, actual) :: l)
                                = replay_payments (pay_worker w actual db) l).
      { intros l. unfold replay_payments. cbn [foldl fst snd]. by rewrite Hw. }
      split; [rewrite fmap_cons; cbn [length take fst]; by f_equal|].
      cbn [total_paid foldr snd length].
      fold (total_paid paid2).
      split; [lia|]. split; [done|].
      split; [intros Hl; apply Hstop; lia|].
      split; [by rewrite Hstep|].
      intros [|i] id pay Hi; cbn [take total_paid foldr snd] in Hi |- *.
      + inversion Hi; subst id pay. cbv zeta.
        split; [lia|]. split; [lia|].
        exists w. split; [done|]. unfold actual. cbn [replay_payments foldl]. f_equal. lia.
      + fold (total_paid (take i paid2)). rewrite Hstep.
        destruct (Hsteps i id pay Hi) as (Hr & Hrp & wi & Hf & Hpay).
        cbv zeta in *.
        split; [lia|]. split; [lia|].
        exists wi. split; [done|]. rewrite Hpay. f_equal. lia.
  Qed.

  (** C10.  Started with a non-negative budget, [pay_workers] pays the
      active workers in order, each while the budget is positive and each
      [min (remaining budget) (requested pay)], the request being read from
      the database as the earlier payments left it, so that the remaining
      budget never goes below zero; it stops as soon as the budget is used
      up, and it returns the initial budget less everything paid. *)
Theorem pay_workers_budget budget db budget' db' paid :
    0 <= budget ->
    pay_workers budget db = Some (budget', db', paid) ->
    paid.*1 = take (length paid) (map worker_id (active_workers db))
    /\ (forall i id pay, paid !! i = Some (id, pay) ->
          let remaining := budget - total_paid (take i paid) in
          0 < remaining
          /\ 0 <= remaining - pay
          /\ exists active_worker,
               find_worker (replay_payments db (take i paid)) id = Some active_worker
               /\ pay = Z.min remaining
                          (requested_pay (replay_payments db (take i paid)) active_worker))
    /\ ((length paid < length (active_workers db))%nat -> budget' = 0)
    /\ db' = replay_payments db paid
    /\ budget' = budget - total_paid paid
    /\ 0 <= budget'.
  Proof.
    intros Hb Hp. unfold pay_workers in Hp.
    destruct (pay_loop_spec _ _ _ _ _ _ Hb Hp)
      as (Hids & Hbud & Hnn & Hstop & Hdb & Hsteps).
    rewrite length_map in Hstop. done.
  Qed.
End PayWorkers.

(** A budget of 250 with requests of 200 and 100: the second worker gets
    the 50 that are left. *)
Lemma pay_workers_budget_witness :
  exists db',
    @pay_workers Example.collaborators 250 (Example.db_with_min 1)
      = Some (0, db', [(2, 200); (1, 50)])
    /\ 0 = 250 - total_paid [(2, 200); (1, 50)].
Proof.
  destruct (@pay_workers Example.collaborators 250 (Example.db_with_min 1))
    as [[[b db'] paid]|] eqn:Hp; [|vm_compute in Hp; discriminate].
  destruct (@pay_workers_budget Example.collaborators 250 (Example.db_with_min 1)
              b db' paid ltac:(lia) Hp) as (_ & _ & _ & _ & Hb & _).
  assert (Hbp : b = 0 /\ paid = [(2, 200); (1, 50)]).
  { vm_compute in Hp. inversion Hp. done. }
  destruct Hbp as [-> ->]. exists db'. split; [reflexivity|exact Hb].
Defined.

(** ** process_budget *)

Section ProcessBudget.
Context `{Config} `{Collaborators}.

Lemma initialize_budget_record_from now db rec :
    initialize_budget_record now db budget_record_init = Some rec ->
    from_accumulated_fees rec = accumulated_fees (core_dd db)
    /\ from_unused_witness_budget rec = witness_budget (dpo db).
  Proof.
    unfold initialize_budget_record. destruct (_ || _).
    - intros Hr. by inversion Hr.
    - intros Hr.
      apply bind_Some in Hr as (r1 & _ & Hr).
      apply bind_Some in Hr as (r2 & _ & Hr).
      destruct (_ <? _); by inversion Hr.
  Qed.

  (** What a run of [process_budget] computes and writes. *)
Lemma process_budget_inv db db' :
    process_budget db = Some db' ->
    exists rec db1 paid,
      budget_records db'
        = budget_records db1 ++ [{| bro_time := head_block_time db1; bro_record := rec |}]
      /\ 0 < next_maintenance_time (dpo db) - head_block_time db
      /\ from_accumulated_fees rec = accumulated_fees (core_dd db)
      /\ from_unused_witness_budget rec = witness_budget (dpo db)
      /\ rec_witness_budget rec = Z.min (requested_witness_budget rec) (total_budget rec)
      /\ - 2 ^ 63 <= total_budget rec - rec_witness_budget rec < 2 ^ 63
      /\ worker_budget rec
           = (let available_funds := total_budget rec - rec_witness_budget rec in
              let time_to_maint := next_maintenance_time (dpo db) - head_block_time db in
              let worker_budget_u128 :=
                u128 (u128 (worker_budget_per_day (parameters (gpo db))) * u64 time_to_maint)
                / (60 * 60 * 24) in
              if u128 available_funds <=? worker_budget_u128 then available_funds
              else i64 worker_budget_u128)
      /\ pay_workers (worker_budget rec) db = Some (leftover_worker_funds rec, db1, paid)
      /\ supply_delta rec
           = rec_witness_budget rec + worker_budget rec - leftover_worker_funds rec
             - from_accumulated_fees rec - from_unused_witness_budget rec
      /\ core_dd db'
           = {| current_supply := current_supply (core_dd db1) + supply_delta rec;
                accumulated_fees := 0 |}
      /\ dpo db'
           = {| time := time (dpo db1);
                next_maintenance_time := next_maintenance_time (dpo db1);
                last_budget_time := head_block_time db;
                witness_budget := rec_witness_budget rec |}.
  Proof.
    unfold process_budget. intros Hp.
    apply bind_Some in Hp as (u1 & Ha1 & Hp). apply assert_Some in Ha1.
    apply bind_Some in Hp as (_ & _ & Hp).
    apply bind_Some in Hp as (rec0 & Hinit & Hp).
    apply bind_Some in Hp as (av1 & Hav1 & Hp).
    apply bind_Some in Hp as (av2 & _ & Hp).
    apply bind_Some in Hp as ([[leftover db1] paid] & Hpay & Hp).
    apply bind_Some in Hp as (av3 & _ & Hp).
    apply bind_Some in Hp as (d1 & Hd1 & Hp).
    apply bind_Some in Hp as (d2 & Hd2 & Hp).
    apply bind_Some in Hp as (d3 & Hd3 & Hp).
    apply bind_Some in Hp as (d4 & Hd4 & Hp).
    apply bind_Some in Hp as (supply & Hs & Hp).
    apply bind_Some in Hp as (e1 & _ & Hp).
    apply bind_Some in Hp as (e2 & _ & Hp).
    apply bind_Some in Hp as (e3 & _ & Hp).
    apply bind_Some in Hp as (e4 & _ & Hp).
    apply bind_Some in Hp as (_ & _ & Hp).
    inversion Hp; subst db'. clear Hp.
    destruct (initialize_budget_record_from _ _ _ Hinit) as [Hfees Hunused].
    apply safe_sub_Some in Hav1 as [-> Hav1].
    apply safe_add_Some in Hd1 as [-> _].
    apply safe_sub_Some in Hd2 as [-> _].
    apply safe_sub_Some in Hd3 as [-> _].
    apply safe_sub_Some in Hd4 as [-> _].
    apply safe_add_Some in Hs as [-> _].
    simpl in *.
    eexists _, db1, paid.
    split; [simpl; reflexivity|]. simpl.
    apply Z.ltb_lt in Ha1.
    repeat split; try done; try lia.
  Qed.

Lemma pay_loop_frame {A} (f : database -> A) refs :
    (forall w p d, f (pay_worker w p d) = f d) ->
    forall budget db budget' db' paid,
      pay_loop refs budget db = Some (budget', db', paid) -> f db' = f db.
  Proof.
    intros Hf. induction refs as [|r rest IH]; simpl; intros budget db budget' db' paid Hp.
    - by inversion Hp.
    - destruct (0 <? budget); [|by inversion Hp].
      apply bind_Some in Hp as (w & Hw & Hp).
      apply bind_Some in Hp as (b1 & Hb1 & Hp).
      apply bind_Some in Hp as ([[b2 db2] paid2] & Hrec & Hp).
      inversion Hp; subst. apply IH in Hrec. by rewrite Hrec, Hf.
  Qed.

  (** C1 (as amended).  A run of [process_budget] computes
      [supply_delta = witness_budget + worker_budget - leftover_worker_funds
                      - accumulated_fees - prior witness_budget],
      adds it to the core asset's [current_supply] as the worker payments
      of the run have left it, sets [accumulated_fees] to zero and replaces
      [dpo.witness_budget] by the new witness budget.  Where paying a worker
      does not move the supply, [current_supply] grows by exactly
      [supply_delta] over the run. *)
Theorem process_budget_supply_delta db db' :
    process_budget db = Some db' ->
    exists rec db1 paid,
      budget_records db'
        = budget_records db1 ++ [{| bro_time := head_block_time db1; bro_record := rec |}]
      /\ pay_workers (worker_budget rec) db = Some (leftover_worker_funds rec, db1, paid)
      /\ supply_delta rec
           = rec_witness_budget rec + worker_budget rec - leftover_worker_funds rec
             - accumulated_fees (core_dd db) - witness_budget (dpo db)
      /\ current_supply (core_dd db') = current_supply (core_dd db1) + supply_delta rec
      /\ accumulated_fees (core_dd db') = 0
      /\ witness_budget (dpo db') = rec_witness_budget rec
      /\ ((forall w p d, core_dd (pay_worker w p d) = core_dd d) ->
          current_supply (core_dd db') = current_supply (core_dd db) + supply_delta rec).
  Proof.
    intros Hp.
    destruct (process_budget_inv db db' Hp)
      as (rec & db1 & paid & Hrecs & _ & Hfees & Hunused & _ & _ & _ & Hpay & Hsd & Hcore & Hdpo).
    exists rec, db1, paid.
    rewrite Hcore, Hdpo, Hsd, Hfees, Hunused. simpl.
    repeat split; try done.
    intros Hcore_frame.
    by rewrite (pay_loop_frame core_dd _ Hcore_frame _ _ _ _ _ Hpay).
  Qed.

  (** C5 (as amended).  With a worker budget per day and times in their
      ranges, the worker budget of a run of [process_budget] is
      [worker_budget_per_day * time_to_maint / 86400] rounded down, where
      [time_to_maint = next_maintenance_time - head_block_time] is the time
      until the next maintenance, capped at the funds left after the witness
      budget. *)
Theorem process_budget_worker_budget db db' :
    process_budget db = Some db' ->
    0 <= worker_budget_per_day (parameters (gpo db)) < 2 ^ 63 ->
    next_maintenance_time (dpo db) < 2 ^ 32 ->
    0 <= head_block_time db ->
    exists rec db1,
      budget_records db'
        = budget_records db1 ++ [{| bro_time := head_block_time db1; bro_record := rec |}]
      /\ worker_budget rec
           = Z.min (worker_budget_per_day (parameters (gpo db))
                    * (next_maintenance_time (dpo db) - head_block_time db) / 86400)
                   (total_budget rec - rec_witness_budget rec).
  Proof.
    intros Hp Hwb Hnmt Hnow.
    destruct (process_budget_inv db db' Hp)
      as (rec & db1 & paid & Hrecs & Httm & _ & _ & Hwit & Hav & Hwork & _ & _ & _ & _).
    exists rec, db1. split; [done|]. rewrite Hwork. cbv zeta.
    set (wbpd := worker_budget_per_day (parameters (gpo db))) in *.
    set (ttm := next_maintenance_time (dpo db) - head_block_time db) in *.
    set (avail := total_budget rec - rec_witness_budget rec) in *.
    assert (Hav0 : 0 <= avail) by (unfold avail; lia).
    assert (Hprod : 0 <= wbpd * ttm < 2 ^ 95).
    { change (2 ^ 95) with (2 ^ 63 * 2 ^ 32). nia. }
    rewrite (u128_small wbpd) by lia.
    rewrite (u64_small ttm) by lia.
    rewrite (u128_small (wbpd * ttm)) by lia.
    rewrite (u128_small avail) by lia.
    change (60 * 60 * 24) with 86400.
    assert (Hq : 0 <= wbpd * ttm / 86400) by (apply Z.div_pos; lia).
    destruct (Z.leb_spec avail (wbpd * ttm / 86400)); [lia|].
    rewrite i64_small by lia. lia.
  Qed.
End ProcessBudget.

(** C5, counterexample.  The last budget was a day ago and the next
    maintenance is in an hour: with 8640 a day the worker budget is 360, not
    the 8640 that the time since the last budget would give, although
    3412617 are left after the witness budget. *)
Lemma process_budget_worker_budget_not_elapsed :
  exists db' rec,
    @process_budget Example.config Example.collaborators (Example.db_with_min 1) = Some db'
    /\ last (budget_records db') = Some {| bro_time := 1000000000; bro_record := rec |}
    /\ worker_budget rec = 360
    /\ total_budget rec - rec_witness_budget rec = 3412617
    /\ worker_budget rec
         <> Z.min (worker_budget_per_day (parameters (gpo (Example.db_with_min 1)))
                   * (head_block_time (Example.db_with_min 1)
                      - last_budget_time (dpo (Example.db_with_min 1))) / 86400)
                  (total_budget rec - rec_witness_budget rec).
Proof.
  eexists _, _. split; [vm_compute; reflexivity|].
  split; [vm_compute; reflexivity|]. vm_compute. repeat split; congruence.
Qed.

Lemma process_budget_worker_budget_witness :
  exists db' rec db1,
    @process_budget Example.config Example.collaborators (Example.db_with_min 1) = Some db'
    /\ budget_records db'
         = budget_records db1 ++ [{| bro_time := head_block_time db1; bro_record := rec |}]
    /\ worker_budget rec
         = Z.min (8640 * (1000003600 - 1000000000) / 86400)
                 (total_budget rec - rec_witness_budget rec).
Proof.
  destruct (@process_budget Example.config Example.collaborators (Example.db_with_min 1))
    as [db'|] eqn:Hp; [|vm_compute in Hp; discriminate].
  destruct (@process_budget_worker_budget Example.config Example.collaborators
              (Example.db_with_min 1) db' Hp) as (rec & db1 & Hrecs & Hw).
  - vm_compute. split; [discriminate|reflexivity].
  - vm_compute. reflexivity.
  - vm_compute. discriminate.
  - exists db', rec, db1. split; [reflexivity|]. split; [exact Hrecs|exact Hw].
Defined.

(** C1, counterexample.  The two workers of the example state are refund
    workers: they are paid 200 and 100 out of a worker budget of 360, and
    each payment lowers the supply by the pay.  The pass records a supply
    delta of 7200 + 360 - 60 - 60 - 40 = 7400, and the supply ends 7100
    above where it started. *)
Lemma process_budget_refund_workers :
  exists db' rec,
    @process_budget Example.config Scenario.refund_collaborators (Example.db_with_min 1)
      = Some db'
    /\ last (budget_records db') = Some {| bro_time := 1000000000; bro_record := rec |}
    /\ last_budget_time (dpo (Example.db_with_min 1)) <> 0
    /\ supply_delta rec
         = rec_witness_budget rec + worker_budget rec - leftover_worker_funds rec
           - accumulated_fees (core_dd (Example.db_with_min 1))
           - witness_budget (dpo (Example.db_with_min 1))
    /\ supply_delta rec = 7400
    /\ current_supply (core_dd db')
         = current_supply (core_dd (Example.db_with_min 1)) + 7100
    /\ current_supply (core_dd db')
         <> current_supply (core_dd (Example.db_with_min 1)) + supply_delta rec.
Proof.
  eexists _, _. split; [vm_compute; reflexivity|].
  split; [vm_compute; reflexivity|]. vm_compute. repeat split; congruence.
Qed.

(** Fees of 60 and an unused witness budget of 40 flow back to the
    reserve; the supply of 999990000000000 grows by the supply delta. *)
Lemma process_budget_supply_delta_witness :
  exists db' rec,
    @process_budget Example.config Example.collaborators (Example.db_with_min 1) = Some db'
    /\ supply_delta rec
         = rec_witness_budget rec + worker_budget rec - leftover_worker_funds rec - 60 - 40
    /\ current_supply (core_dd db') = 999990000000000 + supply_delta rec
    /\ accumulated_fees (core_dd db') = 0
    /\ witness_budget (dpo db') = rec_witness_budget rec.
Proof.
  destruct (@process_budget Example.config Example.collaborators (Example.db_with_min 1))
    as [db'|] eqn:Hp; [|vm_compute in Hp; discriminate].
  destruct (@process_budget_supply_delta Example.config Example.collaborators
              (Example.db_with_min 1) db' Hp)
    as (rec & db1 & paid & Hrecs & Hpay & Hsd & Hcs & Hfees & Hwb & Hframe).
  exists db', rec.
  split; [reflexivity|]. split; [exact Hsd|].
  split; [apply Hframe; reflexivity|].
  split; [exact Hfees|exact Hwb].
Defined.

(** The run on the example state: 7200 for the witnesses, 360 for the
    workers of which 300 are paid, a supply delta of 7400. *)
Lemma process_budget_example :
  exists db' rec,
    @process_budget Example.config Example.collaborators (Example.db_with_min 1) = Some db'
    /\ last (budget_records db') = Some {| bro_time := 1000000000; bro_record := rec |}
    /\ total_budget rec = 3419817
    /\ rec_witness_budget rec = 7200
    /\ worker_budget rec = 360
    /\ leftover_worker_funds rec = 60
    /\ supply_delta rec = 7400
    /\ current_supply (core_dd db') = 999990000007400
    /\ witness_budget (dpo db') = 7200.
Proof.
  eexists _, _. split; [vm_compute; reflexivity|].
  split; [vm_compute; reflexivity|]. vm_compute. repeat split; reflexivity.
Qed.

(** ** split_fba_balance *)

Section SplitFba.
Context `{Config} `{Collaborators}.

Lemma burn_core_inv amount db db' :
    burn_core amount db = Some db' ->
    current_supply (core_dd db') = current_supply (core_dd db) - amount
    /\ fba_index db' = fba_index db
    /\ applied_operations db' = applied_operations db.
  Proof.
    unfold burn_core. intros Hb.
    apply bind_Some in Hb as (s & Hs & Hb). apply safe_sub_Some in Hs as [-> _].
    by inversion Hb.
  Qed.

Lemma fba_credit_inv id account amount db db' :
    fba_credit id account amount db = Some db' ->
    core_dd db' = core_dd db
    /\ fba_index db' = fba_index db
    /\ applied_operations db'
         = applied_operations db
           ++ (if amount =? 0 then []
               else [{| op_account_id := account; op_fba_id := id; op_amount := amount |}]).
  Proof.
    unfold fba_credit. destruct (amount =? 0); simpl; intros Hc.
    - inversion Hc. by rewrite app_nil_r.
    - apply bind_Some in Hc as (db1 & Hb & Hc). unfold adjust_balance in Hb.
      apply bind_Some in Hb as (b & _ & Hb). inversion Hb; subst db1.
      by inversion Hc.
  Qed.

Lemma zero_fba_inv id db db' :
    zero_fba id db = Some db' ->
    core_dd db' = core_dd db
    /\ applied_operations db' = applied_operations db
    /\ exists fba, fba_index db' !! id = Some fba /\ accumulated_fba_fees fba = 0.
  Proof.
    unfold zero_fba. intros Hz. apply bind_Some in Hz as (fba & _ & Hz).
    inversion Hz. simpl. split; [done|]. split; [done|].
    eexists. by rewrite lookup_insert_eq.
  Qed.

Lemma fba_share_exact accumulated pct :
    0 < GRAPHENE_100_PERCENT ->
    0 <= accumulated < 2 ^ 63 -> 0 <= pct <= GRAPHENE_100_PERCENT -> pct < 2 ^ 16 ->
    fba_share accumulated pct = accumulated * pct / GRAPHENE_100_PERCENT
    /\ 0 <= accumulated * pct / GRAPHENE_100_PERCENT <= accumulated.
  Proof.
    intros HP Ha Hp Hp16. unfold fba_share.
    assert (Hprod : 0 <= accumulated * pct < 2 ^ 79).
    { change (2 ^ 79) with (2 ^ 63 * 2 ^ 16). nia. }
    rewrite (u128_small accumulated) by lia.
    rewrite (u128_small (accumulated * pct)) by lia.
    assert (Hq : 0 <= accumulated * pct / GRAPHENE_100_PERCENT <= accumulated).
    { split; [apply Z.div_pos; lia|].
      apply Z.div_le_upper_bound; [done|]. nia. }
    rewrite i64_small by lia. done.
  Qed.

  (** C6.  A run of [split_fba_balance] on a configured pool gives
      [accumulated * buyback_pct / GRAPHENE_100_PERCENT] to the buyback
      account and [accumulated * issuer_pct / GRAPHENE_100_PERCENT] to the
      issuer (both rounded down, a virtual operation for each non-zero
      amount), takes the remainder [network] off the core asset's
      [current_supply], and leaves the pool at zero; the three amounts add
      up to what the pool held. *)
Theorem split_fba_balance_conservative
      db fba_id network_pct buyback_pct issuer_pct fba db' :
    0 < GRAPHENE_100_PERCENT ->
    0 <= network_pct < 2 ^ 16 -> 0 <= buyback_pct < 2 ^ 16 -> 0 <= issuer_pct < 2 ^ 16 ->
    fba_index db !! fba_id = Some fba ->
    0 <= accumulated_fba_fees fba < 2 ^ 63 ->
    is_configured fba db = true ->
    split_fba_balance db fba_id network_pct buyback_pct issuer_pct = Some db' ->
    let accumulated := accumulated_fba_fees fba in
    let buyback := accumulated * buyback_pct / GRAPHENE_100_PERCENT in
    let issuer_amount := accumulated * issuer_pct / GRAPHENE_100_PERCENT in
    let network := accumulated - buyback - issuer_amount in
    network + buyback + issuer_amount = accumulated
    /\ 0 <= buyback /\ 0 <= issuer_amount /\ 0 <= network
    /\ current_supply (core_dd db') = current_supply (core_dd db) - network
    /\ (exists fba', fba_index db' !! fba_id = Some fba'
                     /\ accumulated_fba_fees fba' = 0)
    /\ (accumulated <> 0 ->
        exists asset designated buyback_to,
          designated_asset fba = Some asset
          /\ asset_index db !! asset = Some designated
          /\ buyback_account designated = Some buyback_to
          /\ applied_operations db'
               = applied_operations db
                 ++ (if buyback =? 0 then []
                     else [{| op_account_id := buyback_to;
                              op_fba_id := fba_object_id fba;
                              op_amount := buyback |}])
                 ++ (if issuer_amount =? 0 then []
                     else [{| op_account_id := issuer designated;
                              op_fba_id := fba_object_id fba;
                              op_amount := issuer_amount |}])).
  Proof.
    intros HP Hn Hb Hi Hfba Hacc Hconf Hs. cbv zeta.
    unfold split_fba_balance in Hs.
    apply bind_Some in Hs as (u & Hsum & Hs). apply assert_Some in Hsum.
    rewrite !(u32_small network_pct), !(u32_small buyback_pct),
      !(u32_small issuer_pct) in Hsum by lia.
    rewrite (u32_small (network_pct + buyback_pct)) in Hsum by lia.
    rewrite u32_small in Hsum by lia.
    apply Z.eqb_eq in Hsum.
    rewrite Hfba in Hs. simpl in Hs.
    destruct (fba_share_exact (accumulated_fba_fees fba) buyback_pct) as [Hbe Hbr];
      [done|done|lia|lia|].
    destruct (fba_share_exact (accumulated_fba_fees fba) issuer_pct) as [Hie Hir];
      [done|done|lia|lia|].
    destruct (Z.eqb_spec (accumulated_fba_fees fba) 0) as [Hz|Hnz].
    { inversion Hs; subst db'. rewrite Hz in *. rewrite !Z.mul_0_l, !Z.div_0_l by lia.
      split; [lia|]. split; [lia|]. split; [lia|]. split; [lia|]. split; [lia|].
      split; [eauto|]. intros Hne. lia. }
    rewrite Hconf in Hs. simpl in Hs. rewrite Hbe, Hie in Hs.
    apply bind_Some in Hs as (both & Hboth & Hs). apply safe_add_Some in Hboth as [-> _].
    apply bind_Some in Hs as (u2 & Hle & Hs). apply assert_Some, Z.leb_le in Hle.
    apply bind_Some in Hs as (net & Hnet & Hs). apply safe_sub_Some in Hnet as [-> _].
    apply bind_Some in Hs as (asset & Hasset & Hs).
    apply bind_Some in Hs as (designated & Hdes & Hs).
    apply bind_Some in Hs as (db1 & Hburn & Hs).
    apply bind_Some in Hs as (buyback_to & Hbb & Hs).
    apply bind_Some in Hs as (db2 & Hc1 & Hs).
    apply bind_Some in Hs as (db3 & Hc2 & Hs).
    apply zero_fba_inv in Hs as (Hz_core & Hz_ops & Hz_fba).
    apply fba_credit_inv in Hc2 as (Hc2_core & _ & Hc2_ops).
    apply fba_credit_inv in Hc1 as (Hc1_core & _ & Hc1_ops).
    set (buyback := accumulated_fba_fees fba * buyback_pct / GRAPHENE_100_PERCENT) in *.
    set (issuer_amount := accumulated_fba_fees fba * issuer_pct / GRAPHENE_100_PERCENT) in *.
    assert (Hb1 : current_supply (core_dd db1)
                  = current_supply (core_dd db)
                    - (accumulated_fba_fees fba - (buyback + issuer_amount))
                  /\ applied_operations db1 = applied_operations db).
    { destruct (Z.eqb_spec (accumulated_fba_fees fba - (buyback + issuer_amount)) 0)
        as [Hn0|Hn0]; simpl in Hburn.
      - inversion Hburn; subst db1. split; [lia|done].
      - apply burn_core_inv in Hburn as (? & _ & ?). done. }
    destruct Hb1 as [Hb1_core Hb1_ops].
    split; [lia|]. split; [lia|]. split; [lia|]. split; [lia|].
    split; [rewrite Hz_core, Hc2_core, Hc1_core, Hb1_core; lia|].
    split; [done|]. intros _.
    exists asset, designated, buyback_to.
    split; [done|]. split; [done|]. split; [done|].
    by rewrite Hz_ops, Hc2_ops, Hc1_ops, Hb1_ops, <- app_assoc.
  Qed.
End SplitFba.

(** A pool of 1000 split 20/60/20: 600 to the buyback account, 200 to the
    issuer and 200 off the supply. *)
Lemma split_fba_balance_conservative_witness :
  exists db',
    @split_fba_balance Example.config Example.collaborators Example.db_fba 0
      (20 * 100) (60 * 100) (20 * 100) = Some db'
    /\ current_supply (core_dd db') = current_supply (core_dd Example.db_fba) - 200
    /\ applied_operations db'
         = [ {| op_account_id := 77; op_fba_id := 0; op_amount := 600 |};
             {| op_account_id := 70; op_fba_id := 0; op_amount := 200 |} ]
    /\ (exists fba', fba_index db' !! 0 = Some fba' /\ accumulated_fba_fees fba' = 0).
Proof.
  destruct (@split_fba_balance Example.config Example.collaborators Example.db_fba 0
              (20 * 100) (60 * 100) (20 * 100)) as [db'|] eqn:Hs;
    [|vm_compute in Hs; discriminate].
  destruct (@split_fba_balance_conservative Example.config Example.collaborators
Example.db_fba 0 (20 * 100) (60 * 100) (20 * 100)
              {| fba_object_id := 0; accumulated_fba_fees := 1000;
                 designated_asset := Some 7 |} db')
    as (_ & _ & _ & _ & Hsupply & Hpool & Hops);
    try (vm_compute; first [reflexivity | split; first [reflexivity | discriminate]]).
  { exact Hs. }
  exists db'. split; [reflexivity|]. split; [exact Hsupply|]. split; [|exact Hpool].
  destruct Hops as (asset & designated & buyback_to & Ha & Hd & Hb & Hops);
    [vm_compute; discriminate|].
  vm_compute in Ha. inversion Ha; subst asset.
  vm_compute in Hd. inversion Hd; subst designated.
  vm_compute in Hb. inversion Hb; subst buyback_to.
  exact Hops.
Defined.

(** [distribute_fba_balances] on the same state, computed. *)
Lemma distribute_fba_balances_example :
  exists db',
    @distribute_fba_balances Example.config Example.collaborators
      (set_fba_index
         (<[1 := {| fba_object_id := 1; accumulated_fba_fees := 0; designated_asset := None |}]>
            (<[2 := {| fba_object_id := 2; accumulated_fba_fees := 0;
                       designated_asset := None |}]> (fba_index Example.db_fba)))
Example.db_fba) = Some db'
    /\ current_supply (core_dd db') = 999990000000000 - 200
    /\ core_balances db' !! 77 = Some 600
    /\ core_balances db' !! 70 = Some 200
    /\ accumulated_fba_fees <$> fba_index db' !! 0 = Some 0.
Proof.
  eexists. split; [vm_compute; reflexivity|]. vm_compute. repeat split; reflexivity.
Qed.

(** ** vote_tally_helper *)

Section VoteTally.
Context `{Config} `{Collaborators}.

  (** An opinion that asks for more witnesses than the maximum leaves the
      witness histogram as it was. *)
Lemma vote_tally_helper_above_cap db stake_account db' :
    voting_account (options stake_account) = GRAPHENE_PROXY_TO_SELF_ACCOUNT ->
    maximum_witness_count (parameters (gpo db)) < num_witness (options stake_account) ->
    vote_tally_helper db stake_account = Some db' ->
    _witness_count_histogram_buffer db' = _witness_count_histogram_buffer db.
  Proof.
    intros Hself Hcap. unfold vote_tally_helper.
    destruct (_ || _); [|intros Hv; by inversion Hv].
    rewrite Hself, Z.eqb_refl. simpl.
    destruct (Z.leb_spec (num_witness (options stake_account))
                (maximum_witness_count (parameters (gpo db)))); [lia|].
    destruct (_ <=? _); intros Hv; by inversion Hv.
  Qed.
End VoteTally.

(** C8, the run the claim is about.  The maximum witness count is 5 and
    the account, with a stake of 100, asks for 7 witnesses: its stake is
    counted in the vote tally and in the total voting stake, and no bucket
    of the witness histogram receives it; asking for 5 puts it in the top
    bucket. *)
Lemma vote_tally_helper_drops_count_above_cap :
  let db := @vote_tally_helper_init Example.db_tally in
  maximum_witness_count (parameters (gpo db)) = 5
  /\ @voting_stake db (Example.voter 7) = 100
  /\ _witness_count_histogram_buffer db = [0; 0; 0]
  /\ (exists db',
        @vote_tally_helper Example.config Example.collaborators db (Example.voter 7)
          = Some db'
        /\ _witness_count_histogram_buffer db' = [0; 0; 0]
        /\ _committee_count_histogram_buffer db' = [0; 100; 0]
        /\ vget (_vote_tally_buffer db') 7 = vget (_vote_tally_buffer db) 7 + 100
        /\ _total_voting_stake db' = 100)
  /\ (exists db',
        @vote_tally_helper Example.config Example.collaborators db (Example.voter 5)
          = Some db'
        /\ _witness_count_histogram_buffer db' = [0; 0; 100]).
Proof.
  cbv zeta. split; [reflexivity|]. split; [reflexivity|]. split; [reflexivity|].
  split.
  - eexists. split; [vm_compute; reflexivity|]. vm_compute. repeat split; reflexivity.
  - eexists. split; [vm_compute; reflexivity|]. vm_compute. reflexivity.
Qed.

(** ** Runs on concrete states *)

(** Eleven members without a single vote: every weight is raised to 1 and
    the threshold is 6. *)
Lemma legacy_authority_cold_start :
  legacy_authority (map (fun i => (i, 0)) (seqZ 1 11))
  = {| weight_threshold := 6;
       account_auths := list_to_map (map (fun i => (i, 1)) (seqZ 1 11)) |}.
Proof. vm_compute. reflexivity. Qed.

(** Tallies above 16 bits are scaled by the shift that fits their sum. *)
Lemma legacy_authority_scaled :
  legacy_authority [(1, 3 * 2 ^ 40); (2, 2 ^ 40)]
  = {| weight_threshold := 16385;
       account_auths := {[ 1 := 24576; 2 := 8192 ]} |}.
Proof. vm_compute. reflexivity. Qed.

(** Twelve hours after the last budget a daily pay of 100 is a request of
    50, and one of 200 a request of 100. *)
Lemma pay_workers_half_day :
  exists db',
    @pay_workers Example.collaborators 1000 Example.db_half_day
    = Some (850, db', [(2, 100); (1, 50)]).
Proof. eexists. vm_compute. reflexivity. Qed.

(** * Further properties of the maintenance code *)

(** ** sort_votable_objects: the selection *)

Section SelectionFacts.
Context {T : Type} `{Votable T}.

  (** X1.  Whoever [sort_votable_objects] retains has at least as many
      tallied votes as whoever it leaves out. *)
Theorem sort_votable_objects_top_votes tally (all_objects : list T) count (X Y : T) :
    X ∈ all_objects ->
    X ∉ sort_votable_objects tally all_objects count ->
    Y ∈ sort_votable_objects tally all_objects count ->
    tallied_votes tally X <= tallied_votes tally Y.
  Proof.
    intros HX HnX HY.
    pose proof (partial_sort_take_best (votable_before tally)
      (votable_before_trans tally) (votable_before_asym tally) _ _ _ _ HX HnX HY) as Hb.
    apply (not_after_ranks_before tally Y X) in Hb. unfold ranks_before in Hb. lia.
  Qed.

  (** X2.  Asked for at least as many objects as the index holds,
      [sort_votable_objects] returns the whole index, reordered. *)
Theorem sort_votable_objects_all tally (all_objects : list T) count :
    vsize all_objects <= count ->
    sort_votable_objects tally all_objects count ≡ₚ all_objects.
  Proof.
    intros Hc. unfold sort_votable_objects, partial_sort_take, vsize in *.
    rewrite take_ge; [apply sort_by_Permutation|].
    rewrite length_sort_by. lia.
  Qed.
End SelectionFacts.

Lemma sort_votable_objects_top_votes_witness :
  tallied_votes Scenario.tally Scenario.member_4
  <= tallied_votes Scenario.tally Scenario.member_3.
Proof.
  apply (sort_votable_objects_top_votes Scenario.tally
           [Scenario.member_4; Scenario.member_3] 1).
  - apply elem_of_cons. by left.
  - assert (Hs : sort_votable_objects Scenario.tally
                   [Scenario.member_4; Scenario.member_3] 1 = [Scenario.member_3])
      by reflexivity.
    rewrite Hs, list_elem_of_singleton. discriminate.
  - assert (Hs : sort_votable_objects Scenario.tally
                   [Scenario.member_4; Scenario.member_3] 1 = [Scenario.member_3])
      by reflexivity.
    rewrite Hs. by apply list_elem_of_singleton.
Defined.

Lemma sort_votable_objects_all_witness :
  sort_votable_objects Scenario.tally [Scenario.member_4; Scenario.member_3] 5
  ≡ₚ [Scenario.member_4; Scenario.member_3].
Proof.
  apply (sort_votable_objects_all Scenario.tally [Scenario.member_4; Scenario.member_3] 5).
  unfold vsize. simpl. lia.
Defined.

(** ** update_active_witnesses: the number of witnesses wanted *)

Section WitnessCountFacts.
Context `{Config} `{Collaborators}.

Lemma witness_count_loop_spec cells : forall c t target r,
    witness_count_loop cells c t target = Some r ->
    exists k : nat,
      r = c + Z.of_nat k /\ (k <= length cells)%nat
      /\ (forall j : nat, (j < k)%nat ->
            t + foldr Z.add 0 (map i64 (take j cells)) <= target)
      /\ (k = length cells
          \/ target < t + foldr Z.add 0 (map i64 (take k cells))).
  Proof.
    induction cells as [|x cells IH]; simpl; intros c t target r Hr.
    - inversion Hr; subst. exists 0%nat. split; [lia|]. split; [done|].
      split; [intros j Hj; lia|]. by left.
    - destruct (Z.leb_spec t target) as [Hle|Hgt]; cycle 1.
      { inversion Hr; subst. exists 0%nat. split; [lia|]. split; [lia|].
        split; [intros j Hj; lia|]. right. simpl. lia. }
      apply bind_Some in Hr as (t' & Ht' & Hr). apply safe_add_Some in Ht' as [-> _].
      apply IH in Hr as (k & -> & Hk & Hbelow & Hstop).
      exists (S k). split; [lia|]. split; [lia|]. split.
      + intros [|j] Hj; simpl; [lia|]. specialize (Hbelow j ltac:(lia)). lia.
      + destruct Hstop as [->|Hstop]; [by left|]. right. simpl. lia.
  Qed.

  (** X3.  The witness count is the first bucket at which the stake
      accumulated from bucket 1 on exceeds
      [stake_target = (_total_voting_stake - histogram[0]) / 2], or the last
      bucket when it never does; it is 0 when the target is 0. *)
Theorem witness_count_is_median db wc :
    witness_count db = Some wc ->
    let hist := _witness_count_histogram_buffer db in
    let stake_target := u64 (_total_voting_stake db - vget hist 0) / 2 in
    exists k : nat,
      wc = Z.of_nat k
      /\ (k <= length hist - 1)%nat
      /\ (stake_target = 0 -> k = 0%nat)
      /\ (0 < stake_target ->
          (forall j : nat, (j < k)%nat -> stake_through hist j <= stake_target)
          /\ (k = (length hist - 1)%nat \/ stake_target < stake_through hist k)).
  Proof.
    intros Hwc. cbv zeta. unfold witness_count in Hwc.
    rewrite i64_half_u64 in Hwc.
    set (target := u64 (_total_voting_stake db
                        - vget (_witness_count_histogram_buffer db) 0) / 2) in *.
    destruct (Z.ltb_spec 0 target) as [Hpos|Hle].
    - apply witness_count_loop_spec in Hwc as (k & -> & Hk & Hbelow & Hstop).
      rewrite length_drop in Hk, Hstop.
      exists k. split; [lia|]. split; [done|]. split; [lia|]. intros _.
      unfold stake_through. split.
      + intros j Hj. specialize (Hbelow j Hj). lia.
      + destruct Hstop as [?|?]; [by left|right; lia].
    - inversion Hwc; subst. exists 0%nat. split; [done|]. split; [lia|].
      split; [done|]. lia.
  Qed.
End WitnessCountFacts.

(** A total stake of 1000 of which 100 abstain: the target is 450, bucket
    1 holds 300 and bucket 2 brings the stake to 700. *)
Lemma witness_count_is_median_witness :
  @witness_count (Example.mk_db 1 1000 [100; 300; 400; 200] []) = Some 2
  /\ stake_through [100; 300; 400; 200] 1 <= 450
  /\ 450 < stake_through [100; 300; 400; 200] 2.
Proof.
  split; [reflexivity|].
  destruct (witness_count_is_median (Example.mk_db 1 1000 [100; 300; 400; 200] []) 2
              eq_refl) as (k & Hk & _ & _ & Hm).
  assert (k = 2%nat) as -> by lia.
  destruct Hm as [Hbelow Hstop]; [vm_compute; reflexivity|].
  split; [apply (Hbelow 1%nat); lia|].
  destruct Hstop as [Hlast|Hstop]; [vm_compute in Hlast; discriminate|exact Hstop].
Defined.

(** ** update_active_witnesses and update_active_committee_members: the store *)

Section ElectionFacts.
Context `{Config} `{Collaborators}.

Lemma update_active_witnesses_inv db db' :
    update_active_witnesses db = Some db' ->
    exists wc a a',
      0 < vsize (_witness_count_histogram_buffer db)
      /\ witness_count db = Some wc
      /\ account_index db !! GRAPHENE_WITNESS_ACCOUNT = Some a
      /\ witness_index db'
           = map (set_wit_total_votes (_vote_tally_buffer db)) (witness_index db)
      /\ account_index db' = <[GRAPHENE_WITNESS_ACCOUNT := a']> (account_index db)
      /\ active_witnesses (gpo db')
           = list_to_set (map wit_id
               (sort_votable_objects (_vote_tally_buffer db) (witness_index db)
                  (Z.max (wc * 2 + 1) (min_witness_count (cpo db)))))
      /\ parameters (gpo db') = parameters (gpo db)
      /\ active_committee_members (gpo db') = active_committee_members (gpo db)
      /\ core_dd db' = core_dd db /\ dpo db' = dpo db
      /\ committee_member_index db' = committee_member_index db
      /\ _vote_tally_buffer db' = _vote_tally_buffer db
      /\ _witness_count_histogram_buffer db' = _witness_count_histogram_buffer db
      /\ _committee_count_histogram_buffer db'
           = _committee_count_histogram_buffer db
      /\ _total_voting_stake db' = _total_voting_stake db.
  Proof.
    unfold update_active_witnesses. intros Hu.
    apply bind_Some in Hu as (u & Ha & Hu). apply assert_Some, Z.ltb_lt in Ha.
    apply bind_Some in Hu as (wc & Hwc & Hu).
    apply bind_Some in Hu as (a & Hacc & Hu).
    inversion Hu; subst db'. clear Hu.
    eexists wc, a, _. repeat split; try done.
  Qed.

  (** X4.  A run of [update_active_witnesses] refreshes [total_votes] of
      every witness object from the tally, keeps the ids, accounts and vote
      ids of the index, elects only ids of the index, and leaves the core
      supply, the dynamic properties, the tally buffer, both histograms and
      the total voting stake alone. *)
Theorem update_active_witnesses_store db db' :
    update_active_witnesses db = Some db' ->
    (forall wit, wit ∈ witness_index db' ->
       wit_total_votes wit = vget (_vote_tally_buffer db) (instance (wit_vote_id wit)))
    /\ map wit_id (witness_index db') = map wit_id (witness_index db)
    /\ map witness_account (witness_index db') = map witness_account (witness_index db)
    /\ map wit_vote_id (witness_index db') = map wit_vote_id (witness_index db)
    /\ (forall id, id ∈ active_witnesses (gpo db') -> id ∈ map wit_id (witness_index db))
    /\ core_dd db' = core_dd db /\ dpo db' = dpo db
    /\ _vote_tally_buffer db' = _vote_tally_buffer db
    /\ _witness_count_histogram_buffer db' = _witness_count_histogram_buffer db
    /\ _committee_count_histogram_buffer db' = _committee_count_histogram_buffer db
    /\ _total_voting_stake db' = _total_voting_stake db.
  Proof.
    intros Hu.
    destruct (update_active_witnesses_inv db db' Hu)
      as (wc & a & a' & _ & _ & _ & Hidx & _ & Hel & _ & _ & Hcore & Hdpo & _
          & Ht & Hh & Hch & Hs).
    rewrite Hidx. split.
    { intros wit Hwit. apply list_elem_of_In, in_map_iff in Hwit as (w0 & <- & _). done. }
    rewrite !map_map. simpl.
    split; [done|]. split; [done|]. split; [done|].
    split; [|done].
    intros id Hid. rewrite Hel in Hid. apply elem_of_list_to_set in Hid.
    apply list_elem_of_In, in_map_iff in Hid as (w0 & <- & Hw0).
    apply list_elem_of_In, in_map. apply list_elem_of_In.
    eapply elem_of_sort_votable_objects. by apply list_elem_of_In.
  Qed.

Lemma witness_count_loop_runs cells : forall c t target,
    Forall (fun x => 0 <= x) cells -> 0 <= t ->
    t + buffer_total cells < 2 ^ 63 ->
    is_Some (witness_count_loop cells c t target).
  Proof.
    induction cells as [|x cells IH]; simpl; intros c t target Hpos Ht Hsum; [eauto|].
    apply Forall_cons in Hpos as [Hx Hpos].
    assert (0 <= buffer_total cells).
    { clear -Hpos. induction Hpos; unfold buffer_total in *; simpl; lia. }
    unfold buffer_total in *. simpl in Hsum.
    destruct (t <=? target); [|eauto].
    rewrite (i64_small x) by lia. rewrite safe_add_in by lia. simpl.
    apply IH; [done|lia|lia].
  Qed.

  (** X5.  With a witness histogram of non-negative buckets that hold less
      than [2^63] together, the checked additions of the count never
      overflow: [update_active_witnesses] completes if the histogram is not
      empty and the witness account exists, and fails otherwise. *)
Theorem update_active_witnesses_completes db :
    Forall (fun c => 0 <= c) (_witness_count_histogram_buffer db) ->
    buffer_total (_witness_count_histogram_buffer db) < 2 ^ 63 ->
    is_Some (update_active_witnesses db)
    <-> 0 < vsize (_witness_count_histogram_buffer db)
        /\ is_Some (account_index db !! GRAPHENE_WITNESS_ACCOUNT).
  Proof.
    intros Hpos Hsum. split.
    - intros [db' Hu].
      destruct (update_active_witnesses_inv db db' Hu) as (wc & a & a' & ? & ? & ? & _).
      eauto.
    - intros [Hh Ha].
      assert (Hwc : is_Some (witness_count db)).
      { unfold witness_count. destruct (0 <? _); [|eauto].
        destruct (_witness_count_histogram_buffer db) as [|c0 cells]; [simpl; eauto|].
        apply Forall_cons in Hpos as [Hc0 Hpos].
        unfold buffer_total in Hsum. simpl in Hsum.
        apply witness_count_loop_runs; [done|lia|].
        unfold buffer_total. simpl. rewrite drop_0. lia. }
      destruct Hwc as [wc Hwc]. by eapply update_active_witnesses_runs.
  Qed.

Lemma update_committee_authorities_inv db members db' :
    update_committee_authorities db members = Some db' ->
    committee_member_index db' = committee_member_index db
    /\ gpo db' = gpo db
    /\ exists c r,
         account_index db' !! GRAPHENE_COMMITTEE_ACCOUNT = Some c
         /\ account_index db' !! GRAPHENE_RELAXED_COMMITTEE_ACCOUNT = Some r
         /\ active r = active c.
  Proof.
    unfold update_committee_authorities. intros Hu.
    apply bind_Some in Hu as (a0 & _ & Hu).
    apply bind_Some in Hu as (r & _ & Hu).
    apply bind_Some in Hu as (c & Hc & Hu).
    simpl in Hc. rewrite lookup_insert_eq in Hc. inversion Hc; subst c. clear Hc.
    inversion Hu; subst db'. simpl. split; [done|]. split; [done|].
    destruct (decide (GRAPHENE_RELAXED_COMMITTEE_ACCOUNT = GRAPHENE_COMMITTEE_ACCOUNT))
      as [Heq|Hne].
    - rewrite Heq, lookup_insert_eq. eauto.
    - rewrite lookup_insert_ne by done. rewrite !lookup_insert_eq. eauto.
  Qed.

Lemma update_active_committee_members_inv db db' :
    update_active_committee_members db = Some db' ->
    let selected :=
      sort_votable_objects (_vote_tally_buffer db) (committee_member_index db)
        (Z.max (committee_member_count db * 2 + 1) (min_committee_member_count (cpo db))) in
    committee_member_index db'
      = modify_selected (_vote_tally_buffer db) selected (committee_member_index db)
    /\ active_committee_members (gpo db') = map cm_id selected
    /\ (selected <> [] ->
        exists c r,
          account_index db' !! GRAPHENE_COMMITTEE_ACCOUNT = Some c
          /\ account_index db' !! GRAPHENE_RELAXED_COMMITTEE_ACCOUNT = Some r
          /\ active r = active c).
  Proof.
    unfold update_active_committee_members. intros Hu. cbv zeta.
    apply bind_Some in Hu as (u & _ & Hu).
    apply bind_Some in Hu as (db1 & Hdb1 & Hu).
    inversion Hu; subst db'. clear Hu. simpl.
    case_bool_decide as Hnil.
    - inversion Hdb1; subst db1. simpl. split; [done|]. split; [done|]. done.
    - apply update_committee_authorities_inv in Hdb1 as (Hidx & _ & Hacc).
      rewrite Hidx. simpl. split; [done|]. split; [done|]. intros _. exact Hacc.
  Qed.

  (** X6.  After a run of [update_active_committee_members] that elects
      someone, the relaxed committee account carries the very authority of
      the committee account. *)
Theorem relaxed_committee_clones_committee db db' :
    update_active_committee_members db = Some db' ->
    active_committee_members (gpo db') <> [] ->
    exists c r,
      account_index db' !! GRAPHENE_COMMITTEE_ACCOUNT = Some c
      /\ account_index db' !! GRAPHENE_RELAXED_COMMITTEE_ACCOUNT = Some r
      /\ active r = active c.
  Proof.
    intros Hu Hne.
    destruct (update_active_committee_members_inv db db' Hu) as (_ & Hel & Hacc).
    apply Hacc. intros Hnil. apply Hne. by rewrite Hel, Hnil.
  Qed.

  (** X7.  [update_active_committee_members] refreshes [total_votes] of the
      members it elects and of no other: an object whose id is not elected is
      still in the index as it was. *)
Theorem update_active_committee_members_refreshes_elected db db' del :
    update_active_committee_members db = Some db' ->
    del ∈ committee_member_index db ->
    (cm_id del ∈ active_committee_members (gpo db') ->
     set_cm_total_votes (_vote_tally_buffer db) del ∈ committee_member_index db')
    /\ (cm_id del ∉ active_committee_members (gpo db') ->
        del ∈ committee_member_index db').
  Proof.
    intros Hu Hdel.
    destruct (update_active_committee_members_inv db db' Hu) as (Hidx & Hel & _).
    rewrite Hidx, Hel. unfold modify_selected.
    split; intros Hin; apply list_elem_of_In, in_map_iff; exists del;
      (split; [|by apply list_elem_of_In]).
    - by rewrite bool_decide_eq_true_2.
    - by rewrite bool_decide_eq_false_2.
  Qed.
End ElectionFacts.

(** A histogram holding 1000 in all, and witness account 1. *)
Lemma update_active_witnesses_completes_witness :
  is_Some (@update_active_witnesses Example.config Example.collaborators
             (Example.mk_db 1 1000 [100; 300; 400; 200] [])).
Proof.
  apply (@update_active_witnesses_completes Example.config Example.collaborators
           (Example.mk_db 1 1000 [100; 300; 400; 200] [])).
  - simpl. repeat (apply Forall_cons_2; [lia|]). apply Forall_nil_2.
  - vm_compute. reflexivity.
  - split.
    + vm_compute. reflexivity.
    + vm_compute. eauto.
Defined.

Lemma update_active_witnesses_store_witness :
  exists db',
    @update_active_witnesses Example.config Example.collaborators (Example.db_with_min 1)
      = Some db'
    /\ map wit_total_votes (witness_index db') = [100; 100]
    /\ core_dd db' = core_dd (Example.db_with_min 1).
Proof.
  destruct (@update_active_witnesses Example.config Example.collaborators
              (Example.db_with_min 1)) as [db'|] eqn:Hu; [|vm_compute in Hu; discriminate].
  destruct (@update_active_witnesses_store Example.config Example.collaborators
              (Example.db_with_min 1) db' Hu) as (_ & _ & _ & _ & _ & Hcore & _).
  exists db'. split; [reflexivity|]. split; [|exact Hcore].
  vm_compute in Hu. inversion Hu. reflexivity.
Defined.

Lemma relaxed_committee_clones_committee_witness :
  exists db' c r,
    @update_active_committee_members Example.config Example.collaborators
      (Example.db_with_min 1) = Some db'
    /\ account_index db' !! 0 = Some c
    /\ account_index db' !! 2 = Some r
    /\ active r = active c.
Proof.
  destruct (@update_active_committee_members Example.config Example.collaborators
              (Example.db_with_min 1)) as [db'|] eqn:Hu; [|vm_compute in Hu; discriminate].
  destruct (@relaxed_committee_clones_committee Example.config Example.collaborators
              (Example.db_with_min 1) db' Hu) as (c & r & Hc & Hr & Hact).
  - vm_compute in Hu. inversion Hu. discriminate.
  - exists db', c, r. done.
Defined.

Lemma update_active_committee_members_refreshes_elected_witness :
  exists db',
    @update_active_committee_members Example.config Example.collaborators
      (Example.db_with_min 1) = Some db'
    /\ Scenario.member_4 ∈ committee_member_index db'.
Proof.
  destruct (@update_active_committee_members Example.config Example.collaborators
              (Example.db_with_min 1)) as [db'|] eqn:Hu; [|vm_compute in Hu; discriminate].
  destruct (@update_active_committee_members_refreshes_elected Example.config
Example.collaborators (Example.db_with_min 1) db' Scenario.member_4 Hu)
    as [_ Hkeep].
  - apply elem_of_cons. right. apply elem_of_cons. by left.
  - exists db'. split; [reflexivity|]. apply Hkeep.
    vm_compute in Hu. inversion Hu. simpl.
    rewrite list_elem_of_singleton. discriminate.
Defined.

(** ** The authority built before HARDFORK_533: who gets which weight *)

Section LegacyWeights.

Lemma legacy_weights_dom_acc (members : list (Z * Z)) (m : gmap Z Z) k :
    is_Some (foldl (fun ws m => map_emplace m.1 m.2 ws) m members !! k)
    <-> is_Some (m !! k) \/ k ∈ members.*1.
  Proof.
    revert m. induction members as [|[k' w'] l IH]; simpl; intros m.
    - split; [by left|]. intros [?|Hk]; [done|]. by apply elem_of_nil in Hk.
    - rewrite IH, elem_of_cons. unfold map_emplace.
      destruct (m !! k') eqn:Hk'.
      + split; [tauto|]. intros [?|[->|?]]; [tauto| |tauto]. left. by rewrite Hk'.
      + destruct (decide (k = k')) as [->|Hne].
        * rewrite lookup_insert_eq. split; [tauto|]. intros _. left. eauto.
        * rewrite lookup_insert_ne by done. split; [tauto|].
          intros [?|[?|?]]; [tauto|done|tauto].
  Qed.

  (** X8.  The legacy construction gives a weight to every account of the
      members it is handed, and to no other account. *)
Theorem legacy_authority_accounts members account :
    is_Some (account_auths (legacy_authority members) !! account)
    <-> account ∈ members.*1.
  Proof.
    unfold legacy_authority. simpl.
    destruct (legacy_fold (Z.max (find_msb (legacy_total_votes members) - 15) 0)
                (legacy_weights members)) as [Ha _].
    rewrite Ha, lookup_fmap, fmap_is_Some.
    unfold legacy_weights. rewrite legacy_weights_dom_acc, lookup_empty.
    split; [intros [[? ?]|?]; done|by right].
  Qed.

Lemma legacy_weights_keep_value (members : list (Z * Z)) (m : gmap Z Z) k w :
    m !! k = Some w ->
    foldl (fun ws m => map_emplace m.1 m.2 ws) m members !! k = Some w.
  Proof.
    revert m. induction members as [|[k' w'] l IH]; simpl; intros m Hk; [done|].
    apply IH. unfold map_emplace. destruct (m !! k') eqn:Hk'; [done|].
    rewrite lookup_insert_ne; [done|]. intros ->. congruence.
  Qed.

Lemma legacy_weights_lookup_NoDup_acc (members : list (Z * Z)) k w :
    NoDup members.*1 -> (k, w) ∈ members ->
    forall m : gmap Z Z, (forall k', k' ∈ members.*1 -> m !! k' = None) ->
      foldl (fun ws m => map_emplace m.1 m.2 ws) m members !! k = Some w.
  Proof.
    induction members as [|[k' w'] l IH]; intros Hnd Hin m Hfresh;
      [by apply elem_of_nil in Hin|].
    simpl in *. apply NoDup_cons in Hnd as [Hk' Hnd].
    assert (Hm : map_emplace k' w' m = <[k' := w']> m).
    { unfold map_emplace. rewrite Hfresh; [done|]. apply elem_of_cons. by left. }
    rewrite Hm. apply elem_of_cons in Hin as [Hin|Hin].
    - inversion Hin; subst. apply legacy_weights_keep_value. by rewrite lookup_insert_eq.
    - apply IH; [done|done|]. intros k'' Hk''.
      rewrite lookup_insert_ne; [|intros ->; done].
      apply Hfresh. apply elem_of_cons. by right.
  Qed.

Lemma legacy_weights_lookup_NoDup (members : list (Z * Z)) k w :
    NoDup members.*1 -> (k, w) ∈ members -> legacy_weights members !! k = Some w.
  Proof.
    intros Hnd Hin. unfold legacy_weights.
    apply legacy_weights_lookup_NoDup_acc; [done|done|]. intros. apply lookup_empty.
  Qed.

  (** X9.  With distinct accounts and non-negative tallies that add up
      within 64 bits, the legacy construction keeps the order of the tallies:
      a member with no more votes than another gets no greater weight, each
      weight being [max (tally >> bits_to_drop) 1]. *)
Theorem legacy_authority_monotone members k1 w1 k2 w2 :
    NoDup members.*1 ->
    Forall (fun m => 0 <= m.2) members ->
    sum_tallies members < 2 ^ 64 ->
    (k1, w1) ∈ members -> (k2, w2) ∈ members -> w1 <= w2 ->
    let bits_to_drop := Z.max (find_msb (sum_tallies members) - 15) 0 in
    account_auths (legacy_authority members) !! k1
      = Some (Z.max (w1 / 2 ^ bits_to_drop) 1)
    /\ account_auths (legacy_authority members) !! k2
        = Some (Z.max (w2 / 2 ^ bits_to_drop) 1)
    /\ Z.max (w1 / 2 ^ bits_to_drop) 1 <= Z.max (w2 / 2 ^ bits_to_drop) 1.
  Proof.
    intros Hnd Hpos Hsum H1 H2 Hle. cbv zeta.
    unfold legacy_authority. simpl.
    rewrite (legacy_total_votes_exact members Hpos Hsum).
    set (bits := Z.max (find_msb (sum_tallies members) - 15) 0).
    destruct (legacy_fold bits (legacy_weights members)) as [Ha _].
    rewrite Ha, !lookup_fmap.
    rewrite (legacy_weights_lookup_NoDup members k1 w1 Hnd H1).
    rewrite (legacy_weights_lookup_NoDup members k2 w2 Hnd H2). simpl.
    pose proof (sum_tallies_elem members k1 w1 Hpos H1) as Hw1.
    pose proof (sum_tallies_elem members k2 w2 Hpos H2) as Hw2.
    unfold bits. rewrite !legacy_votes_exact by done.
    split; [done|]. split; [done|].
    apply Z.max_le_compat_r. apply Z.div_le_mono; [|done].
    apply Z.pow_pos_nonneg; lia.
  Qed.
End LegacyWeights.

Lemma legacy_authority_monotone_witness :
  account_auths (legacy_authority [(1, 3 * 2 ^ 40); (2, 2 ^ 40)]) !! 2 = Some 8192
  /\ account_auths (legacy_authority [(1, 3 * 2 ^ 40); (2, 2 ^ 40)]) !! 1 = Some 24576.
Proof.
  destruct (legacy_authority_monotone [(1, 3 * 2 ^ 40); (2, 2 ^ 40)]
              2 (2 ^ 40) 1 (3 * 2 ^ 40)) as (H2 & H1 & _).
  - apply NoDup_cons. split; [|apply NoDup_singleton].
    rewrite list_elem_of_singleton. discriminate.
  - repeat constructor; simpl; lia.
  - vm_compute. reflexivity.
  - apply elem_of_cons. right. apply elem_of_cons. by left.
  - apply elem_of_cons. by left.
  - lia.
  - split; [exact H2|exact H1].
Defined.

(** ** pay_workers: the payroll *)

Section PayrollFacts.
Context `{Config} `{Collaborators}.

Lemma worker_before_trans a b c :
    worker_before a b = true -> worker_before b c = true -> worker_before a c = true.
  Proof.
    unfold worker_before.
    repeat match goal with
           | |- context [?x =? ?y] => destruct (Z.eqb_spec x y); simpl
           end; rewrite ?Z.ltb_lt; lia.
  Qed.

Lemma worker_before_asym a b :
    worker_before a b = true -> worker_before b a = false.
  Proof.
    unfold worker_before.
    repeat match goal with
           | |- context [?x =? ?y] => destruct (Z.eqb_spec x y); simpl
           end; rewrite ?Z.ltb_lt, ?Z.ltb_ge; lia.
  Qed.

  (** X10.  The payroll holds exactly the workers that are active at the
      head block time with a positive approving stake, by approving stake
      descending and, among equal stakes, by id ascending. *)
Theorem active_workers_sorted db :
    (forall w, w ∈ active_workers db
       <-> w ∈ worker_index db
           /\ is_active w (head_block_time db) = true
           /\ 0 < approving_stake w)
    /\ StronglySorted worker_ranks_before (active_workers db).
  Proof.
    unfold active_workers. split.
    - intros w. rewrite elem_of_sort_by, list_elem_of_In, filter_In, <- list_elem_of_In.
      rewrite andb_true_iff, Z.ltb_lt. tauto.
    - eapply StronglySorted_weaken;
        [|apply (sort_by_sorted worker_before worker_before_trans worker_before_asym)].
      intros a b. unfold not_after, worker_before, worker_ranks_before.
      destruct (Z.eqb_spec (approving_stake b) (approving_stake a)); simpl;
        rewrite Z.ltb_ge; lia.
  Qed.

  (** X11.  What a worker asks for is its daily pay scaled by the seconds
      since the last budget over the seconds of a day, rounded down; the
      microseconds of the computation cancel, and exactly one day gives the
      daily pay. *)
Theorem requested_pay_prorated db w :
    let dt := head_block_time db - last_budget_time (dpo db) in
    0 <= daily_pay w < 2 ^ 63 ->
    0 <= dt < 2 ^ 32 ->
    daily_pay w * dt / 86400 < 2 ^ 63 ->
    requested_pay db w = daily_pay w * dt / 86400
    /\ (dt = 86400 -> requested_pay db w = daily_pay w).
  Proof.
    cbv zeta. intros Hp Hdt Hq.
    set (dt := head_block_time db - last_budget_time (dpo db)) in *.
    assert (Heq : requested_pay db w = daily_pay w * dt / 86400).
    { unfold requested_pay, since_last_budget, fc_days_1. fold dt.
      destruct (Z.eqb_spec (dt * 1000000) (86400 * 1000000)) as [He|Hne]; simpl.
      - assert (dt = 86400) as -> by lia. by rewrite Z.div_mul.
      - assert (0 <= dt * 1000000 < 2 ^ 52).
        { change (2 ^ 52) with 4503599627370496. lia. }
        assert (0 <= daily_pay w * (dt * 1000000) < 2 ^ 115).
        { change (2 ^ 115) with (2 ^ 63 * 2 ^ 52). nia. }
        rewrite (u128_small (daily_pay w)) by lia.
        rewrite (u128_small (dt * 1000000)) by lia.
        rewrite u128_small by lia.
        replace (daily_pay w * (dt * 1000000)) with (daily_pay w * dt * 1000000) by lia.
        rewrite Z.div_mul_cancel_r by lia.
        apply i64_small. split; [apply Z.div_pos; nia|done]. }
    split; [done|]. intros Hd. rewrite Heq, Hd. by rewrite Z.div_mul.
  Qed.

Lemma find_worker_NoDup db w :
    NoDup (map worker_id (worker_index db)) -> w ∈ worker_index db ->
    find_worker db (worker_id w) = Some w.
  Proof.
    unfold find_worker. induction (worker_index db) as [|x l IH]; intros Hnd Hw;
      [by apply elem_of_nil in Hw|].
    simpl in *. apply NoDup_cons in Hnd as [Hx Hnd].
    destruct (Z.eqb_spec (worker_id x) (worker_id w)) as [He|Hne].
    - apply elem_of_cons in Hw as [->|Hw]; [done|].
      exfalso. apply Hx. rewrite He. apply list_elem_of_In, in_map. by apply list_elem_of_In.
    - apply elem_of_cons in Hw as [->|Hw]; [done|]. by apply IH.
  Qed.

Lemma pay_loop_full db (ws : list worker_object) : forall d budget,
    worker_index d = worker_index db -> dpo d = dpo db ->
    (forall w p d, worker_index (pay_worker w p d) = worker_index d) ->
    (forall w p d, dpo (pay_worker w p d) = dpo d) ->
    (forall w, w ∈ ws -> find_worker db (worker_id w) = Some w
                         /\ 0 <= requested_pay db w) ->
    foldr (fun w s => requested_pay db w + s) 0 ws < budget < 2 ^ 63 ->
    exists d',
      pay_loop (map worker_id ws) budget d
      = Some (budget - foldr (fun w s => requested_pay db w + s) 0 ws, d',
              map (fun w => (worker_id w, requested_pay db w)) ws).
  Proof.
    induction ws as [|w ws IH]; simpl; intros d budget Hidx Hdpo Hfi Hfd Hws Hb.
    - exists d. f_equal. f_equal. f_equal. lia.
    - destruct (Hws w ltac:(apply elem_of_cons; by left)) as [Hfind Hreq].
      assert (Hsum : 0 <= foldr (fun w s => requested_pay db w + s) 0 ws).
      { clear -Hws. induction ws as [|x ws IH]; simpl; [done|].
        destruct (Hws x ltac:(apply elem_of_cons; right; apply elem_of_cons; by left)).
        assert (0 <= foldr (fun w s => requested_pay db w + s) 0 ws); [|lia].
        apply IH. intros y Hy. apply Hws.
        apply elem_of_cons in Hy as [->|Hy]; [apply elem_of_cons; by left|].
        apply elem_of_cons. right. apply elem_of_cons. by right. }
      destruct (Z.ltb_spec 0 budget) as [_|?]; [|lia].
      assert (Hfd' : find_worker d (worker_id w) = Some w).
      { unfold find_worker in *. by rewrite Hidx. }
      rewrite Hfd'. simpl.
      assert (Hrd : requested_pay d w = requested_pay db w).
      { unfold requested_pay, since_last_budget, head_block_time. by rewrite Hdpo. }
      rewrite Hrd. rewrite Z.min_r by lia.
      rewrite safe_sub_in by lia. simpl.
      destruct (IH (pay_worker w (requested_pay db w) d) (budget - requested_pay db w))
        as (d' & Hd').
      + by rewrite Hfi.
      + by rewrite Hfd.
      + done.
      + done.
      + intros y Hy. apply Hws. apply elem_of_cons. by right.
      + lia.
      + rewrite Hd'. simpl. exists d'. f_equal. f_equal. f_equal. lia.
  Qed.

  (** X12.  When paying a worker leaves the worker index and the dynamic
      properties alone, worker ids are distinct, no worker asks for a
      negative pay and the budget exceeds what all active workers ask for,
      [pay_workers] pays every active worker exactly what it asks for, in
      payroll order, and returns the budget less the total requested. *)
Theorem pay_workers_full db budget :
    (forall w p d, worker_index (pay_worker w p d) = worker_index d) ->
    (forall w p d, dpo (pay_worker w p d) = dpo d) ->
    NoDup (map worker_id (worker_index db)) ->
    (forall w, w ∈ active_workers db -> 0 <= requested_pay db w) ->
    total_requested db < budget < 2 ^ 63 ->
    exists db',
      pay_workers budget db
      = Some (budget - total_requested db, db',
              map (fun w => (worker_id w, requested_pay db w)) (active_workers db)).
  Proof.
    intros Hfi Hfd Hnd Hreq Hb. unfold pay_workers, total_requested in *.
    apply (pay_loop_full db (active_workers db)); try done.
    intros w Hw. split; [|by apply Hreq].
    apply find_worker_NoDup; [done|].
    by apply (active_workers_sorted db) in Hw as [? _].
  Qed.
End PayrollFacts.

Lemma requested_pay_prorated_witness :
  @requested_pay Example.db_half_day
    {| worker_id := 1; worker_account := 301; work_begin_date := 0;
       work_end_date := 2000000000; daily_pay := 100;
       total_votes_for := 50; total_votes_against := 0 |} = 50.
Proof.
  destruct (requested_pay_prorated Example.db_half_day
    {| worker_id := 1; worker_account := 301; work_begin_date := 0;
       work_end_date := 2000000000; daily_pay := 100;
       total_votes_for := 50; total_votes_against := 0 |}) as [Hr _].
  - simpl. lia.
  - vm_compute. split; [discriminate|reflexivity].
  - vm_compute. reflexivity.
  - exact Hr.
Defined.

Lemma pay_workers_full_witness :
  exists db',
    @pay_workers Example.collaborators 1000 (Example.db_with_min 1)
    = Some (700, db', [(2, 200); (1, 100)]).
Proof.
  destruct (@pay_workers_full Example.collaborators (Example.db_with_min 1) 1000)
    as (db' & Hp).
  - reflexivity.
  - reflexivity.
  - vm_compute. apply NoDup_cons. split; [|apply NoDup_singleton].
    rewrite list_elem_of_singleton. discriminate.
  - intros w Hw. vm_compute in Hw.
    apply elem_of_cons in Hw as [->|Hw]; [vm_compute; discriminate|].
    apply list_elem_of_singleton in Hw as ->. vm_compute. discriminate.
  - vm_compute. split; reflexivity.
  - exists db'. exact Hp.
Defined.

(** ** initialize_budget_record and process_budget: what is allocated *)

Section BudgetFacts.
Context `{Config} `{Collaborators}.

  (** X13.  The budget of a pass is never negative and never exceeds the
      reserve, and, the rate being positive, a positive reserve always yields
      a budget of at least one unit once time has passed: no part of the
      reserve is out of reach. *)
Theorem initialize_budget_record_bounds db now :
    0 <= GRAPHENE_CORE_ASSET_CYCLE_RATE < 2 ^ 32 ->
    0 <= GRAPHENE_CORE_ASSET_CYCLE_RATE_BITS < 64 ->
    0 <= last_budget_time (dpo db) -> now < 2 ^ 32 ->
    0 <= reserved db -> 0 <= accumulated_fees (core_dd db) ->
    0 <= witness_budget (dpo db) ->
    reserved db + accumulated_fees (core_dd db) + witness_budget (dpo db) < 2 ^ 63 ->
    exists rec,
      initialize_budget_record now db budget_record_init = Some rec
      /\ 0 <= total_budget rec
           <= reserved db + accumulated_fees (core_dd db) + witness_budget (dpo db)
      /\ (last_budget_time (dpo db) <> 0 -> last_budget_time (dpo db) < now ->
          0 < GRAPHENE_CORE_ASSET_CYCLE_RATE ->
          0 < reserved db + accumulated_fees (core_dd db) + witness_budget (dpo db) ->
          1 <= total_budget rec).
  Proof.
    intros Hrate Hbits Hlast Hnow Hres Hfees Hwb Hsum.
    unfold initialize_budget_record.
    destruct (Z.eqb_spec (last_budget_time (dpo db)) 0) as [Hz|Hnz]; simpl.
    { eexists. split; [reflexivity|]. simpl. split; [lia|]. intros; lia. }
    destruct (Z.leb_spec now (last_budget_time (dpo db))) as [Hle|Hlt]; simpl.
    { eexists. split; [reflexivity|]. simpl. split; [lia|]. intros; lia. }
    set (reserve := reserved db + accumulated_fees (core_dd db) + witness_budget (dpo db)).
    set (dt := now - last_budget_time (dpo db)).
    assert (Hdt : 0 < dt < 2 ^ 32) by (unfold dt; lia).
    rewrite (safe_add_in (reserved db)) by lia. simpl.
    rewrite safe_add_in by lia. simpl. fold reserve.
    set (rate := GRAPHENE_CORE_ASSET_CYCLE_RATE) in *.
    set (bits := GRAPHENE_CORE_ASSET_CYCLE_RATE_BITS) in *.
    assert (Hr : 0 <= reserve < 2 ^ 63) by (unfold reserve; lia).
    assert (Hpb : 0 < 2 ^ bits <= 2 ^ 63).
    { split; [apply Z.pow_pos_nonneg; lia|]. apply Z.pow_le_mono_r; lia. }
    assert (Hrd : 0 <= reserve * dt < 2 ^ 95).
    { change (2 ^ 95) with (2 ^ 63 * 2 ^ 32). nia. }
    assert (Hrdr : 0 <= reserve * dt * rate < 2 ^ 127).
    { change (2 ^ 127) with (2 ^ 95 * 2 ^ 32). nia. }
    rewrite (u128_small reserve) by lia.
    rewrite (u64_small dt) by lia.
    rewrite (u128_small (reserve * dt)) by lia.
    rewrite (u128_small rate) by lia.
    rewrite (u128_small (reserve * dt * rate)) by lia.
    rewrite Z.shiftl_1_l.
    rewrite (u64_small (2 ^ bits)) by lia.
    rewrite (u64_small (2 ^ bits - 1)) by lia.
    rewrite (u128_small (reserve * dt * rate + (2 ^ bits - 1))) by lia.
    rewrite Z.shiftr_div_pow2 by lia.
    rewrite ceil_div_add by lia.
    set (b := ceil_div (reserve * dt * rate) (2 ^ bits)).
    pose proof (ceil_div_spec (reserve * dt * rate) (2 ^ bits) ltac:(lia)) as Hs.
    fold b in Hs.
    assert (Hb : 0 <= b) by nia.
    assert (Hb1 : 0 < rate -> 0 < reserve -> 1 <= b).
    { intros Hr0 Hres0. assert (0 < reserve * dt * rate) by nia. nia. }
    destruct (Z.ltb_spec b reserve) as [Hbr|Hbr].
    - eexists. split; [reflexivity|]. simpl. rewrite i64_small by lia.
      split; [lia|]. intros _ _ Hr0 Hres0. by apply Hb1.
    - eexists. split; [reflexivity|]. simpl.
      split; [lia|]. intros _ _ Hr0 Hres0. lia.
  Qed.

  (** A further reading of a run of [process_budget]. *)
Lemma process_budget_inv_record db db' :
    process_budget db = Some db' ->
    exists rec0 rec db1 paid,
      budget_records db'
        = budget_records db1 ++ [{| bro_time := head_block_time db1; bro_record := rec |}]
      /\ 0 < next_maintenance_time (dpo db) - head_block_time db
      /\ 0 < block_interval (parameters (gpo db))
      /\ initialize_budget_record (head_block_time db) db budget_record_init = Some rec0
      /\ total_budget rec = total_budget rec0
      /\ time_since_last_budget rec = time_since_last_budget rec0
      /\ requested_witness_budget rec
           = i64 (u64 (witness_pay_per_block (parameters (gpo db)))
                  * (u64 (u64 (next_maintenance_time (dpo db) - head_block_time db)
                          + block_interval (parameters (gpo db)) - 1)
                     / block_interval (parameters (gpo db))))
      /\ rec_witness_budget rec + worker_budget rec <= total_budget rec
      /\ pay_workers (worker_budget rec) db = Some (leftover_worker_funds rec, db1, paid)
      /\ last_budget_time (dpo db') = head_block_time db
      /\ time (dpo db') = time (dpo db1)
      /\ next_maintenance_time (dpo db') = next_maintenance_time (dpo db1)
      /\ gpo db' = gpo db1.
  Proof.
    unfold process_budget. intros Hp.
    apply bind_Some in Hp as (u1 & Ha1 & Hp). apply assert_Some, Z.ltb_lt in Ha1.
    apply bind_Some in Hp as (u2 & Ha2 & Hp). apply assert_Some, Z.ltb_lt in Ha2.
    apply bind_Some in Hp as (rec0 & Hinit & Hp).
    apply bind_Some in Hp as (av1 & Hav1 & Hp).
    apply bind_Some in Hp as (av2 & _ & Hp).
    apply bind_Some in Hp as ([[leftover db1] paid] & Hpay & Hp).
    apply bind_Some in Hp as (av3 & _ & Hp).
    apply bind_Some in Hp as (d1 & _ & Hp).
    apply bind_Some in Hp as (d2 & _ & Hp).
    apply bind_Some in Hp as (d3 & _ & Hp).
    apply bind_Some in Hp as (d4 & _ & Hp).
    apply bind_Some in Hp as (supply & _ & Hp).
    apply bind_Some in Hp as (e1 & _ & Hp).
    apply bind_Some in Hp as (e2 & _ & Hp).
    apply bind_Some in Hp as (e3 & _ & Hp).
    apply bind_Some in Hp as (e4 & _ & Hp).
    apply bind_Some in Hp as (u3 & _ & Hp).
    inversion Hp; subst db'. clear Hp.
    simpl in *.
    apply safe_sub_Some in Hav1 as [-> Hav1].
    eexists rec0, _, db1, paid.
    split; [simpl; reflexivity|]. simpl.
    repeat split; try done.
    set (avail := total_budget rec0 - _) in *.
    assert (0 <= avail) by (unfold avail; lia).
    assert (Hw : (if u128 avail <=? u128 (u128 (worker_budget_per_day (parameters (gpo db)))
                       * u64 (next_maintenance_time (dpo db) - head_block_time db))
                     / (60 * 60 * 24)
                  then avail
                  else i64 (u128 (u128 (worker_budget_per_day (parameters (gpo db)))
                       * u64 (next_maintenance_time (dpo db) - head_block_time db))
                     / (60 * 60 * 24))) <= avail); [|unfold avail in *; lia].
    set (X := u128 _ / (60 * 60 * 24)).
    assert (HX : 0 <= X).
    { unfold X. apply Z.div_pos; [|lia]. unfold u128. apply Z.mod_pos_bound. lia. }
    rewrite (u128_small avail) by lia.
    destruct (Z.leb_spec avail X); [lia|]. rewrite i64_small by lia. lia.
  Qed.

  (** X14.  A run of [process_budget] never allocates more than the total
      budget: the witness budget is at most the total budget, the worker
      budget is between zero and what the witness budget leaves, and the
      worker funds left over are not negative. *)
Theorem process_budget_within_total db db' :
    process_budget db = Some db' ->
    exists rec db1,
      budget_records db'
        = budget_records db1 ++ [{| bro_time := head_block_time db1; bro_record := rec |}]
      /\ rec_witness_budget rec <= total_budget rec
      /\ rec_witness_budget rec <= requested_witness_budget rec
      /\ 0 <= worker_budget rec <= total_budget rec - rec_witness_budget rec
      /\ rec_witness_budget rec + worker_budget rec <= total_budget rec
      /\ 0 <= leftover_worker_funds rec.
  Proof.
    intros Hp.
    destruct (process_budget_inv db db' Hp)
      as (rec & db1 & paid & Hrecs & _ & _ & _ & Hwit & Hav & Hwork & Hpay & _).
    exists rec, db1. split; [done|].
    assert (Hw : 0 <= worker_budget rec <= total_budget rec - rec_witness_budget rec).
    { rewrite Hwork. cbv zeta.
      set (avail := total_budget rec - rec_witness_budget rec) in *.
      assert (Hav0 : 0 <= avail) by (unfold avail; lia).
      set (X := u128 _ / (60 * 60 * 24)).
      assert (HX : 0 <= X).
      { unfold X. apply Z.div_pos; [|lia]. unfold u128. apply Z.mod_pos_bound. lia. }
      rewrite (u128_small avail) by lia.
      destruct (Z.leb_spec avail X); [lia|]. rewrite i64_small by lia. lia. }
    split; [lia|]. split; [lia|]. split; [done|]. split; [lia|].
    unfold pay_workers in Hpay.
    by destruct (pay_loop_spec _ _ _ _ _ _ (proj1 Hw) Hpay) as (_ & _ & ? & _).
  Qed.

  (** X15.  The witness budget a run of [process_budget] asks for is the
      pay per block times the number of blocks until the next maintenance,
      [ceil (time_to_maint / block_interval)], which is at least one. *)
Theorem process_budget_requested_witness_budget db db' :
    process_budget db = Some db' ->
    let time_to_maint := next_maintenance_time (dpo db) - head_block_time db in
    let interval := block_interval (parameters (gpo db)) in
    let blocks_to_maint := ceil_div time_to_maint interval in
    time_to_maint < 2 ^ 32 -> interval < 2 ^ 8 ->
    0 <= witness_pay_per_block (parameters (gpo db)) ->
    witness_pay_per_block (parameters (gpo db)) * blocks_to_maint < 2 ^ 63 ->
    exists rec db1,
      budget_records db'
        = budget_records db1 ++ [{| bro_time := head_block_time db1; bro_record := rec |}]
      /\ 1 <= blocks_to_maint
      /\ requested_witness_budget rec
           = witness_pay_per_block (parameters (gpo db)) * blocks_to_maint.
  Proof.
    intros Hp. cbv zeta. intros Httm Hint Hpay Hprod.
    destruct (process_budget_inv_record db db' Hp)
      as (rec0 & rec & db1 & paid & Hrecs & Ht0 & Hi0 & _ & _ & _ & Hreq & _).
    exists rec, db1. split; [done|].
    set (ttm := next_maintenance_time (dpo db) - head_block_time db) in *.
    set (interval := block_interval (parameters (gpo db))) in *.
    set (pay := witness_pay_per_block (parameters (gpo db))) in *.
    pose proof (ceil_div_spec ttm interval Hi0) as Hc.
    assert (Hb1 : 1 <= ceil_div ttm interval) by nia.
    split; [done|]. rewrite Hreq.
    rewrite (u64_small ttm) by lia.
    replace (ttm + interval - 1) with (ttm + (interval - 1)) by lia.
    rewrite (u64_small (ttm + (interval - 1))) by lia.
    rewrite ceil_div_add by done.
    assert (pay < 2 ^ 63) by nia.
    rewrite (u64_small pay) by lia.
    apply i64_small. nia.
  Qed.

  (** X16.  [process_budget] stamps the dynamic properties with the head
      block time, so that, where paying a worker leaves the dynamic
      properties alone, a second run at the same head block time finds no
      time elapsed and a total budget of zero. *)
Theorem process_budget_twice db db1 db2 :
    (forall w p d, dpo (pay_worker w p d) = dpo d) ->
    process_budget db = Some db1 ->
    process_budget db1 = Some db2 ->
    last_budget_time (dpo db1) = head_block_time db
    /\ exists rec db',
         budget_records db2
           = budget_records db' ++ [{| bro_time := head_block_time db'; bro_record := rec |}]
         /\ time_since_last_budget rec = 0
         /\ total_budget rec = 0
         /\ rec_witness_budget rec + worker_budget rec <= 0.
  Proof.
    intros Hframe Hp1 Hp2.
    destruct (process_budget_inv_record db db1 Hp1)
      as (r0 & r1 & dbp & paid & _ & _ & _ & _ & _ & _ & _ & _ & Hpay1 & Hlast & Htime & _).
    split; [done|].
    assert (Hnow : head_block_time db1 = head_block_time db).
    { unfold head_block_time. rewrite Htime. unfold pay_workers in Hpay1.
      by rewrite (pay_loop_frame dpo _ Hframe _ _ _ _ _ Hpay1). }
    destruct (process_budget_inv_record db1 db2 Hp2)
      as (rec0 & rec & db' & paid' & Hrecs & _ & _ & Hinit & Htot & Hts & _ & Hsum & _).
    exists rec, db'. split; [done|].
    unfold initialize_budget_record in Hinit.
    rewrite Hlast, Hnow, Z.leb_refl, orb_true_r in Hinit.
    inversion Hinit; subst rec0. simpl in *.
    rewrite Hts, Htot. split; [done|]. split; [done|]. lia.
  Qed.
End BudgetFacts.

Lemma initialize_budget_record_bounds_witness :
  exists rec,
    @initialize_budget_record Example.config Example.collaborators 1000000000
      (Example.db_with_min 1) budget_record_init = Some rec
    /\ 1 <= total_budget rec <= 10000000100.
Proof.
  destruct (@initialize_budget_record_bounds Example.config Example.collaborators
              (Example.db_with_min 1) 1000000000) as (rec & Hrec & Hb & Hpos).
  - vm_compute. split; [discriminate|reflexivity].
  - vm_compute. split; [discriminate|reflexivity].
  - vm_compute. discriminate.
  - reflexivity.
  - vm_compute. discriminate.
  - vm_compute. discriminate.
  - vm_compute. discriminate.
  - vm_compute. reflexivity.
  - exists rec. split; [exact Hrec|]. split; [|exact (proj2 Hb)].
    apply Hpos.
    + vm_compute. discriminate.
    + vm_compute. reflexivity.
    + vm_compute. reflexivity.
    + vm_compute. reflexivity.
Defined.

Lemma process_budget_within_total_witness :
  exists db' rec,
    @process_budget Example.config Example.collaborators (Example.db_with_min 1) = Some db'
    /\ rec_witness_budget rec + worker_budget rec <= total_budget rec
    /\ 0 <= leftover_worker_funds rec.
Proof.
  destruct (@process_budget Example.config Example.collaborators (Example.db_with_min 1))
    as [db'|] eqn:Hp; [|vm_compute in Hp; discriminate].
  destruct (@process_budget_within_total Example.config Example.collaborators
              (Example.db_with_min 1) db' Hp) as (rec & db1 & _ & _ & _ & _ & Hsum & Hleft).
  exists db', rec. split; [reflexivity|]. split; [exact Hsum|exact Hleft].
Defined.

(** An hour to the next maintenance in blocks of five seconds is 720
    blocks. *)
Lemma process_budget_requested_witness_budget_witness :
  exists db' rec,
    @process_budget Example.config Example.collaborators (Example.db_with_min 1) = Some db'
    /\ requested_witness_budget rec = 10 * ceil_div 3600 5.
Proof.
  destruct (@process_budget Example.config Example.collaborators (Example.db_with_min 1))
    as [db'|] eqn:Hp; [|vm_compute in Hp; discriminate].
  destruct (@process_budget_requested_witness_budget Example.config Example.collaborators
              (Example.db_with_min 1) db' Hp) as (rec & db1 & _ & _ & Hreq).
  - vm_compute. reflexivity.
  - vm_compute. reflexivity.
  - vm_compute. discriminate.
  - vm_compute. reflexivity.
  - exists db', rec. split; [reflexivity|exact Hreq].
Defined.

Lemma process_budget_twice_witness :
  exists db1 db2,
    @process_budget Example.config Example.collaborators (Example.db_with_min 1) = Some db1
    /\ @process_budget Example.config Example.collaborators db1 = Some db2
    /\ last_budget_time (dpo db1) = 1000000000.
Proof.
  destruct (@process_budget Example.config Example.collaborators (Example.db_with_min 1))
    as [db1|] eqn:Hp1; [|vm_compute in Hp1; discriminate].
  assert (Hdb1 : Some db1 = Some db1) by reflexivity.
  rewrite <- Hp1 in Hdb1 at 1. vm_compute in Hdb1. inversion Hdb1 as [Hdb]. clear Hdb1.
  destruct (@process_budget Example.config Example.collaborators db1)
    as [db2|] eqn:Hp2; [|rewrite <- Hdb in Hp2; vm_compute in Hp2; discriminate].
  destruct (@process_budget_twice Example.config Example.collaborators
              (Example.db_with_min 1) db1 db2) as [Hlast _].
  - reflexivity.
  - exact Hp1.
  - exact Hp2.
  - exists db1, db2. split; [exact Hp1|]. split; [exact Hp2|].
    rewrite Hlast. reflexivity.
Defined.

(** ** split_fba_balance and distribute_fba_balances: where the fees go *)

Lemma map_fold_sum_insert {A} (g : A -> Z) (m : gmap Z A) k v :
  map_fold (fun _ x s => g x + s) 0 (<[k := v]> m)
  = map_fold (fun _ x s => g x + s) 0 m - from_option g 0 (m !! k) + g v.
Proof.
  assert (Hfresh : forall (m' : gmap Z A) y, m' !! k = None ->
            map_fold (fun _ x s => g x + s) 0 (<[k := y]> m')
            = g y + map_fold (fun _ x s => g x + s) 0 m').
  { intros m' y Hk. rewrite map_fold_insert_L; [done| |done]. intros. lia. }
  destruct (m !! k) as [x|] eqn:Hk; simpl.
  - rewrite <- (insert_delete_eq m k v).
    rewrite <- (insert_delete_id m k x Hk) at 2.
    rewrite !Hfresh by apply lookup_delete_eq. lia.
  - rewrite Hfresh by done. lia.
Qed.

Section FbaFacts.
Context `{Config} `{Collaborators}.

Lemma burn_core_frame amount db db' :
    burn_core amount db = Some db' ->
    current_supply (core_dd db') = current_supply (core_dd db) - amount
    /\ fba_index db' = fba_index db
    /\ core_balances db' = core_balances db
    /\ applied_operations db' = applied_operations db.
  Proof.
    unfold burn_core. intros Hb.
    apply bind_Some in Hb as (s & Hs & Hb). apply safe_sub_Some in Hs as [-> _].
    by inversion Hb.
  Qed.

Lemma fba_credit_frame id account amount db db' :
    fba_credit id account amount db = Some db' ->
    core_dd db' = core_dd db
    /\ fba_index db' = fba_index db
    /\ balance_total db' = balance_total db + amount.
  Proof.
    unfold fba_credit. destruct (Z.eqb_spec amount 0) as [->|Hne]; simpl; intros Hc.
    - inversion Hc. repeat split; lia.
    - apply bind_Some in Hc as (db1 & Hb & Hc). unfold adjust_balance in Hb.
      apply bind_Some in Hb as (b & Hb' & Hb). apply safe_add_Some in Hb' as [-> _].
      inversion Hb; subst db1. inversion Hc; subst db'. simpl.
      split; [done|]. split; [done|].
      unfold balance_total, sum_map. simpl.
      rewrite (map_fold_sum_insert (fun x => x)).
      destruct (core_balances db !! account); simpl; lia.
  Qed.

Lemma zero_fba_frame id db db' :
    zero_fba id db = Some db' ->
    core_dd db' = core_dd db
    /\ core_balances db' = core_balances db
    /\ applied_operations db' = applied_operations db
    /\ (exists fba, fba_index db !! id = Some fba
                    /\ fba_index db' = <[id := set_accumulated_fba_fees 0 fba]> (fba_index db)
                    /\ fba_total db' = fba_total db - accumulated_fba_fees fba).
  Proof.
    unfold zero_fba. intros Hz. apply bind_Some in Hz as (fba & Hf & Hz).
    inversion Hz; subst db'. simpl. repeat split; try done.
    exists fba. split; [done|]. split; [done|].
    unfold fba_total. simpl. rewrite (map_fold_sum_insert accumulated_fba_fees).
    rewrite Hf. simpl. lia.
  Qed.

  (** The effect of a run of [split_fba_balance] on the pools, the supply
      and the balances. *)
Lemma split_fba_balance_frame db fba_id network_pct buyback_pct issuer_pct db' :
    split_fba_balance db fba_id network_pct buyback_pct issuer_pct = Some db' ->
    exists fba,
      fba_index db !! fba_id = Some fba
      /\ fba_index db' = <[fba_id := set_accumulated_fba_fees 0 fba]> (fba_index db)
      /\ current_supply (core_dd db') - balance_total db' - fba_total db'
         = current_supply (core_dd db) - balance_total db - fba_total db
      /\ (accumulated_fba_fees fba <> 0 -> is_configured fba db = false ->
          current_supply (core_dd db')
            = current_supply (core_dd db) - accumulated_fba_fees fba
          /\ core_balances db' = core_balances db
          /\ applied_operations db' = applied_operations db).
  Proof.
    unfold split_fba_balance. intros Hs.
    apply bind_Some in Hs as (u & _ & Hs).
    apply bind_Some in Hs as (fba & Hfba & Hs).
    exists fba. split; [done|].
    destruct (Z.eqb_spec (accumulated_fba_fees fba) 0) as [Hz|Hnz].
    { inversion Hs; subst db'. split.
      - rewrite insert_id; [done|]. rewrite Hfba. f_equal.
        destruct fba. simpl in *. by subst.
      - split; [done|]. intros Hne. done. }
    destruct (is_configured fba db) eqn:Hconf; simpl in Hs.
    - apply bind_Some in Hs as (both & Hboth & Hs). apply safe_add_Some in Hboth as [-> _].
      apply bind_Some in Hs as (u2 & _ & Hs).
      apply bind_Some in Hs as (net & Hnet & Hs). apply safe_sub_Some in Hnet as [-> _].
      apply bind_Some in Hs as (asset & _ & Hs).
      apply bind_Some in Hs as (designated & _ & Hs).
      apply bind_Some in Hs as (db1 & Hburn & Hs).
      apply bind_Some in Hs as (buyback_to & _ & Hs).
      apply bind_Some in Hs as (db2 & Hc1 & Hs).
      apply bind_Some in Hs as (db3 & Hc2 & Hs).
      apply zero_fba_frame in Hs as (Hz_core & Hz_bal & _ & fba3 & Hf3 & Hz_idx & Hz_tot).
      apply fba_credit_frame in Hc2 as (Hc2_core & Hc2_idx & Hc2_bal).
      apply fba_credit_frame in Hc1 as (Hc1_core & Hc1_idx & Hc1_bal).
      set (buyback := fba_share (accumulated_fba_fees fba) buyback_pct) in *.
      set (issuer_amount := fba_share (accumulated_fba_fees fba) issuer_pct) in *.
      assert (Hb1 : current_supply (core_dd db1)
                    = current_supply (core_dd db)
                      - (accumulated_fba_fees fba - (buyback + issuer_amount))
                    /\ fba_index db1 = fba_index db
                    /\ core_balances db1 = core_balances db).
      { destruct (Z.eqb_spec (accumulated_fba_fees fba - (buyback + issuer_amount)) 0)
          as [Hn0|Hn0]; simpl in Hburn.
        - inversion Hburn; subst db1. split; [lia|done].
        - apply burn_core_frame in Hburn as (? & ? & ? & _). done. }
      destruct Hb1 as (Hb1_core & Hb1_idx & Hb1_bal).
      assert (Hidx3 : fba_index db3 = fba_index db) by congruence.
      rewrite Hidx3, Hfba in Hf3. inversion Hf3; subst fba3. clear Hf3.
      split; [by rewrite Hz_idx, Hidx3|].
      split; [|intros _ ?; done].
      rewrite Hz_tot, Hz_core, Hc2_core, Hc1_core, Hb1_core.
      assert (Hbt : balance_total db' = balance_total db3)
        by (unfold balance_total; by rewrite Hz_bal).
      assert (Hb1t : balance_total db1 = balance_total db)
        by (unfold balance_total; by rewrite Hb1_bal).
      assert (Hft : fba_total db3 = fba_total db)
        by (unfold fba_total; by rewrite Hidx3).
      rewrite Hbt, Hc2_bal, Hc1_bal, Hb1t, Hft. lia.
    - apply bind_Some in Hs as (db1 & Hburn & Hs).
      apply burn_core_frame in Hburn as (Hb_core & Hb_idx & Hb_bal & Hb_ops).
      apply zero_fba_frame in Hs as (Hz_core & Hz_bal & Hz_ops & fba1 & Hf1 & Hz_idx & Hz_tot).
      rewrite Hb_idx, Hfba in Hf1. inversion Hf1; subst fba1. clear Hf1.
      split; [by rewrite Hz_idx, Hb_idx|].
      assert (Hbt : balance_total db' = balance_total db)
        by (unfold balance_total; by rewrite Hz_bal, Hb_bal).
      assert (Hft : fba_total db1 = fba_total db)
        by (unfold fba_total; by rewrite Hb_idx).
      split.
      + rewrite Hz_tot, Hz_core, Hb_core, Hbt, Hft. lia.
      + intros _ _. rewrite Hz_core, Hb_core, Hz_bal, Hb_bal, Hz_ops, Hb_ops. done.
  Qed.

  (** X17.  Whatever branch it takes, a run of [split_fba_balance] leaves
      its pool empty and every other pool as it was. *)
Theorem split_fba_balance_empties_pool
      db fba_id network_pct buyback_pct issuer_pct db' :
    split_fba_balance db fba_id network_pct buyback_pct issuer_pct = Some db' ->
    (exists fba', fba_index db' !! fba_id = Some fba' /\ accumulated_fba_fees fba' = 0)
    /\ forall other, other <> fba_id -> fba_index db' !! other = fba_index db !! other.
  Proof.
    intros Hs.
    destruct (split_fba_balance_frame _ _ _ _ _ _ Hs) as (fba & _ & Hidx & _).
    rewrite Hidx. split.
    - eexists. by rewrite lookup_insert_eq.
    - intros other Hne. by rewrite lookup_insert_ne.
  Qed.

  (** X18.  The fees of a pool that is not configured go to the network as
      a whole: the core supply drops by all the pool held, nobody is credited
      and no operation is recorded. *)
Theorem split_fba_balance_unconfigured
      db fba_id network_pct buyback_pct issuer_pct fba db' :
    fba_index db !! fba_id = Some fba ->
    accumulated_fba_fees fba <> 0 ->
    is_configured fba db = false ->
    split_fba_balance db fba_id network_pct buyback_pct issuer_pct = Some db' ->
    current_supply (core_dd db') = current_supply (core_dd db) - accumulated_fba_fees fba
    /\ core_balances db' = core_balances db
    /\ applied_operations db' = applied_operations db.
  Proof.
    intros Hfba Hnz Hconf Hs.
    destruct (split_fba_balance_frame _ _ _ _ _ _ Hs) as (fba0 & Hf0 & _ & _ & Hun).
    rewrite Hfba in Hf0. inversion Hf0; subst fba0. by apply Hun.
  Qed.

  (** X19.  [split_fba_balance] moves value and makes none: the core supply
      less all core balances less all pools is the same before and after a
      run, in every branch. *)
Theorem split_fba_balance_conserves
      db fba_id network_pct buyback_pct issuer_pct db' :
    split_fba_balance db fba_id network_pct buyback_pct issuer_pct = Some db' ->
    current_supply (core_dd db') - balance_total db' - fba_total db'
    = current_supply (core_dd db) - balance_total db - fba_total db.
  Proof.
    intros Hs. by destruct (split_fba_balance_frame _ _ _ _ _ _ Hs) as (fba & _ & _ & ? & _).
  Qed.

  (** X20.  [split_fba_balance] refuses to run when the three percentages
      do not add up to [GRAPHENE_100_PERCENT] or when the pool does not
      exist. *)
Theorem split_fba_balance_refuses db fba_id network_pct buyback_pct issuer_pct :
    u32 (u32 (u32 network_pct + u32 buyback_pct) + u32 issuer_pct) <> GRAPHENE_100_PERCENT
    \/ fba_index db !! fba_id = None ->
    split_fba_balance db fba_id network_pct buyback_pct issuer_pct = None.
  Proof.
    intros [Hsum|Hnone]; unfold split_fba_balance.
    - destruct (Z.eqb_spec (u32 (u32 (u32 network_pct + u32 buyback_pct) + u32 issuer_pct))
                  GRAPHENE_100_PERCENT); [done|]. done.
    - destruct (_ =? _); simpl; [|done]. by rewrite Hnone.
  Qed.

  (** X21.  After a run of [distribute_fba_balances] the three pools of
      blinded transfers are empty, and the core supply less all core balances
      less all pools is what it was. *)
Theorem distribute_fba_balances_empties_pools db db' :
    distribute_fba_balances db = Some db' ->
    (forall id, id = fba_accumulator_id_transfer_to_blind
                \/ id = fba_accumulator_id_blind_transfer
                \/ id = fba_accumulator_id_transfer_from_blind ->
       exists fba, fba_index db' !! id = Some fba /\ accumulated_fba_fees fba = 0)
    /\ current_supply (core_dd db') - balance_total db' - fba_total db'
       = current_supply (core_dd db) - balance_total db - fba_total db.
  Proof.
    unfold distribute_fba_balances. intros Hd.
    apply bind_Some in Hd as (db1 & H1 & Hd).
    apply bind_Some in Hd as (db2 & H2 & H3).
    destruct (split_fba_balance_frame _ _ _ _ _ _ H1) as (f1 & Hf1 & Hi1 & Hc1 & _).
    destruct (split_fba_balance_frame _ _ _ _ _ _ H2) as (f2 & Hf2 & Hi2 & Hc2 & _).
    destruct (split_fba_balance_frame _ _ _ _ _ _ H3) as (f3 & Hf3 & Hi3 & Hc3 & _).
    split; [|lia].
    assert (Hzero : forall (m : gmap Z fba_accumulator_object) k f j,
              (exists g, m !! j = Some g /\ accumulated_fba_fees g = 0) ->
              exists g, <[k := set_accumulated_fba_fees 0 f]> m !! j = Some g
                        /\ accumulated_fba_fees g = 0).
    { intros m k f j Hj. destruct (decide (k = j)) as [->|Hne].
      - rewrite lookup_insert_eq. eauto.
      - by rewrite lookup_insert_ne. }
    intros id [-> | [-> | ->]]; rewrite Hi3.
    - apply Hzero. rewrite Hi2. apply Hzero. rewrite Hi1, lookup_insert_eq. eauto.
    - apply Hzero. rewrite Hi2, lookup_insert_eq. eauto.
    - rewrite lookup_insert_eq. eauto.
  Qed.
End FbaFacts.

Lemma split_fba_balance_empties_pool_witness :
  exists db',
    @split_fba_balance Example.config Example.collaborators Scenario.db_three_pools 0
      2000 6000 2000 = Some db'
    /\ (exists fba', fba_index db' !! 0 = Some fba' /\ accumulated_fba_fees fba' = 0)
    /\ fba_index db' !! 1 = fba_index Scenario.db_three_pools !! 1.
Proof.
  destruct (@split_fba_balance Example.config Example.collaborators Scenario.db_three_pools 0
              2000 6000 2000) as [db'|] eqn:Hs; [|vm_compute in Hs; discriminate].
  destruct (@split_fba_balance_empties_pool Example.config Example.collaborators
              Scenario.db_three_pools 0 2000 6000 2000 db' Hs) as [Hpool Hothers].
  exists db'. split; [reflexivity|]. split; [exact Hpool|]. apply Hothers. discriminate.
Defined.

(** The pool without an asset: its 50 leave the supply and nobody is
    credited. *)
Lemma split_fba_balance_unconfigured_witness :
  exists db',
    @split_fba_balance Example.config Example.collaborators Scenario.db_three_pools 1
      2000 6000 2000 = Some db'
    /\ current_supply (core_dd db') = 999990000000000 - 50
    /\ core_balances db' = ∅.
Proof.
  destruct (@split_fba_balance Example.config Example.collaborators Scenario.db_three_pools 1
              2000 6000 2000) as [db'|] eqn:Hs; [|vm_compute in Hs; discriminate].
  destruct (@split_fba_balance_unconfigured Example.config Example.collaborators
              Scenario.db_three_pools 1 2000 6000 2000
              {| fba_object_id := 1; accumulated_fba_fees := 50; designated_asset := None |}
              db') as (Hsupply & Hbal & _).
  - reflexivity.
  - discriminate.
  - reflexivity.
  - exact Hs.
  - exists db'. split; [reflexivity|]. split; [exact Hsupply|exact Hbal].
Defined.

Lemma split_fba_balance_conserves_witness :
  exists db',
    @split_fba_balance Example.config Example.collaborators Scenario.db_three_pools 0
      2000 6000 2000 = Some db'
    /\ current_supply (core_dd db') - balance_total db' - fba_total db'
       = 999990000000000 - 0 - 1050.
Proof.
  destruct (@split_fba_balance Example.config Example.collaborators Scenario.db_three_pools 0
              2000 6000 2000) as [db'|] eqn:Hs; [|vm_compute in Hs; discriminate].
  exists db'. split; [reflexivity|].
  rewrite (@split_fba_balance_conserves Example.config Example.collaborators
             Scenario.db_three_pools 0 2000 6000 2000 db' Hs).
  vm_compute. reflexivity.
Defined.

(** Percentages of 10, 10 and 10 do not make a whole. *)
Lemma split_fba_balance_refuses_witness :
  @split_fba_balance Example.config Example.collaborators Scenario.db_three_pools 0
    1000 1000 1000 = None.
Proof.
  apply (@split_fba_balance_refuses Example.config Example.collaborators).
  left. vm_compute. discriminate.
Defined.

Lemma distribute_fba_balances_empties_pools_witness :
  exists db',
    @distribute_fba_balances Example.config Example.collaborators Scenario.db_three_pools
      = Some db'
    /\ (exists fba, fba_index db' !! 1 = Some fba /\ accumulated_fba_fees fba = 0)
    /\ current_supply (core_dd db') - balance_total db' - fba_total db'
       = 999990000000000 - 0 - 1050.
Proof.
  destruct (@distribute_fba_balances Example.config Example.collaborators
              Scenario.db_three_pools) as [db'|] eqn:Hd; [|vm_compute in Hd; discriminate].
  destruct (@distribute_fba_balances_empties_pools Example.config Example.collaborators
              Scenario.db_three_pools db' Hd) as [Hpools Hcons].
  exists db'. split; [reflexivity|]. split.
  - apply (Hpools 1). right. left. reflexivity.
  - rewrite Hcons. vm_compute. reflexivity.
Defined.

(** ** vote_tally_helper: the scratch buffers *)

Section BufferFacts.

Lemma length_resize n v : 0 <= n -> vsize (resize n v) = n.
  Proof.
    intros Hn. unfold vsize, resize.
    rewrite length_app, length_take, length_replicate. lia.
  Qed.

Lemma resize_nil n : resize n [] = replicate (Z.to_nat n) 0.
  Proof. unfold resize. rewrite take_nil. simpl. f_equal. lia. Qed.

Lemma length_vadd v i x : length (vadd v i x) = length v.
  Proof. unfold vadd. apply length_insert. Qed.

Lemma vget_vadd_eq v i x :
    0 <= i < vsize v -> vget (vadd v i x) i = u64 (vget v i + x).
  Proof.
    intros Hi. unfold vsize in Hi. unfold vadd. unfold vget at 1.
    destruct (Z.ltb_spec i 0); [lia|].
    rewrite list_lookup_insert_eq by lia. done.
  Qed.

Lemma vget_vadd_ne v i j x :
    0 <= i -> 0 <= j -> i <> j -> vget (vadd v i x) j = vget v j.
  Proof.
    intros Hi Hj Hne. unfold vadd, vget.
    destruct (Z.ltb_spec j 0); [done|].
    rewrite list_lookup_insert_ne by lia. done.
  Qed.

Lemma buffer_total_insert (v : list Z) (n : nat) y :
    buffer_total (<[n := y]> v)
    = if decide (n < length v)%nat then buffer_total v - default 0 (v !! n) + y
      else buffer_total v.
  Proof.
    revert n. induction v as [|c v IH]; intros [|n]; simpl; try done.
    - lia.
    - rewrite IH. destruct (decide (n < length v)%nat), (decide (S n < S (length v))%nat);
        unfold buffer_total in *; simpl; lia.
  Qed.

Lemma Forall_nonneg_vadd v i x :
    Forall (fun c => 0 <= c) v -> Forall (fun c => 0 <= c) (vadd v i x).
  Proof.
    intros Hv. unfold vadd. apply Forall_insert; [done|].
    unfold u64. apply Z.mod_pos_bound. lia.
  Qed.

  (** Adding [x >= 0] to a cell raises the sum of the buffer by at most
      [x]. *)
Lemma buffer_total_vadd v i x :
    Forall (fun c => 0 <= c) v -> 0 <= i -> 0 <= x ->
    buffer_total (vadd v i x) <= buffer_total v + x.
  Proof.
    intros Hv Hi Hx. unfold vadd. rewrite buffer_total_insert.
    destruct (decide (Z.to_nat i < length v)%nat) as [Hlt|]; [|lia].
    unfold vget. destruct (Z.ltb_spec i 0); [lia|].
    destruct (v !! Z.to_nat i) as [c|] eqn:Hc; simpl.
    - assert (0 <= c).
      { rewrite Forall_forall in Hv. apply Hv. by eapply list_elem_of_lookup_2. }
      assert (u64 (c + x) <= c + x); [|lia].
      unfold u64. apply Z.mod_le; lia.
    - apply lookup_ge_None in Hc. lia.
  Qed.
End BufferFacts.

Section TallyFacts.
Context `{Config} `{Collaborators}.

  (** X22.  The constructor of the helper sizes the three buffers from the
      global properties (one tally cell per vote id handed out, one histogram
      bucket per two witnesses or committee members up to the maximum, so
      that neither histogram is empty) and zeroes the total voting stake;
      buffers that were empty on entry hold nothing but zeros. *)
Theorem vote_tally_helper_init_sizes db :
    0 <= next_available_vote_id (gpo db) ->
    0 <= maximum_witness_count (parameters (gpo db)) ->
    0 <= maximum_committee_count (parameters (gpo db)) ->
    let db' := vote_tally_helper_init db in
    vsize (_vote_tally_buffer db') = next_available_vote_id (gpo db)
    /\ vsize (_witness_count_histogram_buffer db')
         = maximum_witness_count (parameters (gpo db)) / 2 + 1
    /\ vsize (_committee_count_histogram_buffer db')
         = maximum_committee_count (parameters (gpo db)) / 2 + 1
    /\ 0 < vsize (_witness_count_histogram_buffer db')
    /\ 0 < vsize (_committee_count_histogram_buffer db')
    /\ _total_voting_stake db' = 0
    /\ (_vote_tally_buffer db = [] -> _witness_count_histogram_buffer db = [] ->
        _committee_count_histogram_buffer db = [] ->
        Forall (fun c => c = 0) (_vote_tally_buffer db')
        /\ Forall (fun c => c = 0) (_witness_count_histogram_buffer db')
        /\ Forall (fun c => c = 0) (_committee_count_histogram_buffer db')).
  Proof.
    intros Hn Hw Hc. cbv zeta. unfold vote_tally_helper_init. simpl.
    assert (0 <= maximum_witness_count (parameters (gpo db)) / 2)
      by (apply Z.div_pos; lia).
    assert (0 <= maximum_committee_count (parameters (gpo db)) / 2)
      by (apply Z.div_pos; lia).
    rewrite !length_resize by lia.
    split; [done|]. split; [done|]. split; [done|]. split; [lia|]. split; [lia|].
    split; [done|]. intros -> -> ->. rewrite !resize_nil.
    repeat split; by apply Forall_replicate.
  Qed.

  (** X24.  As long as the total voting stake does not wrap, a call of the
      helper keeps the histograms within the stake counted: every account
      adds its stake to the total and to at most one bucket of each
      histogram. *)
Theorem vote_tally_helper_keeps_histograms db stake_account db' :
    0 < vsize (_witness_count_histogram_buffer db) ->
    0 < vsize (_committee_count_histogram_buffer db) ->
    histograms_within_stake db ->
    _total_voting_stake db + voting_stake db stake_account < 2 ^ 64 ->
    vote_tally_helper db stake_account = Some db' ->
    histograms_within_stake db'.
  Proof.
    intros _ _ (Hw & Hc & Hwt & Hct) Hwrap. unfold vote_tally_helper.
    destruct (_ || _); [|intros Hv; inversion Hv; by subst].
    intros Hv. apply bind_Some in Hv as (opinion & _ & Hv).
    inversion Hv; subst db'. clear Hv.
    assert (Hs : 0 <= voting_stake db stake_account).
    { unfold voting_stake, u64. apply Z.mod_pos_bound. lia. }
    set (s := voting_stake db stake_account) in *.
    assert (Htot : 0 <= buffer_total (_witness_count_histogram_buffer db)).
    { clear -Hw. induction Hw; unfold buffer_total in *; simpl; lia. }
    assert (Hoff : forall x, 0 <= u16 x) by (intros x; unfold u16; apply Z.mod_pos_bound; lia).
    unfold histograms_within_stake.
    destruct (num_witness (options opinion) <=? _),
             (num_committee (options opinion) <=? _); simpl;
      rewrite (u64_small (_total_voting_stake db + s)) by lia;
      repeat split;
      first [ by apply Forall_nonneg_vadd | done
            | (etrans; [apply buffer_total_vadd; [done|apply Hoff|done]|lia]) | lia ].
  Qed.

Lemma u64_add_u64_l a b : u64 (u64 a + b) = u64 (a + b).
  Proof. unfold u64. apply Zplus_mod_idemp_l. Qed.

Lemma tally_votes_get stake ids : forall buf j,
    0 <= j < vsize buf ->
    vget (foldl (tally_vote stake) buf ids) j
    = if decide (votes_on_cell ids j = 0) then vget buf j
      else u64 (vget buf j + votes_on_cell ids j * stake).
  Proof.
    induction ids as [|id ids IH]; intros buf j Hj; [done|]. simpl.
    assert (Ho : 0 <= u32 (instance id)) by (unfold u32; apply Z.mod_pos_bound; lia).
    assert (Hsz : vsize (tally_vote stake buf id) = vsize buf).
    { unfold tally_vote, vsize. destruct (_ <? _); [by rewrite length_vadd|done]. }
    rewrite IH by lia. unfold votes_on_cell. rewrite filter_cons.
    fold (votes_on_cell ids j).
    assert (Hk : 0 <= votes_on_cell ids j) by (unfold votes_on_cell; lia).
    unfold tally_vote.
    destruct (decide (u32 (instance id) = j)) as [Heq|Hne].
    - rewrite Heq.
      destruct (Z.ltb_spec j (vsize buf)); [|lia].
      rewrite vget_vadd_eq by lia. simpl length.
      destruct (decide (Z.of_nat (S _) = 0)); [lia|].
      destruct (decide (votes_on_cell ids j = 0)) as [Hz|_].
      + f_equal. unfold votes_on_cell in Hz. lia.
      + rewrite u64_add_u64_l. f_equal. unfold votes_on_cell. lia.
    - assert (vget (if u32 (instance id) <? vsize buf
                    then vadd buf (u32 (instance id)) stake else buf) j = vget buf j)
        as ->; [|done].
      destruct (_ <? _); [|done]. apply vget_vadd_ne; lia.
  Qed.

  (** X25.  When an account's stake is counted, every cell of the vote
      tally grows, modulo [2^64], by the stake once for each vote id of the
      opinion account that has the cell's index as its instance; cells that
      no vote id names stay as they were. *)
Theorem vote_tally_helper_tally db stake_account opinion db' j :
    count_non_member_votes (parameters (gpo db))
      || is_member stake_account (head_block_time db) = true ->
    opinion_account db stake_account = Some opinion ->
    0 <= j < vsize (_vote_tally_buffer db) ->
    vote_tally_helper db stake_account = Some db' ->
    vget (_vote_tally_buffer db') j
    = if decide (votes_on_cell (votes (options opinion)) j = 0)
      then vget (_vote_tally_buffer db) j
      else u64 (vget (_vote_tally_buffer db) j
                + votes_on_cell (votes (options opinion)) j
                  * voting_stake db stake_account).
  Proof.
    intros Hcount Hop Hj. unfold vote_tally_helper. rewrite Hcount.
    unfold opinion_account in Hop. rewrite Hop.
    intros Hv. apply bind_Some in Hv as (op & Heq & Hv).
    inversion Heq; subst op. inversion Hv; subst db'. clear Hv Heq.
    rewrite <- (tally_votes_get _ _ _ _ Hj).
    destruct (num_witness (options opinion) <=? _),
             (num_committee (options opinion) <=? _); done.
  Qed.

  (** X26.  With the histograms sized as the constructor leaves them, an
      opinion for [n] witnesses and [m] committee members, neither above its
      maximum, adds the stake to bucket [n / 2] of the witness histogram and
      to bucket [m / 2] of the committee histogram, and to no other bucket:
      the cap at the last bucket never comes into play. *)
Theorem vote_tally_helper_buckets db stake_account opinion db' j :
    count_non_member_votes (parameters (gpo db))
      || is_member stake_account (head_block_time db) = true ->
    opinion_account db stake_account = Some opinion ->
    vsize (_witness_count_histogram_buffer db)
      = maximum_witness_count (parameters (gpo db)) / 2 + 1 ->
    vsize (_committee_count_histogram_buffer db)
      = maximum_committee_count (parameters (gpo db)) / 2 + 1 ->
    0 <= num_witness (options opinion)
      <= maximum_witness_count (parameters (gpo db)) ->
    0 <= num_committee (options opinion)
      <= maximum_committee_count (parameters (gpo db)) ->
    maximum_witness_count (parameters (gpo db)) < 2 ^ 16 ->
    maximum_committee_count (parameters (gpo db)) < 2 ^ 16 ->
    0 <= j ->
    vote_tally_helper db stake_account = Some db' ->
    vget (_witness_count_histogram_buffer db') j
      = (if decide (j = num_witness (options opinion) / 2)
         then u64 (vget (_witness_count_histogram_buffer db) j
                   + voting_stake db stake_account)
         else vget (_witness_count_histogram_buffer db) j)
    /\ vget (_committee_count_histogram_buffer db') j
      = (if decide (j = num_committee (options opinion) / 2)
         then u64 (vget (_committee_count_histogram_buffer db) j
                   + voting_stake db stake_account)
         else vget (_committee_count_histogram_buffer db) j).
  Proof.
    intros Hcount Hop Hws Hcs Hn Hm Hmw Hmc Hj. unfold vote_tally_helper.
    rewrite Hcount. unfold opinion_account in Hop. rewrite Hop.
    intros Hv. apply bind_Some in Hv as (op & Heq & Hv).
    inversion Heq; subst op. inversion Hv; subst db'. clear Hv Heq.
    destruct (Z.leb_spec (num_witness (options opinion))
                (maximum_witness_count (parameters (gpo db)))); [|lia].
    destruct (Z.leb_spec (num_committee (options opinion))
                (maximum_committee_count (parameters (gpo db)))); [|lia].
    set (n := num_witness (options opinion)) in *.
    set (m := num_committee (options opinion)) in *.
    set (s := voting_stake db stake_account).
    assert (Hn2 : 0 <= n / 2 <= maximum_witness_count (parameters (gpo db)) / 2).
    { split; [apply Z.div_pos; lia|apply Z.div_le_mono; lia]. }
    assert (Hm2 : 0 <= m / 2 <= maximum_committee_count (parameters (gpo db)) / 2).
    { split; [apply Z.div_pos; lia|apply Z.div_le_mono; lia]. }
    assert (Hw2 : maximum_witness_count (parameters (gpo db)) / 2 < 2 ^ 16).
    { apply Z.div_lt_upper_bound; lia. }
    assert (Hc2 : maximum_committee_count (parameters (gpo db)) / 2 < 2 ^ 16).
    { apply Z.div_lt_upper_bound; lia. }
    simpl. rewrite Hws, Hcs.
    replace (maximum_witness_count (parameters (gpo db)) / 2 + 1 - 1)
      with (maximum_witness_count (parameters (gpo db)) / 2) by lia.
    replace (maximum_committee_count (parameters (gpo db)) / 2 + 1 - 1)
      with (maximum_committee_count (parameters (gpo db)) / 2) by lia.
    rewrite (u64_small (maximum_witness_count (parameters (gpo db)) / 2)),
            (u64_small (maximum_committee_count (parameters (gpo db)) / 2)) by lia.
    rewrite (Z.min_l (n / 2)), (Z.min_l (m / 2)) by lia.
    rewrite (u16_small (n / 2)), (u16_small (m / 2)) by lia.
    split.
    - destruct (decide (j = n / 2)) as [->|Hne].
      + apply vget_vadd_eq. lia.
      + apply vget_vadd_ne; lia.
    - destruct (decide (j = m / 2)) as [->|Hne].
      + apply vget_vadd_eq. lia.
      + apply vget_vadd_ne; lia.
  Qed.
  (** X23.  Whatever the size of a histogram that is not empty, the bucket
      the helper writes to exists: an opinion for [n] witnesses, [n] within
      the maximum, adds the stake to bucket [min (n / 2) last], [last]
      being the last bucket, and to no other bucket, so that an opinion
      beyond the buckets of the histogram is counted in the last one; the
      same holds for the committee. *)
Theorem vote_tally_helper_bucket_exists db stake_account opinion db' j :
    count_non_member_votes (parameters (gpo db))
      || is_member stake_account (head_block_time db) = true ->
    opinion_account db stake_account = Some opinion ->
    0 < vsize (_witness_count_histogram_buffer db) < 2 ^ 64 ->
    0 < vsize (_committee_count_histogram_buffer db) < 2 ^ 64 ->
    0 <= num_witness (options opinion) < 2 ^ 16 ->
    num_witness (options opinion) <= maximum_witness_count (parameters (gpo db)) ->
    0 <= num_committee (options opinion) < 2 ^ 16 ->
    num_committee (options opinion)
      <= maximum_committee_count (parameters (gpo db)) ->
    0 <= j ->
    vote_tally_helper db stake_account = Some db' ->
    let witness_bucket :=
      Z.min (num_witness (options opinion) / 2)
            (vsize (_witness_count_histogram_buffer db) - 1) in
    let committee_bucket :=
      Z.min (num_committee (options opinion) / 2)
            (vsize (_committee_count_histogram_buffer db) - 1) in
    0 <= witness_bucket < vsize (_witness_count_histogram_buffer db)
    /\ 0 <= committee_bucket < vsize (_committee_count_histogram_buffer db)
    /\ vget (_witness_count_histogram_buffer db') j
       = (if decide (j = witness_bucket)
          then u64 (vget (_witness_count_histogram_buffer db) j
                    + voting_stake db stake_account)
          else vget (_witness_count_histogram_buffer db) j)
    /\ vget (_committee_count_histogram_buffer db') j
       = (if decide (j = committee_bucket)
          then u64 (vget (_committee_count_histogram_buffer db) j
                    + voting_stake db stake_account)
          else vget (_committee_count_histogram_buffer db) j).
  Proof.
    intros Hcount Hop Hws Hcs Hn Hnmax Hm Hmmax Hj. unfold vote_tally_helper.
    rewrite Hcount. unfold opinion_account in Hop. rewrite Hop.
    intros Hv. apply bind_Some in Hv as (op & Heq & Hv).
    inversion Heq; subst op. inversion Hv; subst db'. clear Hv Heq.
    destruct (Z.leb_spec (num_witness (options opinion))
                (maximum_witness_count (parameters (gpo db)))); [|lia].
    destruct (Z.leb_spec (num_committee (options opinion))
                (maximum_committee_count (parameters (gpo db)))); [|lia].
    set (n := num_witness (options opinion)) in *.
    set (m := num_committee (options opinion)) in *.
    set (s := voting_stake db stake_account).
    assert (Hn2 : 0 <= n / 2 < 2 ^ 15).
    { split; [apply Z.div_pos; lia|apply Z.div_lt_upper_bound; lia]. }
    assert (Hm2 : 0 <= m / 2 < 2 ^ 15).
    { split; [apply Z.div_pos; lia|apply Z.div_lt_upper_bound; lia]. }
    cbv zeta. simpl.
    set (sw := vsize (_witness_count_histogram_buffer db)) in *.
    set (sc := vsize (_committee_count_histogram_buffer db)) in *.
    rewrite (u64_small (sw - 1)), (u64_small (sc - 1)) by lia.
    rewrite (u16_small (Z.min (n / 2) (sw - 1))),
            (u16_small (Z.min (m / 2) (sc - 1))) by lia.
    split; [lia|]. split; [lia|]. split.
    - destruct (decide (j = Z.min (n / 2) (sw - 1))) as [Heq|Hne].
      + rewrite Heq. apply vget_vadd_eq. fold sw. lia.
      + apply vget_vadd_ne; lia.
    - destruct (decide (j = Z.min (m / 2) (sc - 1))) as [Heq|Hne].
      + rewrite Heq. apply vget_vadd_eq. fold sc. lia.
      + apply vget_vadd_ne; lia.
  Qed.
End TallyFacts.

(** The example state hands out ten vote ids and allows five witnesses and
    five committee members. *)
Lemma vote_tally_helper_init_sizes_witness :
  vsize (_vote_tally_buffer (vote_tally_helper_init Example.db_tally)) = 10
  /\ vsize (_witness_count_histogram_buffer (vote_tally_helper_init Example.db_tally)) = 3
  /\ _total_voting_stake (vote_tally_helper_init Example.db_tally) = 0.
Proof.
  destruct (vote_tally_helper_init_sizes Example.db_tally) as (Ht & Hw & _ & _ & _ & Hs & _).
  - vm_compute. discriminate.
  - vm_compute. discriminate.
  - vm_compute. discriminate.
  - rewrite Ht, Hw, Hs. vm_compute. repeat split; reflexivity.
Defined.

(** Histograms of two buckets and an opinion for four witnesses and
    three committee members: the stake of 100 goes to the last bucket of
    each. *)
Lemma vote_tally_helper_bucket_exists_witness :
  exists db',
    @vote_tally_helper Example.config Example.collaborators
      Scenario.db_short (Example.voter 4) = Some db'
    /\ vget (_witness_count_histogram_buffer db') 1 = 107
    /\ vget (_committee_count_histogram_buffer db') 1 = 100.
Proof.
  destruct (@vote_tally_helper Example.config Example.collaborators
              Scenario.db_short (Example.voter 4))
    as [db'|] eqn:Hv; [|vm_compute in Hv; discriminate].
  exists db'. split; [reflexivity|].
  destruct (@vote_tally_helper_bucket_exists Example.config Example.collaborators
              Scenario.db_short (Example.voter 4) (Example.voter 4) db' 1)
    as (_ & _ & Hw & Hc).
  - vm_compute. reflexivity.
  - vm_compute. reflexivity.
  - vm_compute. split; reflexivity.
  - vm_compute. split; reflexivity.
  - vm_compute. split; [discriminate|reflexivity].
  - vm_compute. discriminate.
  - vm_compute. split; [discriminate|reflexivity].
  - vm_compute. discriminate.
  - vm_compute. discriminate.
  - exact Hv.
  - rewrite Hw, Hc. vm_compute. split; reflexivity.
Defined.

Lemma vote_tally_helper_keeps_histograms_witness :
  exists db',
    @vote_tally_helper Example.config Example.collaborators
      (vote_tally_helper_init Example.db_tally) (Example.voter 5) = Some db'
    /\ histograms_within_stake db'.
Proof.
  destruct (@vote_tally_helper Example.config Example.collaborators
              (vote_tally_helper_init Example.db_tally) (Example.voter 5))
    as [db'|] eqn:Hv; [|vm_compute in Hv; discriminate].
  exists db'. split; [reflexivity|].
  apply (@vote_tally_helper_keeps_histograms Example.config Example.collaborators
           (vote_tally_helper_init Example.db_tally) (Example.voter 5) db').
  - vm_compute. reflexivity.
  - vm_compute. reflexivity.
  - unfold histograms_within_stake. split; [|split; [|split]].
    + vm_compute. repeat (apply Forall_cons_2; [discriminate|]). apply Forall_nil_2.
    + vm_compute. repeat (apply Forall_cons_2; [discriminate|]). apply Forall_nil_2.
    + vm_compute. discriminate.
    + vm_compute. discriminate.
  - vm_compute. reflexivity.
  - exact Hv.
Defined.

(** The delegator's stake of 40 goes to the two candidates its proxy has
    named. *)
Lemma vote_tally_helper_tally_witness :
  exists db',
    @vote_tally_helper Example.config Example.collaborators
      Scenario.db_proxy Scenario.delegator = Some db'
    /\ vget (_vote_tally_buffer db') 7 = 140
    /\ vget (_vote_tally_buffer db') 4 = 200.
Proof.
  destruct (@vote_tally_helper Example.config Example.collaborators
              Scenario.db_proxy Scenario.delegator)
    as [db'|] eqn:Hv; [|vm_compute in Hv; discriminate].
  exists db'. split; [reflexivity|]. split.
  - rewrite (@vote_tally_helper_tally Example.config Example.collaborators
               Scenario.db_proxy Scenario.delegator Scenario.proxy db' 7).
    + vm_compute. reflexivity.
    + vm_compute. reflexivity.
    + vm_compute. reflexivity.
    + vm_compute. split; [discriminate|reflexivity].
    + exact Hv.
  - rewrite (@vote_tally_helper_tally Example.config Example.collaborators
               Scenario.db_proxy Scenario.delegator Scenario.proxy db' 4).
    + vm_compute. reflexivity.
    + vm_compute. reflexivity.
    + vm_compute. reflexivity.
    + vm_compute. split; [discriminate|reflexivity].
    + exact Hv.
Defined.

(** The proxy asks for four witnesses and three committee members. *)
Lemma vote_tally_helper_buckets_witness :
  exists db',
    @vote_tally_helper Example.config Example.collaborators
      (vote_tally_helper_init Scenario.db_proxy) Scenario.delegator = Some db'
    /\ vget (_witness_count_histogram_buffer db') 2 = 40
    /\ vget (_committee_count_histogram_buffer db') 2 = 0.
Proof.
  destruct (@vote_tally_helper Example.config Example.collaborators
              (vote_tally_helper_init Scenario.db_proxy) Scenario.delegator)
    as [db'|] eqn:Hv; [|vm_compute in Hv; discriminate].
  exists db'. split; [reflexivity|].
  destruct (@vote_tally_helper_buckets Example.config Example.collaborators
              (vote_tally_helper_init Scenario.db_proxy) Scenario.delegator
              Scenario.proxy db' 2) as [Hw Hc].
  - vm_compute. reflexivity.
  - vm_compute. reflexivity.
  - vm_compute. reflexivity.
  - vm_compute. reflexivity.
  - vm_compute. split; discriminate.
  - vm_compute. split; discriminate.
  - vm_compute. reflexivity.
  - vm_compute. reflexivity.
  - vm_compute. discriminate.
  - exact Hv.
  - rewrite Hw, Hc. vm_compute. split; reflexivity.
Defined.

(** ** The next maintenance time *)

Section NextMaintenanceTime.
Context `{Hardfork616}.

  (** X27.  After a maintenance that is due, on any block but the first and
      away from the hardfork, the next maintenance time has moved by a whole
      number of intervals, at least one, to the first such time after the
      head block: it exceeds the head block time by at most one interval. *)
Theorem advance_next_maintenance_time_ordinary db timestamp block_num :
    block_num <> 1 ->
    head_block_time db <> HARDFORK_616_MAINTENANCE_CHANGE_TIME ->
    0 < maintenance_interval (parameters (gpo db)) ->
    next_maintenance_time (dpo db) <= timestamp ->
    0 <= next_maintenance_time (dpo db) <= head_block_time db ->
    head_block_time db + maintenance_interval (parameters (gpo db)) < 2 ^ 32 ->
    exists next' k,
      advance_next_maintenance_time db timestamp block_num = Some next'
      /\ 0 < k
      /\ next' = next_maintenance_time (dpo db)
                 + k * maintenance_interval (parameters (gpo db))
      /\ head_block_time db < next'
           <= head_block_time db + maintenance_interval (parameters (gpo db)).
  Proof.
    intros Hb Hhf Hi Hdue Hn Hmax. unfold advance_next_maintenance_time.
    set (next := next_maintenance_time (dpo db)) in *.
    set (interval := maintenance_interval (parameters (gpo db))) in *.
    set (head := head_block_time db) in *.
    destruct (Z.leb_spec next timestamp); [|lia].
    destruct (Z.eqb_spec interval 0); [lia|].
    destruct (Z.eqb_spec block_num 1); [lia|].
    destruct (Z.eqb_spec head HARDFORK_616_MAINTENANCE_CHANGE_TIME); [lia|].
    rewrite Z.quot_div_nonneg by lia.
    set (y := (head - next) / interval).
    assert (Hy : interval * y <= head - next < interval * y + interval).
    { pose proof (Z.div_mod (head - next) interval ltac:(lia)).
      pose proof (Z.mod_pos_bound (head - next) interval ltac:(lia)).
      fold y in H0. lia. }
    assert (0 <= y) by (apply Z.div_pos; lia).
    replace ((8 * y + 8) * interval) with ((y + 1) * interval * 8) by lia.
    rewrite Z.quot_mul by lia.
    destruct (Z.ltb_spec (-8) ((y + 1) * interval * 8)); [|nia].
    destruct (Z.ltb_spec ((y + 1) * interval * 8) (8 * 2 ^ 32)); [|nia].
    simpl. exists (u32 (next + (y + 1) * interval)), (y + 1).
    rewrite u32_small by nia. repeat split; nia.
  Qed.

  (** X28.  On the first block the next maintenance time becomes the first
      multiple of the interval, counted from the epoch, after the timestamp
      of the block. *)
Theorem advance_next_maintenance_time_first_block db timestamp :
    0 < maintenance_interval (parameters (gpo db)) ->
    next_maintenance_time (dpo db) <= timestamp ->
    0 <= timestamp ->
    timestamp + maintenance_interval (parameters (gpo db)) < 2 ^ 32 ->
    exists next' k,
      advance_next_maintenance_time db timestamp 1 = Some next'
      /\ next' = k * maintenance_interval (parameters (gpo db))
      /\ timestamp < next'
           <= timestamp + maintenance_interval (parameters (gpo db)).
  Proof.
    intros Hi Hdue Ht Hmax. unfold advance_next_maintenance_time.
    set (next := next_maintenance_time (dpo db)) in *.
    set (interval := maintenance_interval (parameters (gpo db))) in *.
    destruct (Z.leb_spec next timestamp); [|lia].
    destruct (Z.eqb_spec interval 0); [lia|].
    simpl (1 =? 1). cbv iota.
    set (q := timestamp / interval).
    assert (Hq : interval * q <= timestamp < interval * q + interval).
    { pose proof (Z.div_mod timestamp interval ltac:(lia)).
      pose proof (Z.mod_pos_bound timestamp interval ltac:(lia)).
      fold q in H0. lia. }
    assert (0 <= q) by (apply Z.div_pos; lia).
    exists (u32 (0 + u32 (u32 (q + 1) * interval))), (q + 1).
    rewrite Z.add_0_l. rewrite (u32_small (q + 1)) by nia.
    rewrite !(u32_small ((q + 1) * interval)) by nia.
    repeat split; nia.
  Qed.

  (** X29.  At the hardfork the next maintenance time is put three eighths
      of an interval, rounded down to the second, after the last time at
      which a maintenance was due, the head block lying less than a whole
      interval after that time. *)
Theorem advance_next_maintenance_time_shift db timestamp block_num :
    block_num <> 1 ->
    head_block_time db = HARDFORK_616_MAINTENANCE_CHANGE_TIME ->
    0 < maintenance_interval (parameters (gpo db)) ->
    next_maintenance_time (dpo db) <= timestamp ->
    0 <= next_maintenance_time (dpo db) <= head_block_time db ->
    head_block_time db + maintenance_interval (parameters (gpo db)) < 2 ^ 32 ->
    exists next' k,
      advance_next_maintenance_time db timestamp block_num = Some next'
      /\ 0 <= k
      /\ next_maintenance_time (dpo db)
           + k * maintenance_interval (parameters (gpo db))
         <= head_block_time db
         < next_maintenance_time (dpo db)
           + (k + 1) * maintenance_interval (parameters (gpo db))
      /\ next' = next_maintenance_time (dpo db)
                 + k * maintenance_interval (parameters (gpo db))
                 + 3 * maintenance_interval (parameters (gpo db)) / 8.
  Proof.
    intros Hb Hhf Hi Hdue Hn Hmax. unfold advance_next_maintenance_time.
    rewrite <- Hhf.
    set (next := next_maintenance_time (dpo db)) in *.
    set (interval := maintenance_interval (parameters (gpo db))) in *.
    set (head := head_block_time db) in *.
    destruct (Z.leb_spec next timestamp); [|lia].
    destruct (Z.eqb_spec interval 0); [lia|].
    destruct (Z.eqb_spec block_num 1); [lia|].
    rewrite Z.eqb_refl.
    rewrite Z.quot_div_nonneg by lia.
    set (y := (head - next) / interval).
    assert (Hy : interval * y <= head - next < interval * y + interval).
    { pose proof (Z.div_mod (head - next) interval ltac:(lia)).
      pose proof (Z.mod_pos_bound (head - next) interval ltac:(lia)).
      fold y in H0. lia. }
    assert (0 <= y) by (apply Z.div_pos; lia).
    assert (Hq : Z.quot ((8 * y + 3) * interval) 8 = y * interval + 3 * interval / 8).
    { rewrite Z.quot_div_nonneg by nia.
      replace ((8 * y + 3) * interval) with (3 * interval + y * interval * 8) by lia.
      rewrite Z.div_add by lia. lia. }
    assert (H38 : 0 <= 3 * interval / 8 < interval).
    { split; [apply Z.div_pos; lia|apply Z.div_lt_upper_bound; lia]. }
    destruct (Z.ltb_spec (-8) ((8 * y + 3) * interval)); [|nia].
    destruct (Z.ltb_spec ((8 * y + 3) * interval) (8 * 2 ^ 32)); [|nia].
    simpl. exists (u32 (next + Z.quot ((8 * y + 3) * interval) 8)), y.
    rewrite Hq. rewrite u32_small by nia. repeat split; nia.
  Qed.
End NextMaintenanceTime.

(** The head block comes 196400 seconds late: two whole days have been
    missed. *)
Lemma advance_next_maintenance_time_ordinary_witness :
  exists next' k,
    @advance_next_maintenance_time Scenario.hardfork_616 (Scenario.db_late 196400) 1000200000 2 = Some next'
    /\ 0 < k
    /\ next' = 1000003600 + k * 86400
    /\ 1000200000 < next' <= 1000200000 + 86400.
Proof.
  apply (@advance_next_maintenance_time_ordinary Scenario.hardfork_616 (Scenario.db_late 196400) 1000200000 2).
  - discriminate.
  - vm_compute. discriminate.
  - vm_compute. reflexivity.
  - vm_compute. discriminate.
  - vm_compute. split; discriminate.
  - vm_compute. reflexivity.
Defined.

Lemma advance_next_maintenance_time_first_block_witness :
  exists next' k,
    @advance_next_maintenance_time Scenario.hardfork_616 (Scenario.db_late 196400) 1000200000 1 = Some next'
    /\ next' = k * 86400
    /\ 1000200000 < next' <= 1000200000 + 86400.
Proof.
  apply (@advance_next_maintenance_time_first_block Scenario.hardfork_616 (Scenario.db_late 196400) 1000200000).
  - vm_compute. reflexivity.
  - vm_compute. discriminate.
  - vm_compute. discriminate.
  - vm_compute. reflexivity.
Defined.

(** The head block of the hardfork comes 96400 seconds late. *)
Lemma advance_next_maintenance_time_shift_witness :
  exists next' k,
    @advance_next_maintenance_time Scenario.hardfork_616 (Scenario.db_late 96400) 1000100000 2 = Some next'
    /\ 0 <= k
    /\ 1000003600 + k * 86400 <= 1000100000 < 1000003600 + (k + 1) * 86400
    /\ next' = 1000003600 + k * 86400 + 3 * 86400 / 8.
Proof.
  apply (@advance_next_maintenance_time_shift Scenario.hardfork_616 (Scenario.db_late 96400) 1000100000 2).
  - discriminate.
  - vm_compute. reflexivity.
  - vm_compute. reflexivity.
  - vm_compute. discriminate.
  - vm_compute. split; discriminate.
  - vm_compute. reflexivity.
Defined.
